(** * Cuoral chat provider: session, socket and message-log lifecycle

    A shallow embedding of [src/context/CuoralContext.js] (the
    [CuoralProvider] component) and of the properties its design document
    states about it.

    The provider is a React component whose state lives in [useState] cells,
    one [useRef] cell holding the Socket.IO client, and one key of
    [AsyncStorage].  Every callback of the component is embedded as a
    function on a [World] record that gathers those cells, the stored key and
    the trace of outward effects (requests, socket emissions, sounds,
    notifications).  What the network answers, what [Date.now()] and
    [Math.random()] return, is passed to each callback as an argument. *)

From Stdlib Require Import ZArith List String Ascii Bool Lia.
From Stdlib Require Import Sorted Permutation DecimalString.
Import ListNotations.
Open Scope string_scope.
Open Scope Z_scope.

(** ** JavaScript values carried by the wire records

    The fields of the JSON records the backend sends are primitives.  Numbers
    are kept integral; JSON has no NaN and the code never compares objects, so
    [===] on these values is structural equality. *)

Inductive jsval : Type :=
| JUndefined
| JNull
| JBool (b : bool)
| JNum (n : Z)
| JStr (s : string).

(** [!!v] *)
Definition truthy (v : jsval) : bool :=
  match v with
  | JUndefined | JNull => false
  | JBool b => b
  | JNum n => negb (n =? 0)
  | JStr s => negb (s =? "")%string
  end.

(** [a === b] *)
Definition strict_eq (a b : jsval) : bool :=
  match a, b with
  | JUndefined, JUndefined => true
  | JNull, JNull => true
  | JBool x, JBool y => Bool.eqb x y
  | JNum x, JNum y => x =? y
  | JStr x, JStr y => (x =? y)%string
  | _, _ => false
  end.

(** [a || b] *)
Definition js_or (a b : jsval) : jsval := if truthy a then a else b.

(** [s || d] for a value that is a string, [null] or [undefined] *)
Definition str_or (o : option string) (d : string) : string :=
  match o with
  | Some s => if (s =? "")%string then d else s
  | None => d
  end.

(** [!!s] for a value that is a string, [null] or [undefined] *)
Definition truthy_str (o : option string) : bool :=
  match o with
  | Some s => negb (s =? "")%string
  | None => false
  end.

(** ** Strings

    A string of the program is held as the bytes of its UTF-8 encoding: an
    ASCII character is one byte, and no byte of a longer character is below
    128, so that comparing strings, looking for a space or for ['@'] and
    splitting at spaces are the same on the bytes as on the characters. *)

Definition lower_ascii (c : ascii) : ascii :=
  let n := nat_of_ascii c in
  if (Nat.leb 65 n && Nat.leb n 90)%bool then ascii_of_nat (n + 32) else c.

(** [String.prototype.toLowerCase], on the ASCII letters.  No character
    outside ASCII lowers to one of the letters of ['reply'], the only word
    the result is compared with. *)
Fixpoint toLowerCase (s : string) : string :=
  match s with
  | EmptyString => EmptyString
  | String c r => String (lower_ascii c) (toLowerCase r)
  end.

(** The white space of the language ([WhiteSpace] and [LineTerminator], what
    [trim] strips and [\s] matches), by the length of its encoding.  One
    byte: TAB, LF, VT, FF, CR and the space. *)
Definition is_space (c : ascii) : bool :=
  let n := nat_of_ascii c in
  (Nat.eqb n 32 || (Nat.leb 9 n && Nat.leb n 13))%bool.

(** Two bytes: U+00A0, the no-break space ([C2 A0]). *)
Definition is_space2 (c1 c2 : ascii) : bool :=
  (Nat.eqb (nat_of_ascii c1) 194 && Nat.eqb (nat_of_ascii c2) 160)%bool.

(** Three bytes: U+1680 ([E1 9A 80]); U+2000 to U+200A, U+2028, U+2029 and
    U+202F ([E2 80 80] to [E2 80 8A], [E2 80 A8], [E2 80 A9], [E2 80 AF]);
    U+205F ([E2 81 9F]); U+3000 ([E3 80 80]); U+FEFF ([EF BB BF]). *)
Definition is_space3 (c1 c2 c3 : ascii) : bool :=
  let b1 := nat_of_ascii c1 in
  let b2 := nat_of_ascii c2 in
  let b3 := nat_of_ascii c3 in
  ((Nat.eqb b1 225 && Nat.eqb b2 154 && Nat.eqb b3 128)
   || (Nat.eqb b1 226 && Nat.eqb b2 128
       && ((Nat.leb 128 b3 && Nat.leb b3 138)
           || Nat.eqb b3 168 || Nat.eqb b3 169 || Nat.eqb b3 175))
   || (Nat.eqb b1 226 && Nat.eqb b2 129 && Nat.eqb b3 159)
   || (Nat.eqb b1 227 && Nat.eqb b2 128 && Nat.eqb b3 128)
   || (Nat.eqb b1 239 && Nat.eqb b2 187 && Nat.eqb b3 191))%bool.

(** [String.prototype.trimStart]: the white space characters the string
    starts with are dropped. *)
Fixpoint trimStart (s : string) : string :=
  match s with
  | EmptyString => EmptyString
  | String c1 r1 =>
      if is_space c1 then trimStart r1
      else
        match r1 with
        | EmptyString => s
        | String c2 r2 =>
            if is_space2 c1 c2 then trimStart r2
            else
              match r2 with
              | EmptyString => s
              | String c3 r3 =>
                  if is_space3 c1 c2 c3 then trimStart r3 else s
              end
        end
  end.

(** The string is made of white space characters only. *)
Definition all_white (s : string) : bool := (trimStart s =? "")%string.

(** [String.prototype.trimEnd]: the white space characters the string ends
    with are dropped, that is, its longest ending made of white space. *)
Fixpoint trimEnd (s : string) : string :=
  match s with
  | EmptyString => EmptyString
  | String c r => if all_white s then EmptyString else String c (trimEnd r)
  end.

(** [String.prototype.trim] *)
Definition trim (s : string) : string := trimEnd (trimStart s).

(** The characters of a string, each as the bytes of its encoding: a first
    byte below [C0] stands alone, one from [C0] has one byte after it, from
    [E0] two, from [F0] three; a sequence cut short is taken byte by
    byte. *)
Fixpoint chars (s : string) : list string :=
  match s with
  | EmptyString => []
  | String c1 r1 =>
      let b1 := nat_of_ascii c1 in
      if Nat.ltb b1 192 then String c1 "" :: chars r1
      else
        match r1 with
        | EmptyString => [String c1 ""]
        | String c2 r2 =>
            if Nat.ltb b1 224 then String c1 (String c2 "") :: chars r2
            else
              match r2 with
              | EmptyString => String c1 "" :: chars r1
              | String c3 r3 =>
                  if Nat.ltb b1 240
                  then String c1 (String c2 (String c3 "")) :: chars r3
                  else
                    match r3 with
                    | EmptyString => String c1 "" :: chars r1
                    | String c4 r4 =>
                        String c1 (String c2 (String c3 (String c4 "")))
                        :: chars r4
                    end
              end
        end
  end.

(** The character is white space. *)
Definition white_char (ch : string) : bool :=
  match ch with
  | String c1 EmptyString => is_space c1
  | String c1 (String c2 EmptyString) => is_space2 c1 c2
  | String c1 (String c2 (String c3 EmptyString)) => is_space3 c1 c2 c3
  | _ => false
  end.

(** [s.split(' ')]: never empty *)
Fixpoint split_space (s : string) : list string :=
  match s with
  | EmptyString => [EmptyString]
  | String c r =>
      if Ascii.eqb c " "%char then EmptyString :: split_space r
      else match split_space r with
           | h :: t => String c h :: t
           | [] => [String c EmptyString]
           end
  end.

(** [parts.join(' ')] *)
Definition join_space (parts : list string) : string :=
  String.concat " " parts.

(** [`${n}`] for an integral number *)
Definition num_to_string (n : Z) : string :=
  NilZero.string_of_int (Z.to_int n).

(** ** Dates

    A [Date] holds a time value in milliseconds, or NaN ([None], an
    "Invalid Date"). *)

Definition Date : Type := option Z.

Definition max_time_value : Z := 8640000000000000.

Definition time_clip (n : Z) : Date :=
  if (Z.abs n <=? max_time_value) then Some n else None.

(** ** Messages of the log *)

Inductive Sender : Type := user | bot | admin.

Definition sender_eqb (a b : Sender) : bool :=
  match a, b with
  | user, user | bot, bot | admin, admin => true
  | _, _ => false
  end.

Record Message : Type := mkMessage {
  id : jsval;
  conversationId : jsval;
  text : jsval;
  sender : Sender;
  timestamp : Date;
  fileUrl : jsval;
  fileName : jsval
}.

(** The comparator given to [sort]:
    [(a, b) => new Date(a.timestamp).getTime() - new Date(b.timestamp).getTime()].
    The difference is NaN ([None]) as soon as one date is invalid. *)
Definition compareTimestamps (a b : Message) : option Z :=
  match timestamp a, timestamp b with
  | Some ta, Some tb => Some (ta - tb)
  | _, _ => None
  end.

(** [Array.prototype.sort] puts [a] after [b] when the comparator is
    positive; a NaN result counts as [+0]. *)
Definition sorts_after (a b : Message) : bool :=
  match compareTimestamps a b with
  | Some d => 0 <? d
  | None => false
  end.

Fixpoint sort_insert (x : Message) (l : list Message) : list Message :=
  match l with
  | [] => [x]
  | y :: l' => if sorts_after x y then y :: sort_insert x l' else x :: l
  end.

(** [l.sort(compareTimestamps)].  The sort of the language is stable, and for
    a consistent comparator (all dates valid) its result is the one stable
    sorted permutation, which this insertion sort computes.  With an invalid
    date the comparator is inconsistent and the language leaves the order to
    the engine: the function then still returns the same messages, in an
    order that need not be the engine's, and no property below relies on that
    order ([stable_sort_of] speaks of the order for valid dates only). *)
Definition sortByTimestamp (l : list Message) : list Message :=
  fold_right sort_insert [] l.

(** [arr[arr.length - 1]] *)
Fixpoint lastMessage (l : list Message) : option Message :=
  match l with
  | [] => None
  | [x] => Some x
  | _ :: l' => lastMessage l'
  end.

(** ** Wire records *)

(** The record the backend sends for one message, in the history of
    [get-single-session] and as [messageData] of a realtime envelope.  A field
    the record lacks reads [undefined]. *)
Record MessageData : Type := mkMessageData {
  md_message_type : jsval;
  md_channel : jsval;
  md_message : jsval;
  md_author_type : jsval;
  md_time_created : jsval;
  md_file_url : jsval;
  md_file : jsval;
  md_filename : jsval
}.

(** What the [messageData] property of an envelope holds: nothing, a
    primitive, or a record. *)
Inductive MessageDataField : Type :=
| MDPrim (v : jsval)
| MDObj (d : MessageData).

(** The argument of a socket listener: a primitive ([null], [undefined], ...)
    or an object with [room] and [messageData]. *)
Inductive Envelope : Type :=
| EnvPrim (v : jsval)
| EnvObj (room : jsval) (messageData : MessageDataField).

(** The outcome of [JSON.parse] on a response body. *)
Inductive Parsed (A : Type) : Type :=
| JsonThrows (msg : string)
| Json (a : A).
Arguments JsonThrows {A} msg.
Arguments Json {A} a.

(** The outcome of one [fetch]: the promise rejects, or resolves to a response
    whose [ok] is false (with [status], [statusText] and the [message] of its
    body), or to one whose [ok] is true. *)
Inductive Response (A : Type) : Type :=
| FetchRejects (msg : string)
| HttpError (status : Z) (statusText : string) (errorData : Parsed (option string))
| HttpOk (data : Parsed A).
Arguments FetchRejects {A} msg.
Arguments HttpError {A} status statusText errorData.
Arguments HttpOk {A} data.

(** Body of [initiate-session]: [status], [session_id],
    [configuration && configuration.color]. *)
Record InitiateData : Type := mkInitiateData {
  id_status : bool;
  id_session_id : option string;
  id_color : option string
}.

(** Body of [get-single-session].  [messages] is an array. *)
Record SessionData : Type := mkSessionData {
  sd_session_id : option string;
  sd_color : option string;
  sd_email : option string;
  sd_name : option string;
  sd_messages : list MessageData;
  sd_status : option string
}.

(** Body of [set-profile]: [status]. *)
Record ProfileData : Type := mkProfileData { pd_status : bool }.

(** ** The provider's world *)

Inductive Status : Type := loading | active | closed | error.

Record Socket : Type := mkSocket {
  sock_room : string;        (* the [sId] its listeners closed over *)
  sock_connected : bool
}.

Inductive Event : Type :=
| EvFetch (url : string) (body : list (string * option string))
| EvSocketOpen (sId : string)
| EvSocketClose (sId : string)
| EvEmit (event : string) (room : string) (body : list (string * option string))
| EvSound
| EvNotify (title : string) (body : jsval)
| EvAlert (msg : string).

Record World : Type := mkWorld {
  email : string;
  firstName : string;
  lastName : string;
  messages : list Message;
  sessionId : option string;
  chatThemeColor : string;
  isLoadingSession : bool;
  sessionError : option string;
  sessionProfileExists : bool;
  sessionStatus : Status;
  tempUserEmail : string;
  tempUserName : string;
  socketRef : option Socket;
  storage : option string;     (* AsyncStorage at [SESSION_STORAGE_KEY] *)
  trace : list Event
}.

Definition setEmail (v : string) (w : World) : World :=
  mkWorld v (firstName w) (lastName w) (messages w) (sessionId w)
    (chatThemeColor w) (isLoadingSession w) (sessionError w)
    (sessionProfileExists w) (sessionStatus w) (tempUserEmail w)
    (tempUserName w) (socketRef w) (storage w) (trace w).

Definition setFirstName (v : string) (w : World) : World :=
  mkWorld (email w) v (lastName w) (messages w) (sessionId w)
    (chatThemeColor w) (isLoadingSession w) (sessionError w)
    (sessionProfileExists w) (sessionStatus w) (tempUserEmail w)
    (tempUserName w) (socketRef w) (storage w) (trace w).

Definition setLastName (v : string) (w : World) : World :=
  mkWorld (email w) (firstName w) v (messages w) (sessionId w)
    (chatThemeColor w) (isLoadingSession w) (sessionError w)
    (sessionProfileExists w) (sessionStatus w) (tempUserEmail w)
    (tempUserName w) (socketRef w) (storage w) (trace w).

Definition setMessages (v : list Message) (w : World) : World :=
  mkWorld (email w) (firstName w) (lastName w) v (sessionId w)
    (chatThemeColor w) (isLoadingSession w) (sessionError w)
    (sessionProfileExists w) (sessionStatus w) (tempUserEmail w)
    (tempUserName w) (socketRef w) (storage w) (trace w).

Definition setSessionId (v : option string) (w : World) : World :=
  mkWorld (email w) (firstName w) (lastName w) (messages w) v
    (chatThemeColor w) (isLoadingSession w) (sessionError w)
    (sessionProfileExists w) (sessionStatus w) (tempUserEmail w)
    (tempUserName w) (socketRef w) (storage w) (trace w).

Definition setChatThemeColor (v : string) (w : World) : World :=
  mkWorld (email w) (firstName w) (lastName w) (messages w) (sessionId w)
    v (isLoadingSession w) (sessionError w)
    (sessionProfileExists w) (sessionStatus w) (tempUserEmail w)
    (tempUserName w) (socketRef w) (storage w) (trace w).

Definition setIsLoadingSession (v : bool) (w : World) : World :=
  mkWorld (email w) (firstName w) (lastName w) (messages w) (sessionId w)
    (chatThemeColor w) v (sessionError w)
    (sessionProfileExists w) (sessionStatus w) (tempUserEmail w)
    (tempUserName w) (socketRef w) (storage w) (trace w).

Definition setSessionError (v : option string) (w : World) : World :=
  mkWorld (email w) (firstName w) (lastName w) (messages w) (sessionId w)
    (chatThemeColor w) (isLoadingSession w) v
    (sessionProfileExists w) (sessionStatus w) (tempUserEmail w)
    (tempUserName w) (socketRef w) (storage w) (trace w).

Definition setSessionProfileExists (v : bool) (w : World) : World :=
  mkWorld (email w) (firstName w) (lastName w) (messages w) (sessionId w)
    (chatThemeColor w) (isLoadingSession w) (sessionError w)
    v (sessionStatus w) (tempUserEmail w)
    (tempUserName w) (socketRef w) (storage w) (trace w).

Definition setSessionStatus (v : Status) (w : World) : World :=
  mkWorld (email w) (firstName w) (lastName w) (messages w) (sessionId w)
    (chatThemeColor w) (isLoadingSession w) (sessionError w)
    (sessionProfileExists w) v (tempUserEmail w)
    (tempUserName w) (socketRef w) (storage w) (trace w).

Definition setTempUserEmail (v : string) (w : World) : World :=
  mkWorld (email w) (firstName w) (lastName w) (messages w) (sessionId w)
    (chatThemeColor w) (isLoadingSession w) (sessionError w)
    (sessionProfileExists w) (sessionStatus w) v
    (tempUserName w) (socketRef w) (storage w) (trace w).

Definition setTempUserName (v : string) (w : World) : World :=
  mkWorld (email w) (firstName w) (lastName w) (messages w) (sessionId w)
    (chatThemeColor w) (isLoadingSession w) (sessionError w)
    (sessionProfileExists w) (sessionStatus w) (tempUserEmail w)
    v (socketRef w) (storage w) (trace w).

(** [socketRef.current = v] *)
Definition setSocketRef (v : option Socket) (w : World) : World :=
  mkWorld (email w) (firstName w) (lastName w) (messages w) (sessionId w)
    (chatThemeColor w) (isLoadingSession w) (sessionError w)
    (sessionProfileExists w) (sessionStatus w) (tempUserEmail w)
    (tempUserName w) v (storage w) (trace w).

(** [AsyncStorage.setItem] / [removeItem] on [SESSION_STORAGE_KEY] *)
Definition setStorage (v : option string) (w : World) : World :=
  mkWorld (email w) (firstName w) (lastName w) (messages w) (sessionId w)
    (chatThemeColor w) (isLoadingSession w) (sessionError w)
    (sessionProfileExists w) (sessionStatus w) (tempUserEmail w)
    (tempUserName w) (socketRef w) v (trace w).

(** An outward effect is performed: it is appended to the trace. *)
Definition perform (e : Event) (w : World) : World :=
  mkWorld (email w) (firstName w) (lastName w) (messages w) (sessionId w)
    (chatThemeColor w) (isLoadingSession w) (sessionError w)
    (sessionProfileExists w) (sessionStatus w) (tempUserEmail w)
    (tempUserName w) (socketRef w) (storage w) (trace w ++ [e]).

(** The props of [CuoralProvider]. *)
Record Props : Type := mkProps {
  publicKey : option string;
  initialEmail : option string;
  initialFirstName : option string;
  initialLastName : option string
}.

(** The world at mount: the [useState] and [useRef] initial values, over
    whatever the device has stored. *)
Definition initialWorld (p : Props) (stored : option string) : World :=
  mkWorld (str_or (initialEmail p) "") (str_or (initialFirstName p) "")
    (str_or (initialLastName p) "") [] None "#2196F3" true None false loading
    "" "" None stored [].

Definition initiateSessionUrl : string :=
  "https://api.cuoral.com/conversation/initiate-session".
Definition getSessionUrl : string :=
  "https://api.cuoral.com/conversation/get-single-session".
Definition setProfileUrl : string :=
  "https://api.cuoral.com/conversation/set-profile".
Definition fileUploadUrl : string := "https://api.cuoral.com/file-upload".

(** How a callback reached its end. *)
Inductive Completion : Type := Normal | Throws.

(** ** The callbacks of the provider *)

Section Provider.

(** [Date.parse] on a string: left to the engine by the language. *)
Variable Date_parse : string -> option Z.

(** The props the component was rendered with. *)
Variable props : Props.

(** [new Date(v)] *)
Definition new_Date (v : jsval) : Date :=
  match v with
  | JUndefined => None
  | JNull => Some 0
  | JBool b => Some (if b then 1 else 0)
  | JNum n => time_clip n
  | JStr s => Date_parse s
  end.

(** [await fetch(...)], the [!response.ok] test with its [throw], and
    [await response.json()]: the body, or the [message] of what was thrown.
    [prefix] and [sep] are the fixed parts of the template of the error. *)
Definition receive {A : Type} (prefix sep : string) (r : Response A)
  : A + string :=
  match r with
  | FetchRejects m => inr m
  | HttpError st stt (JsonThrows m) => inr m
  | HttpError st stt (Json msg) =>
      inr (prefix ++ num_to_string st ++ sep ++ str_or msg stt)
  | HttpOk (JsonThrows m) => inr m
  | HttpOk (Json d) => inl d
  end.

Definition http_error_prefix : string := "HTTP error! status: ".
Definition http_error_sep : string := ", message: ".

(** [error.message || fallback] *)
Definition message_or (m fallback : string) : string :=
  if (m =? "")%string then fallback else m.

(** *** Side-effect port *)

(** [playNotificationSound()]: loads the sound when needed and replays it;
    failures are swallowed. *)
Definition playNotificationSound (w : World) : World := perform EvSound w.

(** [sendLocalNotification(title, body)] *)
Definition sendLocalNotification (title : string) (body : jsval) (w : World)
  : World :=
  perform (EvNotify title body) w.

(** *** Realtime channel *)

(** What [Date.now()] (for the id, then for the timestamp) and
    [Math.random().toString(36).substring(2, 9)] return during one call. *)
Record Clock : Type := mkClock {
  now_id : Z;
  random_suffix : string;
  now_timestamp : Z
}.

(** The record read through [message.messageData.x] once the guard
    [!message?.messageData] has let it through: a truthy primitive has none of
    the fields. *)
Definition no_fields : MessageData :=
  mkMessageData JUndefined JUndefined JUndefined JUndefined JUndefined
    JUndefined JUndefined JUndefined.

Definition messageData_of (f : MessageDataField) : option MessageData :=
  match f with
  | MDPrim v => if truthy v then Some no_fields else None
  | MDObj d => Some d
  end.

(** [v?.toLowerCase()]: [undefined] on [null] and [undefined], a [TypeError]
    ([None]) on a number or a boolean, which have no such method. *)
Definition opt_toLowerCase (v : jsval) : option jsval :=
  match v with
  | JUndefined | JNull => Some JUndefined
  | JStr s => Some (JStr (toLowerCase s))
  | JBool _ | JNum _ => None
  end.

(** [author_type === 'HUMAN' ? 'admin' : 'bot'] *)
Definition reply_sender (author_type : jsval) : Sender :=
  if strict_eq author_type (JStr "HUMAN") then admin else bot.

(** The duplicate test of both listeners, on the last message of the log. *)
Definition is_duplicate (last new : Message) : bool :=
  strict_eq (id last) (id new)
  || (strict_eq (text last) (text new)
      && sender_eqb (sender last) (sender new)
      && strict_eq (fileUrl last) (fileUrl new)).

(** The updater both listeners pass to [setMessages], with the title and the
    body of the notification of each. *)
Definition mergeFromSocket (title : string) (body : jsval) (new : Message)
  (w : World) : World :=
  let prevMessages := messages w in
  let insert :=
    let w1 :=
      if sender_eqb (sender new) bot || sender_eqb (sender new) admin
      then sendLocalNotification title body (playNotificationSound w)
      else w in
    setMessages (sortByTimestamp (prevMessages ++ [new])) w1 in
  match lastMessage prevMessages with
  | Some last => if is_duplicate last new then w else insert
  | None => insert
  end.

(** [newMessageFromSocket] of the ["send_message"] listener *)
Definition newMessageFromSocket (c : Clock) (room : jsval) (d : MessageData)
  : Message :=
  mkMessage
    (js_or (md_time_created d)
       (JStr ("socket_msg_" ++ num_to_string (now_id c) ++ "_"
              ++ random_suffix c)))
    room
    (md_message d)
    (reply_sender (md_author_type d))
    (new_Date (js_or (md_time_created d) (JNum (now_timestamp c))))
    (js_or (md_file_url d) JNull)
    (js_or (md_filename d) JNull).

(** [newFileMessageFromSocket] of the ["send_file"] listener *)
Definition newFileMessageFromSocket (c : Clock) (room : jsval)
  (d : MessageData) : Message :=
  mkMessage
    (js_or (md_time_created d)
       (JStr ("socket_file_msg_" ++ num_to_string (now_id c) ++ "_"
              ++ random_suffix c)))
    room
    (js_or (md_message d) (JStr ""))
    (reply_sender (md_author_type d))
    (new_Date (js_or (md_time_created d) (JNum (now_timestamp c))))
    (js_or (md_file d) (js_or (md_file_url d) JNull))
    (js_or (md_filename d) JNull).

(** The ["send_message"] listener of the socket opened for [sId]
    (lines 333-370). *)
Definition on_send_message (sId : string) (c : Clock) (message : Envelope)
  (w : World) : World * Completion :=
  match message with
  | EnvPrim _ => (w, Normal)
  | EnvObj room f =>
      match messageData_of f with
      | None => (w, Normal)
      | Some d =>
          match opt_toLowerCase (md_message_type d) with
          | None => (w, Throws)
          | Some lowered =>
              let isReply := strict_eq lowered (JStr "reply") in
              let isExternalChannel :=
                strict_eq (md_channel d) (JStr "external") in
              if isReply && isExternalChannel && strict_eq room (JStr sId)
              then
                let m := newMessageFromSocket c room d in
                (mergeFromSocket "New Message from Cuoral" (text m) m w,
                 Normal)
              else (w, Normal)
          end
      end
  end.

(** The ["send_file"] listener of the socket opened for [sId] (lines
    372-410).  The test of
    [message_type] comes last in the conjunction and is not evaluated when the
    channel or the room already fail. *)
Definition on_send_file (sId : string) (c : Clock) (message : Envelope)
  (w : World) : World * Completion :=
  match message with
  | EnvPrim _ => (w, Normal)
  | EnvObj room f =>
      match messageData_of f with
      | None => (w, Normal)
      | Some d =>
          let isExternalChannel :=
            strict_eq (md_channel d) (JStr "external") in
          if isExternalChannel && strict_eq room (JStr sId) then
            match opt_toLowerCase (md_message_type d) with
            | None => (w, Throws)
            | Some lowered =>
                if strict_eq lowered (JStr "reply") then
                  let m := newFileMessageFromSocket c room d in
                  (mergeFromSocket "New File from Cuoral"
                     (js_or (text m) (JStr "Image received.")) m w,
                   Normal)
                else (w, Normal)
            end
          else (w, Normal)
      end
  end.

(** [connectSocket(sId)] (lines 304-420): nothing on a falsy id; otherwise the previous
    client, if any, loses its listeners and is disconnected, and a new client
    is opened whose listeners are bound to [sId].  The client connects on its
    own later ([socket_connected]). *)
Definition connectSocket (sId : option string) (w : World) : World :=
  match sId with
  | None => w
  | Some s =>
      if (s =? "")%string then w
      else
        let w1 :=
          match socketRef w with
          | Some old =>
              setSocketRef None (perform (EvSocketClose (sock_room old)) w)
          | None => w
          end in
        setSocketRef (Some (mkSocket s false)) (perform (EvSocketOpen s) w1)
  end.

(** The ["connect"] listener: the client is connected and joins its room. *)
Definition socket_connected (w : World) : World :=
  match socketRef w with
  | Some s =>
      setSocketRef (Some (mkSocket (sock_room s) true))
        (perform (EvEmit "join" (sock_room s) []) w)
  | None => w
  end.

(** A realtime event reaches the provider: the listener of the current client
    runs, if there is a client. *)
Definition deliver_send_message (c : Clock) (message : Envelope) (w : World)
  : World * Completion :=
  match socketRef w with
  | Some s => on_send_message (sock_room s) c message w
  | None => (w, Normal)
  end.

Definition deliver_send_file (c : Clock) (message : Envelope) (w : World)
  : World * Completion :=
  match socketRef w with
  | Some s => on_send_file (sock_room s) c message w
  | None => (w, Normal)
  end.

(** *** Session API *)

(** One element of [loadedMessages] in [getSession]; [f] is what [Date.now()]
    and the random suffix are for this element. *)
Definition loadedMessage (f : Z * string) (msg : MessageData) : Message :=
  mkMessage
    (js_or (md_time_created msg)
       (JStr ("msg_" ++ num_to_string (fst f) ++ "_" ++ snd f)))
    JUndefined
    (md_message msg)
    (if strict_eq (md_message_type msg) (JStr "REPLY")
     then (if strict_eq (md_author_type msg) (JStr "HUMAN") then admin else bot)
     else user)
    (new_Date (md_time_created msg))
    (js_or (md_file_url msg) JNull)
    (js_or (md_filename msg) JNull).

(** [data.messages.map(...)], the [i]-th element drawing [fresh i]. *)
Fixpoint loadMessages (fresh : nat -> Z * string) (i : nat)
  (l : list MessageData) : list Message :=
  match l with
  | [] => []
  | msg :: r => loadedMessage (fresh i) msg :: loadMessages fresh (S i) r
  end.

(** The [catch] and [finally] blocks of [getSession]. *)
Definition getSession_catch (m : string) (w : World) : World * bool :=
  (setIsLoadingSession false
     (setSessionStatus error
        (setSessionError (Some (message_or m "Failed to load chat session.")) w)),
   false).

(** [getSession(sId)] (lines 179-254), answered by [r]. *)
Definition getSession (fresh : nat -> Z * string) (sId : option string)
  (r : Response SessionData) (w : World) : World * bool :=
  if negb (truthy_str sId) then
    (setSessionStatus error
       (setIsLoadingSession false
          (setSessionError (Some "Session ID is missing for getSession.") w)),
     false)
  else
    let w1 := setSessionStatus loading
                (setSessionError None (setIsLoadingSession true w)) in
    let w2 := perform (EvFetch getSessionUrl [("session_id", sId)]) w1 in
    match receive http_error_prefix http_error_sep r with
    | inr m => getSession_catch m w2
    | inl data =>
        if truthy_str (sd_session_id data) then
          let w3 := setSessionId (sd_session_id data) w2 in
          let w4 := if truthy_str (sd_color data)
                    then setChatThemeColor (str_or (sd_color data) "") w3
                    else w3 in
          let sessionEmail := str_or (sd_email data) "" in
          let sessionName := str_or (sd_name data) "" in
          let nameParts := split_space sessionName in
          let w5 := setLastName (join_space (tl nameParts))
                      (setFirstName (hd "" nameParts)
                         (setEmail sessionEmail w4)) in
          let w6 := setSessionProfileExists
                      (negb (sessionEmail =? "")%string
                       && negb (sessionName =? "")%string) w5 in
          let loadedMessages :=
            sortByTimestamp (loadMessages fresh 0 (sd_messages data)) in
          let w7 := setMessages loadedMessages w6 in
          let w8 :=
            match sd_status data with
            | Some st =>
                if (st =? "closed")%string then setSessionStatus closed w7
                else connectSocket (sd_session_id data)
                       (setSessionStatus active w7)
            | None =>
                connectSocket (sd_session_id data) (setSessionStatus active w7)
            end in
          (setIsLoadingSession false w8, true)
        else
          getSession_catch
            "Failed to retrieve session: Invalid session data or missing session ID."
            w2
    end.

(** The [catch] and [finally] blocks of [initiateSession]. *)
Definition initiateSession_catch (m : string) (w : World) : World * bool :=
  (setIsLoadingSession false
     (setSessionStatus error
        (setSessionError
           (Some (message_or m "Failed to initiate chat session.")) w)),
   false).

(** [initiateSession(userEmail, userFirstName, userLastName)] (lines
    122-176); [r] answers the creation request and [r_get] the [getSession]
    that follows it.  [AsyncStorage.setItem] is taken to succeed. *)
Definition initiateSession (fresh : nat -> Z * string)
  (userEmail userFirstName userLastName : option string)
  (r : Response InitiateData) (r_get : Response SessionData) (w : World)
  : World * bool :=
  let w1 := setSessionProfileExists false
              (setMessages []
                 (setSessionStatus loading
                    (setSessionError None (setIsLoadingSession true w)))) in
  let w2 := perform (EvFetch initiateSessionUrl
                    [("public_key", publicKey props); ("email", userEmail);
                     ("first_name", userFirstName);
                     ("last_name", userLastName)]) w1 in
  match receive http_error_prefix http_error_sep r with
  | inr m => initiateSession_catch m w2
  | inl data =>
      if id_status data && truthy_str (id_session_id data) then
        let w3 := setStorage (id_session_id data)
                    (setSessionId (id_session_id data) w2) in
        let w4 := if truthy_str (id_color data)
                  then setChatThemeColor (str_or (id_color data) "") w3
                  else w3 in
        let (w5, success) := getSession fresh (id_session_id data) r_get w4 in
        let w6 := if success then setSessionStatus active w5
                  else setSessionStatus error w5 in
        (setIsLoadingSession false w6, success)
      else
        initiateSession_catch
          "Failed to initiate session: No session_id returned." w2
  end.

(** [setProfile(sId, userEmail, userName)] (lines 258-300), answered by
    [r]. *)
Definition setProfile (sId : option string) (userEmail userName : string)
  (r : Response ProfileData) (w : World) : World * bool :=
  let w1 := setSessionStatus loading
              (setSessionError None (setIsLoadingSession true w)) in
  let w2 := perform (EvFetch setProfileUrl
                    [("session_id", sId); ("email", Some userEmail);
                     ("name", Some userName)]) w1 in
  let catch m :=
    (setIsLoadingSession false
       (setSessionStatus error
          (setSessionError
             (Some (message_or m "Failed to set profile information.")) w2)),
     false) in
  match receive http_error_prefix http_error_sep r with
  | inr m => catch m
  | inl data =>
      if pd_status data then
        let nameParts := split_space userName in
        let w3 := setLastName (join_space (tl nameParts))
                    (setFirstName (hd "" nameParts)
                       (setEmail userEmail w2)) in
        (setIsLoadingSession false
           (setSessionStatus active (setSessionProfileExists true w3)),
         true)
      else catch "Failed to set profile: API returned false status."
  end.

(** *** Startup *)

(** What the permission requests of [registerForPushNotificationsAsync] come
    to.  Its result is not used. *)
Inductive PushOutcome : Type :=
| PushThrows
| PushDenied
| PushGranted (token : string).

Definition registerForPushNotificationsAsync (o : PushOutcome) (w : World)
  : World :=
  match o with
  | PushDenied =>
      perform (EvAlert "Failed to get push token for push notification!") w
  | _ => w
  end.

(** The test that guards the automatic [setProfile] of [setupCuoral].
    [sessionId] and [sessionProfileExists] are the values of the render the
    effect belongs to, not those the awaited calls have just set. *)
Definition autoProfileDue (rendered : World) : bool :=
  truthy_str (sessionId rendered)
  && negb (sessionProfileExists rendered)
  && (truthy_str (initialEmail props)
      || truthy_str (initialFirstName props)
      || truthy_str (initialLastName props)).

(** [setupCuoral()], the body of the mount effect (lines 445-481).
    [r_stored] answers the [getSession] of the stored id, [r_create] and
    [r_new] the [initiateSession] that follows a failure, [r_profile] the
    automatic [setProfile].  The callbacks it awaits catch their own errors
    and [AsyncStorage.getItem] is taken to succeed, so its own [catch] block
    is never entered and is not embedded. *)
Definition setupCuoral (push : PushOutcome) (fresh : nat -> Z * string)
  (r_stored : Response SessionData) (r_create : Response InitiateData)
  (r_new : Response SessionData) (r_profile : Response ProfileData)
  (w : World) : World :=
  let w1 := setSessionStatus loading (setIsLoadingSession true w) in
  let w2 := registerForPushNotificationsAsync push w1 in
  let storedSessionId := storage w2 in
  let (w3, sessionSuccessfullyLoaded) :=
    if truthy_str storedSessionId
    then getSession fresh storedSessionId r_stored w2
    else (w2, false) in
  let w4 :=
    if sessionSuccessfullyLoaded then w3
    else fst (initiateSession fresh (initialEmail props)
                (initialFirstName props) (initialLastName props)
                r_create r_new w3) in
  let w5 :=
    if autoProfileDue w then
      let combinedName :=
        trim (str_or (initialFirstName props) "" ++ " "
              ++ str_or (initialLastName props) "") in
      if truthy_str (initialEmail props) && negb (combinedName =? "")%string
      then fst (setProfile (sessionId w) (str_or (initialEmail props) "")
                  combinedName r_profile w4)
      else w4
    else w4 in
  setIsLoadingSession false w5.

(** [clearSessionAndInitiateNew()] (lines 424-441), the full reset of the
    session. *)
Definition clearSessionAndInitiateNew (fresh : nat -> Z * string)
  (r : Response InitiateData) (r_get : Response SessionData) (w : World)
  : World * bool :=
  let w1 :=
    match socketRef w with
    | Some s =>
        if sock_connected s
        then setSocketRef None (perform (EvSocketClose (sock_room s)) w)
        else w
    | None => w
    end in
  let w2 :=
    setIsLoadingSession true
      (setSessionError None
         (setSessionStatus loading
            (setSessionProfileExists false
               (setMessages [] (setSessionId None (setStorage None w1)))))) in
  initiateSession fresh (Some (tempUserEmail w)) (Some (firstName w))
    (Some (lastName w)) r r_get w2.

(** *** Local insertion and outbound sends *)

(** [addMessage(message)] (lines 491-493) *)
Definition addMessageToState (message : Message) (w : World) : World :=
  setMessages (messages w ++ [message]) w.

Definition resetTempUserData (w : World) : World :=
  setTempUserName "" (setTempUserEmail "" w).

(** What the upload request throws, if it does: [fetch] rejects, or the
    response is not [ok] (the body of an [ok] response is not read). *)
Definition upload_failure (r : Response unit) : option string :=
  match r with
  | FetchRejects m => Some m
  | HttpError st stt (JsonThrows m) => Some m
  | HttpError st stt (Json msg) =>
      Some ("File upload failed: " ++ num_to_string st ++ ", "
            ++ str_or msg stt)
  | HttpOk _ => None
  end.

(** [socketRef.current.emit(event, body)] inside the [try]: [thrown] is the
    message of what the client throws, if it does. *)
Definition try_emit (thrown : option string) (event room : string)
  (body : list (string * option string)) (w : World) : World :=
  match thrown with
  | Some m =>
      setSessionError (Some (message_or m "Failed to send message/file.")) w
  | None => perform (EvEmit event room body) w
  end.

(** [sendMessageViaSocket(text, fileData, fileName)] (lines 501-550);
    [upload] answers the upload request when there is one. *)
Definition sendMessageViaSocket (text : string)
  (fileData fileName : option string) (upload : Response unit)
  (thrown : option string) (w : World) : World :=
  let disconnected :=
    setSessionError (Some "Cannot send message/file: Chat not connected.") w in
  match socketRef w with
  | None => disconnected
  | Some s =>
      if negb (sock_connected s) || negb (truthy_str (sessionId w))
      then disconnected
      else
        let room := str_or (sessionId w) "" in
        let authorName :=
          message_or
            (message_or (email w)
               (trim (firstName w ++ " " ++ lastName w)))
            "anonymous" in
        let basePayload :=
          [("origin", Some "frontend"); ("message", Some text);
           ("message_type", Some "QUERY"); ("channel", Some "external");
           ("author", Some authorName); ("author_type", Some "HUMAN");
           ("conversation_id", sessionId w);
           ("organisation_id", publicKey props)] in
        if truthy_str fileData then
          let w1 := perform (EvFetch fileUploadUrl
                            (basePayload
                             ++ [("file", fileData); ("filename", fileName)]))
                      w in
          match upload_failure upload with
          | Some m =>
              setSessionError
                (Some (message_or m "Failed to send message/file.")) w1
          | None => try_emit thrown "send_file" room [] w1
          end
        else
          try_emit thrown "send_message" room
            (basePayload ++ [("file", None); ("filename", None)]) w
  end.

End Provider.

(** ** Vocabulary of the design document *)

(** The states of the document's controller, read off the provider: the
    document's [ProfilePending] is an active session whose profile flag is
    off. *)
Inductive ControllerState : Type :=
| Loading | Active | ProfilePending | Closed | Error.

Definition controllerState (w : World) : ControllerState :=
  match sessionStatus w with
  | loading => Loading
  | active => if sessionProfileExists w then Active else ProfilePending
  | closed => Closed
  | error => Error
  end.

(** The realtime channel is bound when the provider holds a client. *)
Definition channelBound (w : World) : Prop := socketRef w <> None.

(** The effects a callback added to the trace of [w] on its way to [w']. *)
Definition effects_since (w w' : World) : list Event :=
  skipn (List.length (trace w)) (trace w').

(** A message carries a valid date. *)
Definition valid_date (m : Message) : Prop := timestamp m <> None.

(** [a] is not later than [b], both dates being valid. *)
Definition timestamp_le (a b : Message) : Prop :=
  match timestamp a, timestamp b with
  | Some ta, Some tb => ta <= tb
  | _, _ => False
  end.

(** [a] is earlier than [b], both dates being valid. *)
Definition timestamp_lt (a b : Message) : Prop :=
  match timestamp a, timestamp b with
  | Some ta, Some tb => ta < tb
  | _, _ => False
  end.

(** The log is in ascending order of timestamp. *)
Definition ascending (l : list Message) : Prop := Sorted timestamp_le l.

Definition has_timestamp (t : Date) (m : Message) : bool :=
  match timestamp m, t with
  | Some a, Some b => a =? b
  | None, None => true
  | _, _ => false
  end.

(** [l'] is what sorting [l] by timestamp gives: the same messages; and,
    when every date of [l] is valid, which is when the language fixes the
    result of the sort, in ascending order, the messages of any one timestamp
    being in the order they had in [l].  With an invalid date in [l] the
    order is the engine's and nothing is said of it. *)
Definition stable_sort_of (l' l : list Message) : Prop :=
  Permutation l' l
  /\ (Forall valid_date l ->
      ascending l'
      /\ forall t, filter (has_timestamp t) l' = filter (has_timestamp t) l).

(** The three conditions of the filter rule, on the envelope as the listeners
    read it.  The direction is the [message_type] of the record, taken without
    regard to case. *)
Definition direction_is_reply (e : Envelope) : Prop :=
  exists room f d s,
    e = EnvObj room f /\ messageData_of f = Some d
    /\ md_message_type d = JStr s /\ toLowerCase s = "reply".

Definition channel_is_external (e : Envelope) : Prop :=
  exists room f d,
    e = EnvObj room f /\ messageData_of f = Some d
    /\ md_channel d = JStr "external".

Definition room_is (sId : string) (e : Envelope) : Prop :=
  exists f, e = EnvObj (JStr sId) f.

(** The candidate repeats the last message of the log. *)
Definition echoes (last new : Message) : Prop :=
  id new = id last
  \/ (text new = text last /\ sender new = sender last
      /\ fileUrl new = fileUrl last).

(** The answers of the backend, as the document names them. *)
Definition fetchSession_fails (r : Response SessionData) : Prop :=
  match r with
  | HttpOk (Json d) => truthy_str (sd_session_id d) = false
  | _ => True
  end.

Definition fetchSession_succeeds (r : Response SessionData)
  (d : SessionData) : Prop :=
  r = HttpOk (Json d) /\ truthy_str (sd_session_id d) = true.

Definition createSession_succeeds (r : Response InitiateData)
  (new_id : string) : Prop :=
  exists d, r = HttpOk (Json d) /\ id_status d = true
            /\ id_session_id d = Some new_id /\ new_id <> "".

Definition setProfile_succeeds (r : Response ProfileData) : Prop :=
  exists d, r = HttpOk (Json d) /\ pd_status d = true.

Definition setProfile_fails (r : Response ProfileData) : Prop :=
  match r with
  | HttpOk (Json d) => pd_status d = false
  | _ => True
  end.


Definition upload_fails (r : Response unit) : Prop :=
  match r with
  | HttpOk _ => False
  | _ => True
  end.

Definition upload_succeeds (r : Response unit) : Prop :=
  exists body, r = HttpOk body.

(** The profile of a fetched session lacks its email or its name. *)
Definition profile_incomplete (d : SessionData) : Prop :=
  truthy_str (sd_email d) = false \/ truthy_str (sd_name d) = false.

(** An outbound send fails: no connected client or no session, the upload
    fails, or the client throws on emission. *)
Definition disconnected (w : World) : Prop :=
  socketRef w = None
  \/ (exists s, socketRef w = Some s /\ sock_connected s = false)
  \/ truthy_str (sessionId w) = false.

Definition send_fails (fileData : option string) (upload : Response unit)
  (thrown : option string) (w : World) : Prop :=
  disconnected w
  \/ (truthy_str fileData = true /\ upload_fails upload)
  \/ thrown <> None.

(** The trace of [w'] continues the trace of [w]. *)
Definition extends (w w' : World) : Prop :=
  exists evs, trace w' = (trace w ++ evs)%list.

(** ** Sample runs

    Concrete props, answers and worlds on which the properties below are
    exercised. *)

(** An engine whose [Date.parse] rejects every string; the samples carry
    numeric times. *)
Definition sample_parse : string -> option Z := fun _ => None.

Definition sample_props : Props :=
  mkProps (Some "pk_live_demo") None None None.

Definition sample_fresh : nat -> Z * string :=
  fun _ => (1700000000000, "k3x9q2a").

Definition sample_clock : Clock :=
  mkClock 1700000000000 "k3x9q2a" 1700000000001.

Definition sample_socket : Socket := mkSocket "S1" true.

(** A reply of the bot at time 2000. *)
Definition sample_hello : Message :=
  mkMessage (JStr "t1") JUndefined (JStr "hi") bot (Some 2000) JNull JNull.

(** A message the user types, stamped 1000 by the clock of the device. *)
Definition sample_early : Message :=
  mkMessage (JStr "temp_msg_1000_abc") JUndefined (JStr "hello") user
    (Some 1000) JUndefined JUndefined.

(** An active session ["S1"] with a connected client and one reply in the
    log. *)
Definition sample_active : World :=
  mkWorld "ada@example.com" "Ada" "Lovelace" [sample_hello] (Some "S1")
    "#2196F3" false None true active "" "" (Some sample_socket) (Some "S1") [].

(** The same session once the client is gone. *)
Definition sample_offline : World := setSocketRef None sample_active.

(** A reply for room ["S1"] on the internal channel. *)
Definition sample_internal : Envelope :=
  EnvObj (JStr "S1")
    (MDObj (mkMessageData (JStr "REPLY") (JStr "internal") (JStr "note")
              (JStr "HUMAN") (JNum 3000) JUndefined JUndefined JUndefined)).

(** The record of a reply that repeats [sample_hello] under its id. *)
Definition sample_echo : MessageData :=
  mkMessageData (JStr "reply") (JStr "external") (JStr "hi again")
    (JStr "BOT") (JStr "t1") JUndefined JUndefined JUndefined.

Definition sample_created : Response InitiateData :=
  HttpOk (Json (mkInitiateData true (Some "S1") None)).

(** An active session without profile and without history. *)
Definition sample_fetched : Response SessionData :=
  HttpOk (Json (mkSessionData (Some "S1") None None None [] (Some "active"))).

Definition sample_profile_set : Response ProfileData :=
  HttpOk (Json (mkProfileData true)).

Definition sample_unreachable {A : Type} : Response A :=
  FetchRejects "Network request failed".

(** A closed session ["S2"] whose history comes latest first. *)
Definition sample_closed : Response SessionData :=
  HttpOk (Json (mkSessionData (Some "S2") (Some "#FF5722")
    (Some "ada@example.com") (Some "Ada Lovelace")
    [mkMessageData (JStr "REPLY") (JStr "external") (JStr "second")
       (JStr "HUMAN") (JNum 2000) JUndefined JUndefined JUndefined;
     mkMessageData (JStr "QUERY") (JStr "external") (JStr "first")
       (JStr "HUMAN") (JNum 1000) JUndefined JUndefined JUndefined]
    (Some "closed"))).

(** The resume of the closed session ["S2"] at mount. *)
Definition sample_resume_closed : World :=
  setupCuoral sample_parse sample_props PushDenied sample_fresh sample_closed
    sample_unreachable sample_unreachable sample_unreachable
    (initialWorld sample_props (Some "S2")).

(** A reply of an agent for room ["S1"], stamped 1500. *)
Definition sample_reply_data : MessageData :=
  mkMessageData (JStr "Reply") (JStr "external") (JStr "How can I help?")
    (JStr "HUMAN") (JNum 1500) JUndefined JUndefined JUndefined.

Definition sample_reply : Envelope :=
  EnvObj (JStr "S1") (MDObj sample_reply_data).

(** The run of [setupCuoral] on a fresh install: nothing stored, the creation
    returns ["S1"], the hydration returns [sample_fetched]. *)
Definition sample_fresh_install : World :=
  setupCuoral sample_parse sample_props (PushGranted "ExponentPushToken")
    sample_fresh sample_unreachable sample_created sample_fetched
    sample_unreachable (initialWorld sample_props None).

(** ** The screens that drive the provider *)

(** *** The pattern of the details form

    A regular expression over characters, with the whole-string test that
    [/^...$/.test(s)] performs, computed by derivatives.  The pattern of the
    form has no [u] flag and is matched code unit by code unit; a character
    beyond U+FFFF is then two code units, neither of which is white space or
    ['@'], and as the pattern repeats its class it accepts the same strings
    character by character. *)

Inductive regex : Type :=
| REmpty
| REps
| RSet (p : string -> bool)
| RSeq (r1 r2 : regex)
| RAlt (r1 r2 : regex)
| RStar (r : regex).

(** [r+] *)
Definition RPlus (r : regex) : regex := RSeq r (RStar r).

Fixpoint nullable (r : regex) : bool :=
  match r with
  | REmpty => false
  | REps => true
  | RSet _ => false
  | RSeq r1 r2 => nullable r1 && nullable r2
  | RAlt r1 r2 => nullable r1 || nullable r2
  | RStar _ => true
  end.

Fixpoint deriv (c : string) (r : regex) : regex :=
  match r with
  | REmpty => REmpty
  | REps => REmpty
  | RSet p => if p c then REps else REmpty
  | RSeq r1 r2 =>
      if nullable r1 then RAlt (RSeq (deriv c r1) r2) (deriv c r2)
      else RSeq (deriv c r1) r2
  | RAlt r1 r2 => RAlt (deriv c r1) (deriv c r2)
  | RStar r1 => RSeq (deriv c r1) (RStar r1)
  end.

(** [/^r$/.test(s)], on the characters of [s] *)
Fixpoint regex_test (r : regex) (s : list string) : bool :=
  match s with
  | [] => nullable r
  | c :: s' => regex_test (deriv c r) s'
  end.

(** The sequences of characters a pattern denotes. *)
Inductive Matches : regex -> list string -> Prop :=
| MEps : Matches REps []
| MSet (p : string -> bool) (c : string) :
    p c = true -> Matches (RSet p) [c]
| MSeq (r1 r2 : regex) (s1 s2 : list string) :
    Matches r1 s1 -> Matches r2 s2 -> Matches (RSeq r1 r2) (s1 ++ s2)
| MAltL (r1 r2 : regex) (s : list string) :
    Matches r1 s -> Matches (RAlt r1 r2) s
| MAltR (r1 r2 : regex) (s : list string) :
    Matches r2 s -> Matches (RAlt r1 r2) s
| MStarNil (r : regex) : Matches (RStar r) []
| MStarApp (r : regex) (s1 s2 : list string) :
    Matches r s1 -> Matches (RStar r) s2 -> Matches (RStar r) (s1 ++ s2).

(** [[^\s@]] *)
Definition not_space_or_at (ch : string) : bool :=
  negb (white_char ch || (ch =? "@")%string).

(** [/^[^\s@]+@[^\s@]+\.[^\s@]+$/] of [handleContinueToChat] *)
Definition emailRegex : regex :=
  RSeq (RPlus (RSet not_space_or_at))
    (RSeq (RSet (String.eqb "@"))
       (RSeq (RPlus (RSet not_space_or_at))
          (RSeq (RSet (String.eqb "."))
             (RPlus (RSet not_space_or_at))))).

(** Every character of the sequence is neither white space nor ['@']. *)
Fixpoint plain (s : list string) : bool :=
  match s with
  | [] => true
  | c :: s' => not_space_or_at c && plain s'
  end.

(** The string holds a space character. *)
Fixpoint has_space (s : string) : bool :=
  match s with
  | EmptyString => false
  | String c s' => Ascii.eqb c " "%char || has_space s'
  end.

(** *** CuoralModal *)

(** [goBack()] of [CuoralModal]: the screen it navigates to, or [None] when
    it calls [closeModal]. *)
Definition goBack (currentScreen : string) : option string :=
  if (currentScreen =? "Conversations")%string then Some "Home"
  else if (currentScreen =? "ChatDetails")%string then Some "Home"
  else if (currentScreen =? "Chat")%string then Some "Conversations"
  else None.

(** The back button is pressed again and again: whether the modal is closed
    after at most [n] more presses than the first. *)
Fixpoint back_closes_within (n : nat) (currentScreen : string) : bool :=
  match goBack currentScreen with
  | None => true
  | Some s =>
      match n with
      | O => false
      | S k => back_closes_within k s
      end
  end.

(** *** ChatScreen *)

(** [messages.slice().reverse().find(msg => msg.sender === 'bot')] *)
Definition lastBotMessage (l : list Message) : option Message :=
  find (fun msg => sender_eqb (sender msg) bot) (rev l).

(** [lastBotMessage ? lastBotMessage.id : null] *)
Definition lastBotMessageId (l : list Message) : jsval :=
  match lastBotMessage l with
  | Some m => id m
  | None => JNull
  end.

(** The [useState] cells of [ChatScreen]. *)
Record ChatLocal : Type := mkChatLocal {
  inputText : string;
  isSending : bool;
  escalatingMessageId : jsval
}.

(** The [useState] cells of [ChatDetailsScreen]. *)
Record DetailsForm : Type := mkDetailsForm {
  localEmail : string;
  localName : string;
  errorMessage : string
}.

Definition stopBotUrl : string :=
  "https://api.cuoral.com/conversation/session/stop-bot/widget".

Section Screens.

Variable Date_parse : string -> option Z.
Variable props : Props.

(** [handleSendMessage()] of [ChatScreen] (lines 78-104).  The message is
    sent without attachment, so no upload is answered; the timer that turns
    [isSending] off a second later is [sending_timer]. *)
Definition handleSendMessage (c : Clock) (thrown : option string)
  (loc : ChatLocal) (w : World) : ChatLocal * World :=
  if ((trim (inputText loc) =? "")%string && negb (isSending loc))%bool
  then (loc, w)
  else
    let userMessageText := trim (inputText loc) in
    let newMessage :=
      mkMessage
        (JStr ("temp_msg_" ++ num_to_string (now_id c) ++ "_"
               ++ random_suffix c))
        JUndefined (JStr userMessageText) user
        (time_clip (now_timestamp c)) JUndefined JUndefined in
    let w1 := addMessageToState newMessage w in
    (mkChatLocal "" true (escalatingMessageId loc),
     sendMessageViaSocket props userMessageText None None
       (HttpOk (Json tt)) thrown w1).

Definition sending_timer (loc : ChatLocal) : ChatLocal :=
  mkChatLocal (inputText loc) false (escalatingMessageId loc).

(** What the request that pauses the bot throws, if it does. *)
Definition pause_failure (r : Response unit) : option string :=
  match r with
  | FetchRejects m => Some m
  | HttpError st stt (JsonThrows m) => Some m
  | HttpError st stt (Json msg) =>
      Some ("Failed to pause bot: " ++ num_to_string st ++ ", "
            ++ str_or msg stt)
  | HttpOk _ => None
  end.

(** [handleEscalateToAgent(messageId)] of [ChatScreen] (lines 159-230), up to
    the moment it sets its timer; the callback of the timer is not embedded.
    The third component is the message of the alert shown, if any. *)
Definition handleEscalateToAgent (c : Clock) (messageId : jsval)
  (r : Response unit) (thrown : option string) (loc : ChatLocal) (w : World)
  : ChatLocal * World * option string :=
  if (negb (truthy_str (sessionId w)) || negb (truthy_str (publicKey props))
      || negb (strict_eq (escalatingMessageId loc) JNull))%bool
  then (loc, w, None)
  else
    let loc1 := mkChatLocal (inputText loc) (isSending loc) messageId in
    let w1 :=
      perform (EvFetch stopBotUrl
                 [("session_id", sessionId w); ("pause_bot", Some "true")]) w in
    match pause_failure r with
    | Some m =>
        (mkChatLocal (inputText loc) (isSending loc) JNull, w1,
         Some (message_or m "Failed to escalate to agent. Please try again."))
    | None =>
        let text := "Not satisfied? Talk to an agent" in
        let w2 :=
          addMessageToState
            (mkMessage (JStr (num_to_string (now_id c) ++ "_escalation_user"))
               JUndefined (JStr text) user (time_clip (now_timestamp c))
               JUndefined JUndefined) w1 in
        (loc1,
         sendMessageViaSocket props text None None (HttpOk (Json tt)) thrown
           w2,
         None)
    end.

(** [handleContinueToChat()] of [ChatDetailsScreen] (lines 51-88).  The
    provider's cells it tests are those of the render it belongs to.  The
    third component tells whether it navigates to the chat. *)
Definition handleContinueToChat (fresh : nat -> Z * string)
  (r_profile : Response ProfileData) (r_create : Response InitiateData)
  (r_get : Response SessionData) (form : DetailsForm) (w : World)
  : World * DetailsForm * bool :=
  let trimmedEmail := trim (localEmail form) in
  let trimmedName := trim (localName form) in
  if ((trimmedEmail =? "")%string || (trimmedName =? "")%string)%bool then
    (w,
     mkDetailsForm (localEmail form) (localName form)
       "Please enter both your email and name.",
     false)
  else if negb (regex_test emailRegex (chars trimmedEmail)) then
    (w,
     mkDetailsForm (localEmail form) (localName form)
       "Please enter a valid email address.",
     false)
  else
    let result :=
      if (truthy_str (sessionId w) && negb (sessionProfileExists w))%bool then
        setProfile (sessionId w) trimmedEmail trimmedName r_profile w
      else if negb (truthy_str (sessionId w)) then
        let nameParts := split_space trimmedName in
        initiateSession Date_parse props fresh (Some trimmedEmail)
          (Some (hd "" nameParts)) (Some (join_space (tl nameParts)))
          r_create r_get w
      else getSession Date_parse fresh (sessionId w) r_get w in
    (fst result,
     mkDetailsForm (localEmail form) (localName form) "",
     (snd result
      || (negb (isLoadingSession w) && negb (truthy_str (sessionError w))
          && truthy_str (sessionId w) && sessionProfileExists w))%bool).

End Screens.

(** The creation request does not yield a session. *)
Definition createSession_fails (r : Response InitiateData) : Prop :=
  match r with
  | HttpOk (Json d) =>
      (id_status d && truthy_str (id_session_id d))%bool = false
  | _ => True
  end.

(** The result of a session call agrees with what it leaves behind: on
    [true] no error is stored and the status is not [error]; on [false] the
    status is [error] and a non-empty error message is stored. *)
Definition outcome_agrees (res : World * bool) : Prop :=
  if snd res
  then sessionError (fst res) = None /\ sessionStatus (fst res) <> error
  else sessionStatus (fst res) = error
       /\ exists m, sessionError (fst res) = Some m /\ m <> "".

(** The events a hydration may perform: its request, and the closing and the
    opening of a client. *)
Definition hydration_event (e : Event) : Prop :=
  match e with
  | EvFetch url _ => url = getSessionUrl
  | EvSocketOpen _ | EvSocketClose _ => True
  | _ => False
  end.

(** More sample data. *)

Definition sample_rejected_creation : Response InitiateData :=
  HttpError 401 "Unauthorized" (Json (Some "Invalid public key")).

Definition sample_form : DetailsForm :=
  mkDetailsForm "  ada at example  " "Ada Lovelace" "".

(** The session ["S1"] before its profile is set, shown by the details
    form. *)
Definition sample_pending : World :=
  mkWorld "" "" "" [] (Some "S1") "#2196F3" false None false active "" ""
    (Some sample_socket) (Some "S1") [].

Definition sample_typing : ChatLocal := mkChatLocal "  hello there " false JNull.

(** The body of the answer for the closed session ["S2"]. *)
Definition sample_closed_data : SessionData :=
  mkSessionData (Some "S2") (Some "#FF5722") (Some "ada@example.com")
    (Some "Ada Lovelace")
    [mkMessageData (JStr "REPLY") (JStr "external") (JStr "second")
       (JStr "HUMAN") (JNum 2000) JUndefined JUndefined JUndefined;
     mkMessageData (JStr "QUERY") (JStr "external") (JStr "first")
       (JStr "HUMAN") (JNum 1000) JUndefined JUndefined JUndefined]
    (Some "closed").

(** An active session ["S1"] whose history holds a reply stamped 2000 and a
    record that carries no [time_created]. *)
Definition sample_undated_data : SessionData :=
  mkSessionData (Some "S1") None None None
    [mkMessageData (JStr "REPLY") (JStr "external") (JStr "dated")
       (JStr "HUMAN") (JNum 2000) JUndefined JUndefined JUndefined;
     mkMessageData (JStr "QUERY") (JStr "external") (JStr "undated")
       (JStr "HUMAN") JUndefined JUndefined JUndefined JUndefined]
    (Some "active").

Definition sample_undated : Response SessionData :=
  HttpOk (Json sample_undated_data).

(** The session ["S1"] with the two messages in the log, in the order of
    their times. *)
Definition sample_two_messages : World :=
  setMessages [sample_early; sample_hello] sample_active.

(** The no-break space U+00A0, as its two bytes. *)
Definition nbsp : string :=
  String (ascii_of_nat 194) (String (ascii_of_nat 160) "").




Definition sample_valid_form : DetailsForm :=
  mkDetailsForm " ada@example.com " "Ada Lovelace " "".

(** ** Facts on values and on the sort *)

Lemma strict_eq_true (a b : jsval) : strict_eq a b = true <-> a = b.
Proof.
  split.
  - destruct a, b; simpl; intros H; try discriminate; try reflexivity.
    + apply Bool.eqb_prop in H. now subst.
    + apply Z.eqb_eq in H. now subst.
    + apply String.eqb_eq in H. now subst.
  - intros <-. destruct a; simpl; auto.
    + apply Bool.eqb_reflx.
    + apply Z.eqb_refl.
    + apply String.eqb_refl.
Qed.

Lemma sender_eqb_true (a b : Sender) : sender_eqb a b = true <-> a = b.
Proof. destruct a, b; simpl; split; congruence. Qed.

Lemma is_duplicate_echoes (last new : Message) :
  echoes last new -> is_duplicate last new = true.
Proof.
  unfold echoes, is_duplicate.
  intros [Hid | (Ht & Hs & Hf)].
  - apply orb_true_iff. left. apply strict_eq_true. congruence.
  - apply orb_true_iff. right.
    rewrite !andb_true_iff, !strict_eq_true, sender_eqb_true. auto.
Qed.

Lemma sort_insert_perm (x : Message) (l : list Message) :
  Permutation (sort_insert x l) (x :: l).
Proof.
  induction l as [| y l IH]; simpl.
  - reflexivity.
  - destruct (sorts_after x y).
    + rewrite IH. apply perm_swap.
    + reflexivity.
Qed.

Lemma sortByTimestamp_perm (l : list Message) :
  Permutation (sortByTimestamp l) l.
Proof.
  induction l as [| x l IH]; simpl.
  - constructor.
  - rewrite sort_insert_perm. now constructor.
Qed.

(** A message moves past another one only when it is strictly later, so the
    messages of one timestamp never pass each other. *)
Lemma sorts_after_distinct (x y : Message) (t : Date) :
  sorts_after x y = true ->
  has_timestamp t x = true -> has_timestamp t y = true -> False.
Proof.
  unfold sorts_after, compareTimestamps, has_timestamp.
  destruct (timestamp x), (timestamp y), t; try discriminate.
  intros H1 H2 H3.
  apply Z.ltb_lt in H1. apply Z.eqb_eq in H2. apply Z.eqb_eq in H3. lia.
Qed.

Lemma sort_insert_filter (t : Date) (x : Message) (l : list Message) :
  filter (has_timestamp t) (sort_insert x l)
  = filter (has_timestamp t) (x :: l).
Proof.
  induction l as [| y l IH]; [reflexivity |].
  cbn [sort_insert].
  destruct (sorts_after x y) eqn:Hxy; [| reflexivity].
  cbn [filter] in *. rewrite IH.
  destruct (has_timestamp t x) eqn:Hx, (has_timestamp t y) eqn:Hy;
    try reflexivity.
  exfalso. exact (sorts_after_distinct x y t Hxy Hx Hy).
Qed.

Lemma sortByTimestamp_filter (t : Date) (l : list Message) :
  filter (has_timestamp t) (sortByTimestamp l) = filter (has_timestamp t) l.
Proof.
  induction l as [| x l IH]; [reflexivity |].
  cbn [sortByTimestamp fold_right].
  rewrite sort_insert_filter. cbn [filter].
  fold (sortByTimestamp l). rewrite IH. reflexivity.
Qed.

Lemma sort_insert_valid (x : Message) (l : list Message) :
  valid_date x -> Forall valid_date l -> Forall valid_date (sort_insert x l).
Proof.
  intros Hx Hl.
  apply (Permutation_Forall (x := x :: l)).
  - symmetry. apply sort_insert_perm.
  - now constructor.
Qed.

Lemma sort_insert_HdRel (a x : Message) (l : list Message) :
  timestamp_le a x -> HdRel timestamp_le a l ->
  HdRel timestamp_le a (sort_insert x l).
Proof.
  intros Hax Hal. destruct l as [| y l]; simpl.
  - now constructor.
  - destruct (sorts_after x y); constructor; auto.
    now inversion Hal.
Qed.

Lemma sort_insert_ascending (x : Message) (l : list Message) :
  valid_date x -> Forall valid_date l ->
  ascending l -> ascending (sort_insert x l).
Proof.
  unfold ascending. intros Hx Hv Hs.
  induction l as [| y l IH]; simpl.
  - repeat constructor.
  - inversion Hv as [| ? ? Hy Hv']; subst.
    inversion Hs as [| ? ? Hs' Hhd]; subst.
    destruct (sorts_after x y) eqn:Hxy.
    + constructor; [now apply IH |].
      apply sort_insert_HdRel; [| exact Hhd].
      unfold sorts_after, compareTimestamps in Hxy.
      unfold timestamp_le.
      destruct (timestamp x), (timestamp y); try discriminate.
      apply Z.ltb_lt in Hxy. lia.
    + constructor; [exact Hs |]. constructor.
      unfold sorts_after, compareTimestamps in Hxy.
      unfold timestamp_le, valid_date in *.
      destruct (timestamp x), (timestamp y); try congruence.
      apply Z.ltb_ge in Hxy. lia.
Qed.

Lemma sortByTimestamp_valid (l : list Message) :
  Forall valid_date l -> Forall valid_date (sortByTimestamp l).
Proof.
  intros H. apply (Permutation_Forall (x := l)); [| exact H].
  symmetry. apply sortByTimestamp_perm.
Qed.

Lemma sortByTimestamp_ascending (l : list Message) :
  Forall valid_date l -> ascending (sortByTimestamp l).
Proof.
  induction l as [| x l IH]; intros Hv.
  - constructor.
  - inversion Hv; subst. cbn [sortByTimestamp fold_right].
    apply sort_insert_ascending; auto.
    now apply sortByTimestamp_valid.
Qed.

Lemma sortByTimestamp_stable (l : list Message) :
  stable_sort_of (sortByTimestamp l) l.
Proof.
  split; [apply sortByTimestamp_perm |]. intros Hv. split.
  - now apply sortByTimestamp_ascending.
  - intros t. apply sortByTimestamp_filter.
Qed.

(** ** Properties of the provider *)

Section Properties.

Variable Date_parse : string -> option Z.
Variable props : Props.

(** *** Inbound realtime events *)

(** Either the envelope passes the three tests of the filter rule, or the
    ["send_message"] listener leaves the world as it found it. *)
Lemma on_send_message_filter (sId : string) (c : Clock) (e : Envelope)
  (w : World) :
  (direction_is_reply e /\ channel_is_external e /\ room_is sId e)
  \/ fst (on_send_message Date_parse sId c e w) = w.
Proof.
  destruct e as [v | room f]; [now right |].
  cbn [on_send_message].
  destruct (messageData_of f) as [d |] eqn:Hf; [| now right].
  destruct (md_message_type d) as [| | b | n | s] eqn:Hmt;
    cbn [opt_toLowerCase]; try now right.
  destruct (strict_eq (JStr (toLowerCase s)) (JStr "reply")
            && strict_eq (md_channel d) (JStr "external")
            && strict_eq room (JStr sId)) eqn:Hc; [| now right].
  apply andb_true_iff in Hc. destruct Hc as [Hc Hroom].
  apply andb_true_iff in Hc. destruct Hc as [Hreply Hchan].
  apply strict_eq_true in Hroom, Hchan, Hreply.
  left. repeat split.
  - exists room, f, d, s. repeat split; auto. congruence.
  - exists room, f, d. auto.
  - exists f. now subst.
Qed.

Lemma on_send_file_filter (sId : string) (c : Clock) (e : Envelope)
  (w : World) :
  (direction_is_reply e /\ channel_is_external e /\ room_is sId e)
  \/ fst (on_send_file Date_parse sId c e w) = w.
Proof.
  destruct e as [v | room f]; [now right |].
  cbn [on_send_file].
  destruct (messageData_of f) as [d |] eqn:Hf; [| now right].
  destruct (strict_eq (md_channel d) (JStr "external")
            && strict_eq room (JStr sId)) eqn:Hc; [| now right].
  apply andb_true_iff in Hc. destruct Hc as [Hchan Hroom].
  apply strict_eq_true in Hroom, Hchan.
  destruct (md_message_type d) as [| | b | n | s] eqn:Hmt;
    cbn [opt_toLowerCase]; try now right.
  destruct (strict_eq (JStr (toLowerCase s)) (JStr "reply")) eqn:Hreply;
    [| now right].
  apply strict_eq_true in Hreply.
  left. repeat split.
  - exists room, f, d, s. repeat split; auto. congruence.
  - exists room, f, d. auto.
  - exists f. now subst.
Qed.

(** A listener throws only on a record whose [message_type] is a number or
    a boolean, on which [toLowerCase] is not a function; on a [message_type]
    that is a string, [null] or absent it completes normally. *)
Lemma listeners_complete (S : string) (c : Clock) (room : jsval)
  (f : MessageDataField) (d : MessageData) (w : World) :
  messageData_of f = Some d ->
  opt_toLowerCase (md_message_type d) <> None ->
  snd (on_send_message Date_parse S c (EnvObj room f) w) = Normal
  /\ snd (on_send_file Date_parse S c (EnvObj room f) w) = Normal.
Proof.
  intros Hf Hl. cbn [on_send_message on_send_file]. rewrite Hf.
  destruct (opt_toLowerCase (md_message_type d)); [| contradiction].
  split.
  - match goal with |- context [if ?b then _ else _] => destruct b end;
      reflexivity.
  - repeat match goal with
           | |- context [if ?b then _ else _] => destruct b
           end; reflexivity.
Qed.

(** C1.  While the channel is bound to session id [S], a realtime envelope
    changes the message log only if its direction is reply, its channel is
    external and its room is [S]; an envelope that fails one of the three
    conditions leaves the whole world, hence the log and the trace of side
    effects, as it was.  This holds for the ["send_message"] and for the
    ["send_file"] listener. *)
Theorem realtime_filter_rule (S : string) (s : Socket) (c : Clock)
  (e : Envelope) (w : World) :
  socketRef w = Some s -> sock_room s = S ->
  (messages (fst (deliver_send_message Date_parse c e w)) <> messages w ->
   direction_is_reply e /\ channel_is_external e /\ room_is S e)
  /\ (messages (fst (deliver_send_file Date_parse c e w)) <> messages w ->
      direction_is_reply e /\ channel_is_external e /\ room_is S e)
  /\ (~ (direction_is_reply e /\ channel_is_external e /\ room_is S e) ->
      fst (deliver_send_message Date_parse c e w) = w
      /\ fst (deliver_send_file Date_parse c e w) = w).
Proof.
  intros Hs HS. unfold deliver_send_message, deliver_send_file.
  rewrite Hs, HS.
  pose proof (on_send_message_filter S c e w) as Hm.
  pose proof (on_send_file_filter S c e w) as Hf.
  split; [| split].
  - intros Hne. destruct Hm as [Hm | Hm]; [exact Hm |].
    rewrite Hm in Hne. now contradiction Hne.
  - intros Hne. destruct Hf as [Hf | Hf]; [exact Hf |].
    rewrite Hf in Hne. now contradiction Hne.
  - intros Hn. split.
    + destruct Hm as [Hm | Hm]; [contradiction | exact Hm].
    + destruct Hf as [Hf | Hf]; [contradiction | exact Hf].
Qed.

(** C2.  When the log is not empty and the candidate has the id of its last
    element, or its text, sender and attachment url, the insertion of a
    realtime message does nothing: the updater returns the world unchanged,
    log and trace included, so neither the sound alert nor the local
    notification is invoked.  The same holds of both listeners on the
    candidate they build. *)
Theorem duplicate_echo_is_dropped (title : string) (body : jsval)
  (new last : Message) (S : string) (c : Clock) (room : jsval)
  (d : MessageData) (w : World) :
  lastMessage (messages w) = Some last ->
  (echoes last new -> mergeFromSocket title body new w = w)
  /\ (echoes last (newMessageFromSocket Date_parse c room d) ->
      fst (on_send_message Date_parse S c (EnvObj room (MDObj d)) w) = w)
  /\ (echoes last (newFileMessageFromSocket Date_parse c room d) ->
      fst (on_send_file Date_parse S c (EnvObj room (MDObj d)) w) = w).
Proof.
  intros Hlast.
  assert (Hmerge : forall t b m, echoes last m -> mergeFromSocket t b m w = w).
  { intros t b m He. unfold mergeFromSocket. rewrite Hlast.
    now rewrite (is_duplicate_echoes _ _ He). }
  split; [apply Hmerge | split].
  - intros He. cbn [on_send_message messageData_of].
    destruct (opt_toLowerCase (md_message_type d)); [| reflexivity].
    match goal with |- context [if ?b then _ else _] => destruct b end;
      [| reflexivity].
    cbn [fst]. now apply Hmerge.
  - intros He. cbn [on_send_file messageData_of].
    match goal with |- context [if ?b then _ else _] => destruct b end;
      [| reflexivity].
    destruct (opt_toLowerCase (md_message_type d)); [| reflexivity].
    match goal with |- context [if ?b then _ else _] => destruct b end;
      [| reflexivity].
    cbn [fst]. now apply Hmerge.
Qed.

(** C9.  On an envelope whose [messageData] is [null], [undefined] or
    missing (more generally, falsy), and on an envelope that is itself such a
    value, both listeners return at once: they complete normally and leave the
    world, log and trace of side effects included, unchanged. *)
Theorem absent_messageData_is_ignored (S : string) (c : Clock)
  (room v : jsval) (w : World) :
  truthy v = false ->
  on_send_message Date_parse S c (EnvObj room (MDPrim v)) w = (w, Normal)
  /\ on_send_file Date_parse S c (EnvObj room (MDPrim v)) w = (w, Normal)
  /\ on_send_message Date_parse S c (EnvPrim v) w = (w, Normal)
  /\ on_send_file Date_parse S c (EnvPrim v) w = (w, Normal).
Proof.
  intros Hv. cbn [on_send_message on_send_file messageData_of].
  rewrite Hv. repeat split.
Qed.

(** *** Hydration *)

(** C10.  On a falsy session id ([null], [undefined] or the empty string)
    [getSession] sends no request (the trace is unchanged), returns [false],
    sets the status to [error] with the message
    ['Session ID is missing for getSession.'], and leaves the log as it was. *)
Theorem getSession_missing_id (fresh : nat -> Z * string)
  (sId : option string) (r : Response SessionData) (w : World) :
  truthy_str sId = false ->
  snd (getSession Date_parse fresh sId r w) = false
  /\ sessionStatus (fst (getSession Date_parse fresh sId r w)) = error
  /\ sessionError (fst (getSession Date_parse fresh sId r w))
     = Some "Session ID is missing for getSession."
  /\ messages (fst (getSession Date_parse fresh sId r w)) = messages w
  /\ trace (fst (getSession Date_parse fresh sId r w)) = trace w.
Proof.
  intros H. unfold getSession. rewrite H. cbn. repeat split.
Qed.

(** *** Outbound sends *)

Lemma message_or_nonempty (m fallback : string) :
  fallback <> "" -> message_or m fallback <> "".
Proof.
  intros Hf. unfold message_or.
  destruct (m =? "")%string eqn:E; [exact Hf |].
  now apply String.eqb_neq.
Qed.

Lemma skipn_length_app (A : Type) (l r : list A) :
  skipn (List.length l) (l ++ r)%list = r.
Proof. induction l; simpl; auto. Qed.

Lemma skipn_length_self (A : Type) (l : list A) :
  skipn (List.length l) l = [].
Proof. induction l; simpl; auto. Qed.

(** Unfolds an outbound send along every branch of the callback. *)
Ltac send_cases w fileData upload thrown :=
  unfold sendMessageViaSocket, try_emit, upload_failure, effects_since;
  destruct (socketRef w) as [[room [|]] |];
  destruct (truthy_str (sessionId w));
  destruct (truthy_str fileData);
  destruct upload as [? | ? ? [? | ?] | ?];
  destruct thrown as [? |];
  cbn;
  rewrite <- ?app_assoc, ?skipn_length_app, ?skipn_length_self;
  cbn.

(** C5.  An outbound ["send_file"] emission happens only in an attachment
    send whose upload request was answered with an [ok] response, and then it
    comes right after that request in the trace; when the upload fails (the
    response is not [ok], or the request itself is rejected) no ["send_file"]
    is emitted. *)
Theorem file_announced_only_after_upload (text : string)
  (fileData fileName : option string) (upload : Response unit)
  (thrown : option string) (w : World) :
  (forall room body,
      In (EvEmit "send_file" room body)
         (effects_since w
            (sendMessageViaSocket props text fileData fileName upload thrown w))
      -> truthy_str fileData = true
         /\ upload_succeeds upload
         /\ exists payload,
             effects_since w
               (sendMessageViaSocket props text fileData fileName upload
                  thrown w)
             = [EvFetch fileUploadUrl payload; EvEmit "send_file" room body])
  /\ (upload_fails upload ->
      forall room body,
        ~ In (EvEmit "send_file" room body)
            (effects_since w
               (sendMessageViaSocket props text fileData fileName upload
                  thrown w))).
Proof.
  split.
  - intros r b.
    send_cases w fileData upload thrown; intros H;
      repeat (destruct H as [H | H]; try discriminate H);
      try contradiction.
    injection H as <- <-.
    split; [reflexivity |]. split; [now eexists |]. now eexists.
  - intros Hfail r b.
    send_cases w fileData upload thrown; intros H;
      repeat (destruct H as [H | H]; try discriminate H);
      try contradiction.
Qed.

(** C7.  An outbound send never touches the session: the status, the session
    id, the stored id and the message log after the call are those before it.
    When the send fails (no connected client or no session, an upload that is
    rejected or answered with a response that is not [ok], or a client that
    throws on emission) an error message is stored for the caller and nothing
    is emitted on the socket. *)
Theorem send_failure_keeps_session (text : string)
  (fileData fileName : option string) (upload : Response unit)
  (thrown : option string) (w : World) :
  (sessionStatus
     (sendMessageViaSocket props text fileData fileName upload thrown w)
   = sessionStatus w
   /\ sessionId
        (sendMessageViaSocket props text fileData fileName upload thrown w)
      = sessionId w
   /\ storage
        (sendMessageViaSocket props text fileData fileName upload thrown w)
      = storage w
   /\ messages
        (sendMessageViaSocket props text fileData fileName upload thrown w)
      = messages w)
  /\ (send_fails fileData upload thrown w ->
      (exists m,
          sessionError
            (sendMessageViaSocket props text fileData fileName upload thrown w)
          = Some m /\ m <> "")
      /\ forall event room body,
          ~ In (EvEmit event room body)
              (effects_since w
                 (sendMessageViaSocket props text fileData fileName upload
                    thrown w))).
Proof.
  split.
  - send_cases w fileData upload thrown; repeat split.
  - intros Hfail.
    assert (Hne : "Failed to send message/file." <> "") by discriminate.
    unfold send_fails, disconnected, upload_fails in Hfail.
    destruct (socketRef w) as [[room conn] |] eqn:Hsock.
    + destruct conn, (truthy_str (sessionId w)) eqn:Hsid,
        (truthy_str fileData) eqn:Hfd,
        upload as [? | ? ? [? | ?] | ?], thrown as [? |];
        unfold sendMessageViaSocket, try_emit, upload_failure, effects_since;
        rewrite Hsock; cbn [sock_connected negb orb]; rewrite ?Hsid, ?Hfd;
        cbn;
        rewrite <- ?app_assoc, ?skipn_length_app, ?skipn_length_self;
        cbn;
        try (split;
             [ eexists; split;
               [ reflexivity
               | first [ now apply message_or_nonempty | discriminate ] ]
             | intros ev rm bd H;
               repeat (destruct H as [H | H]; try discriminate H);
               try contradiction ]).
      all: exfalso;
        destruct Hfail as [[Hd | [(s & Hs & Hc) | Hd]] | [[Hd Hu] | Hd]];
        try discriminate; try contradiction; try congruence;
        try (injection Hs as <-; discriminate).
    + unfold sendMessageViaSocket, effects_since. rewrite Hsock. cbn.
      rewrite skipn_length_self. split.
      * eexists; split; [reflexivity | discriminate].
      * intros ev rm bd H. contradiction.
Qed.

(** *** Profile *)

(** C8.  After a successful [setProfile], a second call with the same session
    id, email and name leaves the email, the first name, the last name and the
    profile flag as the first call set them, whatever the backend answers; and
    when the second call succeeds as well, the status is unchanged too, the
    whole world after it being the world after the first call with one more
    request in its trace. *)
Theorem setProfile_idempotent (sId : option string) (e n : string)
  (r1 r2 : Response ProfileData) (w : World) :
  setProfile_succeeds r1 ->
  (email (fst (setProfile sId e n r2 (fst (setProfile sId e n r1 w))))
   = email (fst (setProfile sId e n r1 w))
   /\ firstName (fst (setProfile sId e n r2 (fst (setProfile sId e n r1 w))))
      = firstName (fst (setProfile sId e n r1 w))
   /\ lastName (fst (setProfile sId e n r2 (fst (setProfile sId e n r1 w))))
      = lastName (fst (setProfile sId e n r1 w))
   /\ sessionProfileExists
        (fst (setProfile sId e n r2 (fst (setProfile sId e n r1 w))))
      = sessionProfileExists (fst (setProfile sId e n r1 w)))
  /\ (setProfile_succeeds r2 ->
      sessionStatus
        (fst (setProfile sId e n r2 (fst (setProfile sId e n r1 w))))
      = sessionStatus (fst (setProfile sId e n r1 w))
      /\ fst (setProfile sId e n r2 (fst (setProfile sId e n r1 w)))
         = perform (EvFetch setProfileUrl
                   [("session_id", sId); ("email", Some e); ("name", Some n)])
             (fst (setProfile sId e n r1 w))).
Proof.
  intros (d1 & -> & Hd1). split.
  - unfold setProfile, receive. rewrite Hd1.
    destruct r2 as [m | st stt [m | msg] | [m | d2]];
      try destruct (pd_status d2); cbn; repeat split.
  - intros (d2 & -> & Hd2).
    unfold setProfile, receive. rewrite Hd1, Hd2. cbn. split; reflexivity.
Qed.

(** *** Facts on hydration *)

Lemma truthy_str_or (o : option string) :
  negb (str_or o "" =? "")%string = truthy_str o.
Proof.
  destruct o as [s |]; simpl; [| reflexivity].
  destruct (s =? "")%string eqn:E; simpl; [reflexivity |]. now rewrite E.
Qed.

Lemma extends_refl (w : World) : extends w w.
Proof. exists []. now rewrite app_nil_r. Qed.

Lemma extends_trans (w1 w2 w3 : World) :
  extends w1 w2 -> extends w2 w3 -> extends w1 w3.
Proof.
  intros [e1 H1] [e2 H2]. exists (e1 ++ e2)%list.
  now rewrite H2, H1, app_assoc.
Qed.

Lemma extends_same_trace (w w' : World) :
  trace w' = trace w -> extends w w'.
Proof. intros H. exists []. now rewrite app_nil_r. Qed.

Lemma effects_since_app (w w' : World) (evs : list Event) :
  trace w' = (trace w ++ evs)%list -> effects_since w w' = evs.
Proof. intros H. unfold effects_since. rewrite H. apply skipn_length_app. Qed.

Lemma effects_since_trans (w1 w2 w3 : World) :
  extends w1 w2 -> extends w2 w3 ->
  effects_since w1 w3 = (effects_since w1 w2 ++ effects_since w2 w3)%list.
Proof.
  intros [e1 H1] [e2 H2].
  rewrite (effects_since_app w1 w2 e1 H1), (effects_since_app w2 w3 e2 H2).
  apply effects_since_app. now rewrite H2, H1, app_assoc.
Qed.

Lemma connectSocket_extends (sId : option string) (w : World) :
  extends w (connectSocket sId w).
Proof.
  unfold connectSocket.
  destruct sId as [s |]; [| apply extends_refl].
  destruct (s =? "")%string; [apply extends_refl |].
  destruct (socketRef w); cbn; eexists; cbn;
    rewrite <- ?app_assoc; reflexivity.
Qed.

Lemma connectSocket_binds (s : string) (w : World) :
  s <> "" ->
  socketRef (connectSocket (Some s) w) = Some (mkSocket s false)
  /\ In (EvSocketOpen s) (effects_since w (connectSocket (Some s) w))
  /\ messages (connectSocket (Some s) w) = messages w
  /\ storage (connectSocket (Some s) w) = storage w
  /\ sessionStatus (connectSocket (Some s) w) = sessionStatus w
  /\ sessionProfileExists (connectSocket (Some s) w) = sessionProfileExists w.
Proof.
  intros Hs. unfold connectSocket, effects_since.
  apply String.eqb_neq in Hs. rewrite Hs.
  destruct (socketRef w); cbn;
    rewrite <- ?app_assoc, skipn_length_app; cbn; intuition.
Qed.

Lemma connectSocket_frame (sId : option string) (w : World) :
  messages (connectSocket sId w) = messages w
  /\ storage (connectSocket sId w) = storage w
  /\ sessionStatus (connectSocket sId w) = sessionStatus w
  /\ sessionProfileExists (connectSocket sId w) = sessionProfileExists w.
Proof.
  unfold connectSocket.
  destruct sId as [s |]; [| now repeat split].
  destruct (s =? "")%string; [now repeat split |].
  destruct (socketRef w); cbn; now repeat split.
Qed.

Lemma fetchSession_outcome (r : Response SessionData) :
  fetchSession_fails r \/ exists d, fetchSession_succeeds r d.
Proof.
  destruct r as [m | st stt e | [m | d]]; try (left; exact I).
  unfold fetchSession_fails, fetchSession_succeeds.
  destruct (truthy_str (sd_session_id d)) eqn:E; [right | left; reflexivity].
  now exists d.
Qed.

(** A failed [getSession] touches the loading flag, the error and the status
    only, and sends its one request. *)
Lemma getSession_failure (fresh : nat -> Z * string) (sId : option string)
  (r : Response SessionData) (w : World) :
  truthy_str sId = true -> fetchSession_fails r ->
  snd (getSession Date_parse fresh sId r w) = false
  /\ sessionStatus (fst (getSession Date_parse fresh sId r w)) = error
  /\ messages (fst (getSession Date_parse fresh sId r w)) = messages w
  /\ storage (fst (getSession Date_parse fresh sId r w)) = storage w
  /\ socketRef (fst (getSession Date_parse fresh sId r w)) = socketRef w
  /\ trace (fst (getSession Date_parse fresh sId r w))
     = (trace w ++ [EvFetch getSessionUrl [("session_id", sId)]])%list.
Proof.
  intros Hs Hf. unfold getSession, getSession_catch, receive.
  rewrite Hs. cbn [negb].
  destruct r as [m | st stt [m | msg] | [m | d]]; cbn in Hf; try rewrite Hf;
    cbn; repeat split.
Qed.

(** What a successful [getSession] leaves behind. *)
Lemma getSession_success (fresh : nat -> Z * string) (sId : option string)
  (r : Response SessionData) (d : SessionData) (w : World) :
  truthy_str sId = true -> fetchSession_succeeds r d ->
  let w' := fst (getSession Date_parse fresh sId r w) in
  snd (getSession Date_parse fresh sId r w) = true
  /\ messages w' = sortByTimestamp (loadMessages Date_parse fresh 0 (sd_messages d))
  /\ storage w' = storage w
  /\ sessionProfileExists w'
     = (truthy_str (sd_email d) && truthy_str (sd_name d))%bool
  /\ ((sd_status d = Some "closed" /\ sessionStatus w' = closed
       /\ socketRef w' = socketRef w)
      \/ (sd_status d <> Some "closed" /\ sessionStatus w' = active
          /\ exists sid, sd_session_id d = Some sid
                         /\ socketRef w' = Some (mkSocket sid false)
                         /\ In (EvSocketOpen sid) (effects_since w w')))
  /\ extends w w'.
Proof.
  intros Hs [-> Hd]. unfold getSession. rewrite Hs. cbn [negb receive].
  rewrite Hd. cbv zeta.
  rewrite !truthy_str_or.
  match goal with
  | |- context [setMessages ?l ?x] => set (w7 := setMessages l x)
  end.
  assert (H7 : trace w7
               = (trace w ++ [EvFetch getSessionUrl [("session_id", sId)]])%list).
  { subst w7. destruct (truthy_str (sd_color d)); reflexivity. }
  assert (Hst7 : storage w7 = storage w).
  { subst w7. destruct (truthy_str (sd_color d)); reflexivity. }
  assert (Hso7 : socketRef w7 = socketRef w).
  { subst w7. destruct (truthy_str (sd_color d)); reflexivity. }
  assert (Hid : exists sid, sd_session_id d = Some sid /\ sid <> "").
  { destruct (sd_session_id d) as [sid |]; [| discriminate].
    exists sid. split; [reflexivity |]. simpl in Hd.
    apply negb_true_iff in Hd. now apply String.eqb_neq. }
  destruct Hid as (sid & Hsid & Hne).
  assert (Hopen :
    let w8 := connectSocket (sd_session_id d) (setSessionStatus active w7) in
    messages (setIsLoadingSession false w8)
    = sortByTimestamp (loadMessages Date_parse fresh 0 (sd_messages d))
    /\ storage (setIsLoadingSession false w8) = storage w
    /\ sessionProfileExists (setIsLoadingSession false w8)
       = (truthy_str (sd_email d) && truthy_str (sd_name d))%bool
    /\ sessionStatus (setIsLoadingSession false w8) = active
    /\ socketRef (setIsLoadingSession false w8) = Some (mkSocket sid false)
    /\ In (EvSocketOpen sid) (effects_since w (setIsLoadingSession false w8))
    /\ extends w (setIsLoadingSession false w8)).
  { intros w8. subst w8. rewrite Hsid.
    destruct (connectSocket_binds sid (setSessionStatus active w7) Hne)
      as (Hb & Hin & Hm & Hsto & Hstat & Hprof).
    pose proof (connectSocket_extends (Some sid) (setSessionStatus active w7))
      as Hext.
    assert (Hw7 : extends w (setSessionStatus active w7)).
    { exists [EvFetch getSessionUrl [("session_id", sId)]]. exact H7. }
    cbn [messages storage sessionProfileExists sessionStatus socketRef
         setIsLoadingSession].
    rewrite Hm, Hsto, Hstat, Hprof, Hb.
    repeat split; try reflexivity.
    - exact Hst7.
    - change (effects_since w
                (setIsLoadingSession false
                   (connectSocket (Some sid) (setSessionStatus active w7))))
        with (effects_since w
                (connectSocket (Some sid) (setSessionStatus active w7))).
      rewrite (effects_since_trans w (setSessionStatus active w7) _ Hw7 Hext).
      apply in_or_app. now right.
    - apply (extends_trans w (setSessionStatus active w7)); [exact Hw7 |].
      exact Hext. }
  destruct (sd_status d) as [st |] eqn:Hstatus.
  - destruct (st =? "closed")%string eqn:Hclosed.
    + apply String.eqb_eq in Hclosed. subst st.
      cbn [fst snd messages storage sessionProfileExists sessionStatus
           socketRef setIsLoadingSession setSessionStatus].
      refine (conj eq_refl (conj _ (conj Hst7 (conj _ (conj _ _))))).
      * subst w7. reflexivity.
      * subst w7. reflexivity.
      * left. auto.
      * exists [EvFetch getSessionUrl [("session_id", sId)]]. exact H7.
    + apply String.eqb_neq in Hclosed.
      destruct Hopen as (Hm & Hsto & Hprof & Hstat & Hsock & Hin & Hext).
      cbn [fst snd].
      refine (conj eq_refl (conj Hm (conj Hsto (conj Hprof (conj _ Hext))))).
      right. split; [congruence |]. split; [exact Hstat |].
      exists sid. auto.
  - destruct Hopen as (Hm & Hsto & Hprof & Hstat & Hsock & Hin & Hext).
    cbn [fst snd].
    refine (conj eq_refl (conj Hm (conj Hsto (conj Hprof (conj _ Hext))))).
    right. split; [congruence |]. split; [exact Hstat |].
    exists sid. auto.
Qed.

Lemma getSession_extends (fresh : nat -> Z * string) (sId : option string)
  (r : Response SessionData) (w : World) :
  extends w (fst (getSession Date_parse fresh sId r w)).
Proof.
  destruct (truthy_str sId) eqn:Hs.
  - destruct (fetchSession_outcome r) as [Hf | [d Hd]].
    + destruct (getSession_failure fresh sId r w Hs Hf)
        as (_ & _ & _ & _ & _ & He).
      eexists. exact He.
    + apply (getSession_success fresh sId r d w Hs Hd).
  - apply extends_same_trace. unfold getSession. rewrite Hs. reflexivity.
Qed.

Lemma getSession_storage (fresh : nat -> Z * string) (sId : option string)
  (r : Response SessionData) (w : World) :
  storage (fst (getSession Date_parse fresh sId r w)) = storage w.
Proof.
  destruct (truthy_str sId) eqn:Hs.
  - destruct (fetchSession_outcome r) as [Hf | [d Hd]].
    + apply (getSession_failure fresh sId r w Hs Hf).
    + apply (getSession_success fresh sId r d w Hs Hd).
  - unfold getSession. rewrite Hs. reflexivity.
Qed.

Lemma getSession_true (fresh : nat -> Z * string) (sId : option string)
  (r : Response SessionData) (w : World) :
  snd (getSession Date_parse fresh sId r w) = true ->
  truthy_str sId = true /\ exists d, fetchSession_succeeds r d.
Proof.
  intros H. destruct (truthy_str sId) eqn:Hs.
  - split; [reflexivity |].
    destruct (fetchSession_outcome r) as [Hf | Hd]; [| exact Hd].
    destruct (getSession_failure fresh sId r w Hs Hf) as (Hfalse & _).
    congruence.
  - unfold getSession in H. rewrite Hs in H. discriminate H.
Qed.

(** Once the creation request has succeeded, [initiateSession] has stored the
    new id and hands over to [getSession], whose verdict it turns into the
    status. *)
Lemma initiateSession_created (fresh : nat -> Z * string)
  (ue uf ul : option string) (r : Response InitiateData)
  (r_get : Response SessionData) (new_id : string) (w : World) :
  createSession_succeeds r new_id ->
  exists w4 body,
    trace w4 = (trace w ++ [EvFetch initiateSessionUrl body])%list
    /\ storage w4 = Some new_id
    /\ initiateSession Date_parse props fresh ue uf ul r r_get w
       = (setIsLoadingSession false
            (setSessionStatus
               (if snd (getSession Date_parse fresh (Some new_id) r_get w4)
                then active else error)
               (fst (getSession Date_parse fresh (Some new_id) r_get w4))),
          snd (getSession Date_parse fresh (Some new_id) r_get w4)).
Proof.
  intros (d & -> & Hst & Hid & Hne).
  unfold initiateSession. cbn [receive]. rewrite Hst, Hid.
  assert (Ht : truthy_str (Some new_id) = true).
  { simpl. apply negb_true_iff. now apply String.eqb_neq. }
  rewrite Ht. cbn [andb]. cbv zeta.
  match goal with
  | |- context [getSession _ _ _ _ ?x] => set (w4 := x)
  end.
  exists w4. eexists. split; [| split].
  - subst w4. destruct (truthy_str (id_color d)); cbn; reflexivity.
  - subst w4. destruct (truthy_str (id_color d)); reflexivity.
  - destruct (getSession Date_parse fresh (Some new_id) r_get w4) as [w5 ok].
    cbn [fst snd]. destruct ok; reflexivity.
Qed.

Lemma truthy_str_Some (s : string) : s <> "" -> truthy_str (Some s) = true.
Proof.
  intros H. simpl. apply negb_true_iff. now apply String.eqb_neq.
Qed.

Lemma registerForPush_frame (push : PushOutcome) (w : World) :
  storage (registerForPushNotificationsAsync push w) = storage w
  /\ extends w (registerForPushNotificationsAsync push w).
Proof.
  destruct push; cbn; split; try reflexivity; try apply extends_refl.
  eexists. reflexivity.
Qed.

(** At mount the rendered session id is [null]: the automatic profile
    submission of [setupCuoral] is not due. *)
Lemma autoProfileDue_at_mount (stored : option string) :
  autoProfileDue props (initialWorld props stored) = false.
Proof. reflexivity. Qed.

Lemma setProfile_outcome (r : Response ProfileData) :
  setProfile_fails r \/ setProfile_succeeds r.
Proof.
  destruct r as [m | st stt e | [m | d]]; try (left; exact I).
  destruct (pd_status d) eqn:Hd; [right | left; exact Hd].
  exists d. split; [reflexivity | exact Hd].
Qed.



(** C4, as the code has it.  When [getSession] is answered with a session
    that is not closed and whose profile lacks the email or the name, the
    controller is [ProfilePending] (status [active], profile flag off) and the
    realtime channel is bound all the same: a client is opened for the
    session id of the answer.  In particular, on a fresh install (nothing
    stored) where the creation succeeds and the hydration returns such a
    session with an empty history, [setupCuoral] ends [ProfilePending] with an
    empty log and a client opened for the session. *)
Theorem incomplete_profile_still_binds_channel :
  (forall (fresh : nat -> Z * string) (sId : option string)
          (r : Response SessionData) (d : SessionData) (w : World),
      truthy_str sId = true -> fetchSession_succeeds r d ->
      sd_status d <> Some "closed" -> profile_incomplete d ->
      controllerState (fst (getSession Date_parse fresh sId r w))
      = ProfilePending
      /\ channelBound (fst (getSession Date_parse fresh sId r w))
      /\ exists sid,
          sd_session_id d = Some sid
          /\ socketRef (fst (getSession Date_parse fresh sId r w))
             = Some (mkSocket sid false)
          /\ In (EvSocketOpen sid)
                (effects_since w (fst (getSession Date_parse fresh sId r w))))
  /\ (forall (push : PushOutcome) (fresh : nat -> Z * string)
             (r_stored : Response SessionData)
             (r_create : Response InitiateData) (r_new : Response SessionData)
             (r_profile : Response ProfileData) (new_id : string)
             (d : SessionData),
         createSession_succeeds r_create new_id ->
         fetchSession_succeeds r_new d ->
         sd_status d <> Some "closed" -> profile_incomplete d ->
         sd_messages d = [] ->
         let w' := setupCuoral Date_parse props push fresh r_stored r_create
                     r_new r_profile (initialWorld props None) in
         controllerState w' = ProfilePending
         /\ messages w' = []
         /\ channelBound w'
         /\ exists sid,
             sd_session_id d = Some sid
             /\ socketRef w' = Some (mkSocket sid false)).
Proof.
  assert (Hflag : forall d, profile_incomplete d ->
            (truthy_str (sd_email d) && truthy_str (sd_name d))%bool = false).
  { intros d [H | H]; rewrite H; [reflexivity | apply andb_false_r]. }
  split.
  - intros fresh sId r d w Hs Hd Hopen Hinc.
    destruct (getSession_success fresh sId r d w Hs Hd)
      as (_ & _ & _ & Hprof & Hstat & _).
    destruct Hstat as [(Hc & _) | (_ & Hact & sid & Hsid & Hsock & Hin)];
      [contradiction |].
    unfold controllerState, channelBound.
    rewrite Hact, Hprof, (Hflag d Hinc), Hsock.
    split; [reflexivity |]. split; [discriminate |]. exists sid. auto.
  - intros push fresh r_stored r_create r_new r_profile new_id d
      Hcreate Hd Hopen Hinc Hnil w'.
    subst w'. unfold setupCuoral. cbv zeta.
    assert (Hauto : autoProfileDue props (initialWorld props None) = false)
      by reflexivity.
    rewrite Hauto.
    set (w1 := setSessionStatus loading
                 (setIsLoadingSession true (initialWorld props None))).
    set (w2 := registerForPushNotificationsAsync push w1).
    assert (Hsto2 : storage w2 = None).
    { subst w2. rewrite (proj1 (registerForPush_frame push w1)). reflexivity. }
    rewrite Hsto2. cbn [truthy_str fst].
    destruct (initiateSession_created fresh (initialEmail props)
                (initialFirstName props) (initialLastName props) r_create
                r_new new_id w2 Hcreate) as (w4 & body & Htr4 & Hsto4 & Hinit).
    rewrite Hinit. cbn [fst].
    assert (Hne : new_id <> "").
    { destruct Hcreate as (d0 & _ & _ & _ & H). exact H. }
    destruct (getSession_success fresh (Some new_id) r_new d w4
                (truthy_str_Some new_id Hne) Hd)
      as (Htrue & Hmsg & _ & Hprof & Hstat & _).
    destruct Hstat as [(Hc & _) | (_ & Hact & sid & Hsid & Hsock & Hin)];
      [contradiction |].
    rewrite Htrue.
    unfold controllerState, channelBound.
    cbn [sessionStatus sessionProfileExists messages socketRef
         setIsLoadingSession setSessionStatus].
    rewrite Hprof, (Hflag d Hinc), Hmsg, Hnil, Hsock.
    split; [reflexivity |]. split; [reflexivity |].
    split; [discriminate |]. exists sid. auto.
Qed.

(** *** Order of the log *)

Lemma mergeFromSocket_messages (title : string) (body : jsval) (m : Message)
  (w : World) :
  messages (mergeFromSocket title body m w) = messages w
  \/ messages (mergeFromSocket title body m w)
     = sortByTimestamp (messages w ++ [m]).
Proof.
  unfold mergeFromSocket.
  destruct (lastMessage (messages w)) as [last |].
  - destruct (is_duplicate last m); [now left | right].
    destruct (sender_eqb (sender m) bot || sender_eqb (sender m) admin);
      reflexivity.
  - right.
    destruct (sender_eqb (sender m) bot || sender_eqb (sender m) admin);
      reflexivity.
Qed.

Lemma on_send_message_messages (S : string) (c : Clock) (e : Envelope)
  (w : World) :
  messages (fst (on_send_message Date_parse S c e w)) = messages w
  \/ exists m,
      messages (fst (on_send_message Date_parse S c e w))
      = sortByTimestamp (messages w ++ [m]).
Proof.
  destruct e as [v | room f]; [now left |].
  cbn [on_send_message].
  destruct (messageData_of f) as [d |]; [| now left].
  destruct (opt_toLowerCase (md_message_type d)); [| now left].
  match goal with |- context [if ?b then _ else _] => destruct b end;
    [| now left].
  cbn [fst].
  destruct (mergeFromSocket_messages "New Message from Cuoral"
              (text (newMessageFromSocket Date_parse c room d))
              (newMessageFromSocket Date_parse c room d) w) as [H | H];
    [now left | right; eexists; exact H].
Qed.

Lemma on_send_file_messages (S : string) (c : Clock) (e : Envelope)
  (w : World) :
  messages (fst (on_send_file Date_parse S c e w)) = messages w
  \/ exists m,
      messages (fst (on_send_file Date_parse S c e w))
      = sortByTimestamp (messages w ++ [m]).
Proof.
  destruct e as [v | room f]; [now left |].
  cbn [on_send_file].
  destruct (messageData_of f) as [d |]; [| now left].
  match goal with |- context [if ?b then _ else _] => destruct b end;
    [| now left].
  destruct (opt_toLowerCase (md_message_type d)); [| now left].
  match goal with |- context [if ?b then _ else _] => destruct b end;
    [| now left].
  cbn [fst].
  match goal with
  | |- context [mergeFromSocket ?t ?b ?m w] =>
      destruct (mergeFromSocket_messages t b m w) as [H | H]
  end; [now left | right; eexists; exact H].
Qed.

Lemma sorted_append_keeps (l l' : list Message) :
  l' = l \/ (exists m, l' = sortByTimestamp (l ++ [m])) -> incl l l'.
Proof.
  intros [-> | [m ->]]; [apply incl_refl |].
  intros x Hx.
  apply (Permutation_in (l := l ++ [m])).
  - symmetry. apply sortByTimestamp_perm.
  - apply in_or_app. now left.
Qed.

Lemma ascending_append (l : list Message) (m : Message) :
  ascending l -> (forall x, In x l -> timestamp_le x m) ->
  ascending (l ++ [m]).
Proof.
  unfold ascending. intros Hs Hle.
  induction Hs as [| a l Hs IH Hhd]; cbn.
  - repeat constructor.
  - constructor.
    + apply IH. intros x Hx. apply Hle. now right.
    + destruct Hhd as [| b l' Hab]; cbn; constructor.
      * apply Hle. now left.
      * exact Hab.
Qed.

Lemma on_send_message_inserts (S : string) (c : Clock) (room : jsval)
  (f : MessageDataField) (d : MessageData) (w : World) :
  messageData_of f = Some d ->
  messages (fst (on_send_message Date_parse S c (EnvObj room f) w))
  = messages w
  \/ messages (fst (on_send_message Date_parse S c (EnvObj room f) w))
     = sortByTimestamp (messages w ++ [newMessageFromSocket Date_parse c room d]).
Proof.
  intros Hf. cbn [on_send_message]. rewrite Hf.
  destruct (opt_toLowerCase (md_message_type d)); [| now left].
  match goal with |- context [if ?b then _ else _] => destruct b end;
    [| now left].
  cbn [fst]. apply mergeFromSocket_messages.
Qed.

Lemma on_send_file_inserts (S : string) (c : Clock) (room : jsval)
  (f : MessageDataField) (d : MessageData) (w : World) :
  messageData_of f = Some d ->
  messages (fst (on_send_file Date_parse S c (EnvObj room f) w)) = messages w
  \/ messages (fst (on_send_file Date_parse S c (EnvObj room f) w))
     = sortByTimestamp
         (messages w ++ [newFileMessageFromSocket Date_parse c room d]).
Proof.
  intros Hf. cbn [on_send_file]. rewrite Hf.
  match goal with |- context [if ?b then _ else _] => destruct b end;
    [| now left].
  destruct (opt_toLowerCase (md_message_type d)); [| now left].
  match goal with |- context [if ?b then _ else _] => destruct b end;
    [| now left].
  cbn [fst]. apply mergeFromSocket_messages.
Qed.

(** C3, as the code has it.  After a successful [getSession] the log holds
    the messages of the fetched history and no other (the previous log is
    replaced), and a failed one leaves the log as it was.  After a realtime
    delivery the log is either as it was or holds the previous log and the
    message built from the envelope; no message of the previous log is lost.
    In both cases, when the dates of all these messages are valid, the log is
    in ascending order of timestamp, the messages of one timestamp being in
    their prior order.  [addMessage] puts the message at the end of the log,
    whatever its timestamp, and sorts nothing; no message is lost, and an
    ascending log stays ascending when the new message is not earlier than
    those it holds. *)
Theorem log_order_by_operation :
  (forall (fresh : nat -> Z * string) (sId : option string)
          (r : Response SessionData) (w : World),
      (snd (getSession Date_parse fresh sId r w) = true ->
       exists d,
         fetchSession_succeeds r d
         /\ stable_sort_of
              (messages (fst (getSession Date_parse fresh sId r w)))
              (loadMessages Date_parse fresh 0 (sd_messages d)))
      /\ (snd (getSession Date_parse fresh sId r w) = false ->
          messages (fst (getSession Date_parse fresh sId r w)) = messages w))
  /\ (forall (S : string) (c : Clock) (room : jsval) (f : MessageDataField)
             (d : MessageData) (w : World),
         messageData_of f = Some d ->
         (messages (fst (on_send_message Date_parse S c (EnvObj room f) w))
          = messages w
          \/ stable_sort_of
               (messages
                  (fst (on_send_message Date_parse S c (EnvObj room f) w)))
               (messages w ++ [newMessageFromSocket Date_parse c room d]))
         /\ (messages (fst (on_send_file Date_parse S c (EnvObj room f) w))
             = messages w
             \/ stable_sort_of
                  (messages
                     (fst (on_send_file Date_parse S c (EnvObj room f) w)))
                  (messages w
                   ++ [newFileMessageFromSocket Date_parse c room d])))
  /\ (forall (S : string) (c : Clock) (e : Envelope) (w : World),
         incl (messages w)
           (messages (fst (on_send_message Date_parse S c e w)))
         /\ incl (messages w)
              (messages (fst (on_send_file Date_parse S c e w))))
  /\ (forall (m : Message) (w : World),
         messages (addMessageToState m w) = (messages w ++ [m])%list
         /\ incl (messages w) (messages (addMessageToState m w))
         /\ (ascending (messages w) ->
             (forall x, In x (messages w) -> timestamp_le x m) ->
             ascending (messages (addMessageToState m w)))).
Proof.
  split; [| split; [| split]].
  - intros fresh sId r w. split.
    + intros Htrue.
      destruct (getSession_true fresh sId r w Htrue) as (Hs & d & Hd).
      exists d. split; [exact Hd |].
      destruct (getSession_success fresh sId r d w Hs Hd) as (_ & Hm & _).
      rewrite Hm. apply sortByTimestamp_stable.
    + intros Hfalse. destruct (truthy_str sId) eqn:Hs.
      * destruct (fetchSession_outcome r) as [Hf | [d Hd]].
        -- apply (getSession_failure fresh sId r w Hs Hf).
        -- destruct (getSession_success fresh sId r d w Hs Hd) as (Ht & _).
           congruence.
      * unfold getSession. rewrite Hs. reflexivity.
  - intros S c room f d w Hf. split.
    + destruct (on_send_message_inserts S c room f d w Hf) as [H | H];
        [now left | right].
      rewrite H. apply sortByTimestamp_stable.
    + destruct (on_send_file_inserts S c room f d w Hf) as [H | H];
        [now left | right].
      rewrite H. apply sortByTimestamp_stable.
  - intros S c e w.
    pose proof (on_send_message_messages S c e w) as Hm.
    pose proof (on_send_file_messages S c e w) as Hf.
    split; now apply sorted_append_keeps.
  - intros m w. split; [reflexivity |]. split.
    + cbn. intros x Hx. apply in_or_app. now left.
    + intros Hs Hle. cbn. now apply ascending_append.
Qed.

End Properties.

(** ** The properties on the sample runs *)

(** C1 on a sample: the channel is bound to ["S1"] and a reply of the
    internal channel arrives. *)
Lemma realtime_filter_rule_witness :
  socketRef sample_active = Some sample_socket
  /\ sock_room sample_socket = "S1"
  /\ ((messages
         (fst (deliver_send_message sample_parse sample_clock sample_internal
                 sample_active)) <> messages sample_active ->
       direction_is_reply sample_internal
       /\ channel_is_external sample_internal
       /\ room_is "S1" sample_internal)
      /\ (messages
            (fst (deliver_send_file sample_parse sample_clock sample_internal
                    sample_active)) <> messages sample_active ->
          direction_is_reply sample_internal
          /\ channel_is_external sample_internal
          /\ room_is "S1" sample_internal)
      /\ (~ (direction_is_reply sample_internal
             /\ channel_is_external sample_internal
             /\ room_is "S1" sample_internal) ->
          fst (deliver_send_message sample_parse sample_clock sample_internal
                 sample_active) = sample_active
          /\ fst (deliver_send_file sample_parse sample_clock sample_internal
                    sample_active) = sample_active)).
Proof.
  split; [reflexivity |]. split; [reflexivity |].
  apply (realtime_filter_rule sample_parse "S1" sample_socket sample_clock
           sample_internal sample_active); reflexivity.
Defined.

(** C2 on a sample: the log ends with [sample_hello] and a reply with the
    same id arrives. *)
Lemma duplicate_echo_is_dropped_witness :
  lastMessage (messages sample_active) = Some sample_hello
  /\ echoes sample_hello
       (newMessageFromSocket sample_parse sample_clock (JStr "S1") sample_echo)
  /\ fst (on_send_message sample_parse "S1" sample_clock
            (EnvObj (JStr "S1") (MDObj sample_echo)) sample_active)
     = sample_active.
Proof.
  split; [reflexivity |]. split; [left; reflexivity |].
  apply (duplicate_echo_is_dropped sample_parse "New Message from Cuoral"
           (JStr "hi again") sample_hello sample_hello "S1" sample_clock
           (JStr "S1") sample_echo sample_active); [reflexivity |].
  left; reflexivity.
Defined.

(** C9 on a sample: [messageData] is [null]. *)
Lemma absent_messageData_is_ignored_witness :
  truthy JNull = false
  /\ on_send_message sample_parse "S1" sample_clock
       (EnvObj (JStr "S1") (MDPrim JNull)) sample_active
     = (sample_active, Normal)
  /\ on_send_file sample_parse "S1" sample_clock
       (EnvObj (JStr "S1") (MDPrim JNull)) sample_active
     = (sample_active, Normal)
  /\ on_send_message sample_parse "S1" sample_clock (EnvPrim JNull)
       sample_active = (sample_active, Normal)
  /\ on_send_file sample_parse "S1" sample_clock (EnvPrim JNull) sample_active
     = (sample_active, Normal).
Proof.
  split; [reflexivity |].
  apply (absent_messageData_is_ignored sample_parse "S1" sample_clock
           (JStr "S1") JNull sample_active).
  reflexivity.
Defined.

(** C10 on a sample: [getSession(null)]. *)
Lemma getSession_missing_id_witness :
  truthy_str None = false
  /\ snd (getSession sample_parse sample_fresh None sample_fetched
            sample_active) = false
  /\ sessionStatus
       (fst (getSession sample_parse sample_fresh None sample_fetched
               sample_active)) = error
  /\ sessionError
       (fst (getSession sample_parse sample_fresh None sample_fetched
               sample_active))
     = Some "Session ID is missing for getSession."
  /\ messages
       (fst (getSession sample_parse sample_fresh None sample_fetched
               sample_active)) = messages sample_active
  /\ trace
       (fst (getSession sample_parse sample_fresh None sample_fetched
               sample_active)) = trace sample_active.
Proof.
  split; [reflexivity |].
  apply (getSession_missing_id sample_parse sample_fresh None sample_fetched
           sample_active).
  reflexivity.
Defined.

(** C5 on a sample: an attachment whose upload is rejected. *)
Lemma file_announced_only_after_upload_witness :
  upload_fails sample_unreachable
  /\ forall room body,
      ~ In (EvEmit "send_file" room body)
          (effects_since sample_active
             (sendMessageViaSocket sample_props "see attached"
                (Some "data:image/png;base64,AAAA") (Some "shot.png")
                sample_unreachable None sample_active)).
Proof.
  split; [exact I |].
  apply (proj2 (file_announced_only_after_upload sample_props "see attached"
                  (Some "data:image/png;base64,AAAA") (Some "shot.png")
                  sample_unreachable None sample_active)).
  exact I.
Defined.

(** C7 on a sample: a text is sent while no client is held. *)
Lemma send_failure_keeps_session_witness :
  send_fails None sample_unreachable None sample_offline
  /\ sessionStatus
       (sendMessageViaSocket sample_props "hello" None None sample_unreachable
          None sample_offline) = sessionStatus sample_offline
  /\ exists m,
      sessionError
        (sendMessageViaSocket sample_props "hello" None None
           sample_unreachable None sample_offline) = Some m
      /\ m <> "".
Proof.
  assert (Hf : send_fails None sample_unreachable None sample_offline)
    by (left; left; reflexivity).
  split; [exact Hf |].
  pose proof (send_failure_keeps_session sample_props "hello" None None
                sample_unreachable None sample_offline) as [Hframe Herr].
  split; [exact (proj1 Hframe) | exact (proj1 (Herr Hf))].
Defined.

(** C8 on a sample: the profile of ["S1"] is set twice. *)
Lemma setProfile_idempotent_witness :
  setProfile_succeeds sample_profile_set
  /\ fst (setProfile (Some "S1") "ada@example.com" "Ada Lovelace"
            sample_profile_set
            (fst (setProfile (Some "S1") "ada@example.com" "Ada Lovelace"
                    sample_profile_set sample_active)))
     = perform (EvFetch setProfileUrl
               [("session_id", Some "S1"); ("email", Some "ada@example.com");
                ("name", Some "Ada Lovelace")])
         (fst (setProfile (Some "S1") "ada@example.com" "Ada Lovelace"
                 sample_profile_set sample_active)).
Proof.
  assert (Hs : setProfile_succeeds sample_profile_set)
    by (exists (mkProfileData true); split; reflexivity).
  split; [exact Hs |].
  exact (proj2 (proj2 (setProfile_idempotent (Some "S1") "ada@example.com"
                         "Ada Lovelace" sample_profile_set sample_profile_set
                         sample_active Hs) Hs)).
Defined.



(** C4 as claimed fails on the fresh install: the run ends
    [ProfilePending] with an empty log, and yet a client has been opened for
    ["S1"], so the channel is bound. *)
Lemma fresh_install_binds_channel :
  controllerState sample_fresh_install = ProfilePending
  /\ messages sample_fresh_install = []
  /\ socketRef sample_fresh_install = Some (mkSocket "S1" false)
  /\ In (EvSocketOpen "S1") (trace sample_fresh_install)
  /\ ~ (socketRef sample_fresh_install = None).
Proof.
  split; [reflexivity |]. split; [reflexivity |]. split; [reflexivity |].
  split.
  - cbv. right. right. now left.
  - discriminate.
Qed.

(** C4 as the code has it, on the fresh install. *)
Lemma incomplete_profile_still_binds_channel_witness :
  createSession_succeeds sample_created "S1"
  /\ fetchSession_succeeds sample_fetched
       (mkSessionData (Some "S1") None None None [] (Some "active"))
  /\ controllerState sample_fresh_install = ProfilePending
  /\ messages sample_fresh_install = []
  /\ channelBound sample_fresh_install.
Proof.
  assert (Hc : createSession_succeeds sample_created "S1").
  { exists (mkInitiateData true (Some "S1") None).
    repeat split; discriminate. }
  assert (Hf : fetchSession_succeeds sample_fetched
                 (mkSessionData (Some "S1") None None None []
                    (Some "active"))) by (split; reflexivity).
  split; [exact Hc |]. split; [exact Hf |].
  pose proof (proj2 (incomplete_profile_still_binds_channel sample_parse
                       sample_props)
                (PushGranted "ExponentPushToken") sample_fresh
                sample_unreachable sample_created sample_fetched
                sample_unreachable "S1"
                (mkSessionData (Some "S1") None None None [] (Some "active"))
                Hc Hf) as H.
  destruct H as (H1 & H2 & H3 & _);
    [discriminate | left; reflexivity | reflexivity |].
  split; [exact H1 |]. split; [exact H2 | exact H3].
Defined.

(** C3 as claimed fails in three ways.  On [addMessage]: the log holds a
    reply stamped 2000; the user's message stamped 1000 is put after it, and
    the log is no longer ascending.  On [getSession]: a hydration that
    succeeds with an empty history empties a log that held a message, while
    the session id and the stored id stay, so nothing was reset.  On dates: a
    history with a record that carries no [time_created] gives a message whose
    timestamp is no date, and the log is not in ascending order of timestamp
    in whatever order its messages are left. *)
Lemma log_invariant_fails :
  (ascending (messages sample_active)
   /\ messages (addMessageToState sample_early sample_active)
      = [sample_hello; sample_early]
   /\ ~ ascending (messages (addMessageToState sample_early sample_active)))
  /\ (snd (getSession sample_parse sample_fresh (Some "S1") sample_fetched
             sample_active) = true
      /\ In sample_hello (messages sample_active)
      /\ messages (fst (getSession sample_parse sample_fresh (Some "S1")
                          sample_fetched sample_active)) = []
      /\ sessionId (fst (getSession sample_parse sample_fresh (Some "S1")
                           sample_fetched sample_active))
         = sessionId sample_active
      /\ storage (fst (getSession sample_parse sample_fresh (Some "S1")
                         sample_fetched sample_active))
         = storage sample_active)
  /\ (snd (getSession sample_parse sample_fresh (Some "S1") sample_undated
             sample_active) = true
      /\ map timestamp
           (loadMessages sample_parse sample_fresh 0
              (sd_messages sample_undated_data)) = [Some 2000; None]
      /\ forall l',
          Permutation
            (loadMessages sample_parse sample_fresh 0
               (sd_messages sample_undated_data)) l' ->
          ~ ascending l').
Proof.
  split; [| split].
  - split; [repeat constructor |]. split; [reflexivity |].
    intros H. inversion H as [| a l Hs Hhd]; subst.
    inversion Hhd as [| b l' Hle]; subst.
    cbn in Hle. lia.
  - split; [reflexivity |]. split; [now left |].
    split; [reflexivity |]. split; reflexivity.
  - split; [reflexivity |]. split; [reflexivity |].
    intros l' Hp. cbn in Hp.
    apply Permutation_length_2_inv in Hp.
    destruct Hp as [-> | ->]; intros H;
      inversion H as [| a l Hs Hhd]; subst;
      inversion Hhd as [| b l0 Hle]; subst; exact Hle.
Qed.

(** C3 as the code has it, on samples: the hydration of the closed session
    ["S2"], whose history comes latest first, and the delivery of a reply
    stamped 1500 to a log that holds a message stamped 2000. *)
Lemma log_order_by_operation_witness :
  (snd (getSession sample_parse sample_fresh (Some "S2") sample_closed
          sample_active) = true
   /\ Forall valid_date
        (loadMessages sample_parse sample_fresh 0
           (sd_messages sample_closed_data))
   /\ map text
        (loadMessages sample_parse sample_fresh 0
           (sd_messages sample_closed_data)) = [JStr "second"; JStr "first"]
   /\ stable_sort_of
        (messages
           (fst (getSession sample_parse sample_fresh (Some "S2")
                   sample_closed sample_active)))
        (loadMessages sample_parse sample_fresh 0
           (sd_messages sample_closed_data))
   /\ ascending
        (messages
           (fst (getSession sample_parse sample_fresh (Some "S2")
                   sample_closed sample_active))))
  /\ (messageData_of (MDObj sample_reply_data) = Some sample_reply_data
      /\ stable_sort_of
           (messages
              (fst (on_send_message sample_parse "S1" sample_clock
                      sample_reply sample_active)))
           (messages sample_active
            ++ [newMessageFromSocket sample_parse sample_clock (JStr "S1")
                  sample_reply_data])%list).
Proof.
  assert (Hv : Forall valid_date
                 (loadMessages sample_parse sample_fresh 0
                    (sd_messages sample_closed_data))).
  { repeat constructor; discriminate. }
  split.
  - split; [reflexivity |]. split; [exact Hv |]. split; [reflexivity |].
    destruct (proj1 (proj1 (log_order_by_operation sample_parse) sample_fresh
                       (Some "S2") sample_closed sample_active) eq_refl)
      as (d & (Hr & _) & Hstable).
    assert (Hd : d = sample_closed_data) by (injection Hr as <-; reflexivity).
    subst d. split; [exact Hstable |].
    exact (proj1 (proj2 Hstable Hv)).
  - split; [reflexivity |].
    destruct (proj1 (proj1 (proj2 (log_order_by_operation sample_parse)) "S1"
                       sample_clock (JStr "S1") (MDObj sample_reply_data)
                       sample_reply_data sample_active eq_refl)) as [H | H].
    + discriminate H.
    + exact H.
Defined.

(** The closed session of the design document's scenario: the resume ends
    [Closed], the history is in the log in ascending order, and no client was
    ever opened. *)
Example closed_session_resume :
  controllerState sample_resume_closed = Closed
  /\ map text (messages sample_resume_closed) = [JStr "first"; JStr "second"]
  /\ map sender (messages sample_resume_closed) = [user; admin]
  /\ socketRef sample_resume_closed = None
  /\ trace sample_resume_closed
     = [EvAlert "Failed to get push token for push notification!";
        EvFetch getSessionUrl [("session_id", Some "S2")]].
Proof. repeat split. Qed.

(** A reply that passes the filter and repeats nothing is put at its place in
    the log, and the sound and the notification are invoked once each. *)
Example accepted_reply_rings_once :
  map text
    (messages
       (fst (deliver_send_message sample_parse sample_clock sample_reply
               sample_active)))
  = [JStr "How can I help?"; JStr "hi"]
  /\ effects_since sample_active
       (fst (deliver_send_message sample_parse sample_clock sample_reply
               sample_active))
     = [EvSound; EvNotify "New Message from Cuoral" (JStr "How can I help?")].
Proof. split; reflexivity. Qed.

(** The duplicate test looks at the last element only: the same reply
    delivered again is inserted again, since the log now ends with a later
    message. *)
Example earlier_echo_is_not_detected :
  map text
    (messages
       (fst (deliver_send_message sample_parse sample_clock sample_reply
               (fst (deliver_send_message sample_parse sample_clock
                       sample_reply sample_active)))))
  = [JStr "How can I help?"; JStr "How can I help?"; JStr "hi"].
Proof. reflexivity. Qed.

(** ** Further properties of the provider *)

Section MoreProperties.

Variable Date_parse : string -> option Z.
Variable props : Props.

(** *** The realtime client *)

Lemma connectSocket_effects (sId : option string) (w : World) :
  (truthy_str sId = false -> connectSocket sId w = w)
  /\ (forall s, sId = Some s -> s <> "" ->
      socketRef (connectSocket sId w) = Some (mkSocket s false)
      /\ effects_since w (connectSocket sId w)
         = (match socketRef w with
            | Some old => [EvSocketClose (sock_room old)]
            | None => []
            end ++ [EvSocketOpen s])%list
      /\ messages (connectSocket sId w) = messages w
      /\ sessionId (connectSocket sId w) = sessionId w
      /\ sessionStatus (connectSocket sId w) = sessionStatus w
      /\ storage (connectSocket sId w) = storage w).
Proof.
  split.
  - intros H. unfold connectSocket. destruct sId as [s |]; [| reflexivity].
    simpl in H. apply negb_false_iff in H. now rewrite H.
  - intros s -> Hs. unfold connectSocket, effects_since.
    apply String.eqb_neq in Hs. rewrite Hs.
    destruct (socketRef w); cbn;
      rewrite <- ?app_assoc, skipn_length_app; repeat split.
Qed.

(** X1.  [connectSocket] keeps at most one client.  On a truthy id the
    provider ends up holding a new client for that id, not yet connected; a
    client held before is closed first, and the opening of the new one is the
    last thing done; the log, the session id, the status and the stored id
    are not touched.  On a falsy id nothing happens at all. *)
Theorem connectSocket_replaces_client (sId : option string) (w : World) :
  (truthy_str sId = false -> connectSocket sId w = w)
  /\ (forall s, sId = Some s -> s <> "" ->
      socketRef (connectSocket sId w) = Some (mkSocket s false)
      /\ effects_since w (connectSocket sId w)
         = (match socketRef w with
            | Some old => [EvSocketClose (sock_room old)]
            | None => []
            end ++ [EvSocketOpen s])%list
      /\ messages (connectSocket sId w) = messages w
      /\ sessionId (connectSocket sId w) = sessionId w
      /\ sessionStatus (connectSocket sId w) = sessionStatus w
      /\ storage (connectSocket sId w) = storage w).
Proof. exact (connectSocket_effects sId w). Qed.

(** *** Outcome of the session calls *)

Lemma http_error_nonempty (st : Z) (stt : string) (msg : option string) :
  http_error_prefix ++ num_to_string st ++ http_error_sep ++ str_or msg stt
  <> "".
Proof. discriminate. Qed.

(** X2.  Whatever the backend answers, the loading flag is off when
    [getSession], [initiateSession], [setProfile], [setupCuoral] and
    [clearSessionAndInitiateNew] are done. *)
Theorem loading_flag_is_cleared (push : PushOutcome)
  (fresh : nat -> Z * string) (sId : option string) (ue uf ul : option string)
  (e n : string) (r_get r_new : Response SessionData)
  (r_create : Response InitiateData) (r_profile : Response ProfileData)
  (w : World) :
  isLoadingSession (fst (getSession Date_parse fresh sId r_get w)) = false
  /\ isLoadingSession
       (fst (initiateSession Date_parse props fresh ue uf ul r_create r_get w))
     = false
  /\ isLoadingSession (fst (setProfile sId e n r_profile w)) = false
  /\ isLoadingSession
       (setupCuoral Date_parse props push fresh r_get r_create r_new r_profile
          w) = false
  /\ isLoadingSession
       (fst (clearSessionAndInitiateNew Date_parse props fresh r_create r_get
               w)) = false.
Proof.
  assert (Hinit : forall a b c w0,
    isLoadingSession
      (fst (initiateSession Date_parse props fresh a b c r_create r_get w0))
    = false).
  { intros a b c w0. unfold initiateSession, initiateSession_catch, receive.
    destruct r_create as [m | st stt [m | msg] | [m | d]]; try reflexivity.
    destruct (id_status d && truthy_str (id_session_id d))%bool;
      [| reflexivity].
    cbv zeta.
    match goal with
    | |- context [getSession ?a1 ?a2 ?a3 ?a4 ?a5] =>
        destruct (getSession a1 a2 a3 a4 a5) as [w5 ok]
    end.
    reflexivity. }
  split; [| split; [| split; [| split]]].
  - unfold getSession, getSession_catch, receive.
    destruct (truthy_str sId); [| reflexivity]. cbn [negb].
    destruct r_get as [m | st stt [m | msg] | [m | d]]; try reflexivity.
    destruct (truthy_str (sd_session_id d)); reflexivity.
  - apply Hinit.
  - unfold setProfile, receive.
    destruct r_profile as [m | st stt [m | msg] | [m | d]]; try reflexivity.
    destruct (pd_status d); reflexivity.
  - unfold setupCuoral. cbv zeta.
    match goal with
    | |- context [let (_, _) := ?x in _] => destruct x as [w3 loaded]
    end.
    reflexivity.
  - unfold clearSessionAndInitiateNew. apply Hinit.
Qed.

(** The [catch] blocks store a non-empty message under status [error]. *)
Ltac caught :=
  cbn; split;
  [ reflexivity
  | eexists; split;
    [ reflexivity
    | first [ apply message_or_nonempty; discriminate | discriminate ] ] ].

Lemma getSession_outcome_agrees (fresh : nat -> Z * string)
  (sId : option string) (r : Response SessionData) (w : World) :
  outcome_agrees (getSession Date_parse fresh sId r w).
Proof.
  unfold outcome_agrees, getSession, getSession_catch, receive.
  destruct (truthy_str sId); [| caught]. cbn [negb].
  destruct r as [m | st stt [m | msg] | [m | d]]; try caught.
  destruct (truthy_str (sd_session_id d)); [| caught].
  cbv zeta. cbn [fst snd].
  match goal with
  | |- context [setMessages ?l ?x] => set (w7 := setMessages l x)
  end.
  assert (H7 : sessionError w7 = None).
  { subst w7. destruct (truthy_str (sd_color d)); reflexivity. }
  assert (Hopen : forall x,
            sessionError (connectSocket x (setSessionStatus active w7)) = None
            /\ sessionStatus (connectSocket x (setSessionStatus active w7))
               = active).
  { intros x. unfold connectSocket.
    destruct x as [sid |]; [| now split].
    destruct (sid =? "")%string; [now split |].
    destruct (socketRef (setSessionStatus active w7)); cbn; now split. }
  destruct (sd_status d) as [st |];
    [destruct (st =? "closed")%string |];
    cbn [sessionError sessionStatus setIsLoadingSession setSessionStatus].
  - split; [exact H7 | discriminate].
  - destruct (Hopen (sd_session_id d)) as [-> ->]. split; [reflexivity | discriminate].
  - destruct (Hopen (sd_session_id d)) as [-> ->]. split; [reflexivity | discriminate].
Qed.

Lemma initiateSession_outcome_agrees (fresh : nat -> Z * string)
  (ue uf ul : option string) (r : Response InitiateData)
  (r_get : Response SessionData) (w : World) :
  outcome_agrees (initiateSession Date_parse props fresh ue uf ul r r_get w).
Proof.
  unfold initiateSession, initiateSession_catch, receive.
  destruct r as [m | st stt [m | msg] | [m | d]];
    try (unfold outcome_agrees; caught).
  destruct (id_status d && truthy_str (id_session_id d))%bool;
    [| unfold outcome_agrees; caught].
  cbv zeta.
  match goal with
  | |- context [getSession ?a1 ?a2 ?a3 ?a4 ?a5] =>
      pose proof (getSession_outcome_agrees a2 a3 a4 a5) as Hg;
      destruct (getSession a1 a2 a3 a4 a5) as [w5 ok]
  end.
  unfold outcome_agrees in *. cbn [fst snd] in *.
  destruct ok; cbn.
  - split; [apply Hg | discriminate].
  - split; [reflexivity | apply Hg].
Qed.

(** X3.  The result of a session call, the status and the stored error agree.
    When [getSession], [initiateSession] or [setProfile] returns [false] the
    status is [error] and a non-empty error message is stored; when it
    returns [true] no error is stored and the status is not [error]. *)
Theorem result_status_error_agree (fresh : nat -> Z * string)
  (sId : option string) (ue uf ul : option string) (e n : string)
  (r_get : Response SessionData) (r_create : Response InitiateData)
  (r_profile : Response ProfileData) (w : World) :
  outcome_agrees (getSession Date_parse fresh sId r_get w)
  /\ outcome_agrees
       (initiateSession Date_parse props fresh ue uf ul r_create r_get w)
  /\ outcome_agrees (setProfile sId e n r_profile w).
Proof.
  split; [apply getSession_outcome_agrees | split].
  - apply initiateSession_outcome_agrees.
  - unfold outcome_agrees, setProfile, receive.
    destruct r_profile as [m | st stt [m | msg] | [m | d]]; try caught.
    destruct (pd_status d); [| caught].
    cbn. split; [reflexivity | discriminate].
Qed.

(** *** Creation and hydration *)

Lemma createSession_outcome (r : Response InitiateData) :
  createSession_fails r \/ exists new_id, createSession_succeeds r new_id.
Proof.
  destruct r as [m | st stt e | [m | d]]; try (left; exact I).
  unfold createSession_fails, createSession_succeeds.
  destruct (id_status d) eqn:Hs; [| now left].
  destruct (id_session_id d) as [sid |] eqn:Hid; [| now left].
  destruct (sid =? "")%string eqn:He.
  - left. cbn. now rewrite He.
  - right. exists sid, d. apply String.eqb_neq in He. auto.
Qed.

Lemma initiateSession_failure (fresh : nat -> Z * string)
  (ue uf ul : option string) (r : Response InitiateData)
  (r_get : Response SessionData) (w : World) :
  createSession_fails r ->
  snd (initiateSession Date_parse props fresh ue uf ul r r_get w) = false
  /\ messages (fst (initiateSession Date_parse props fresh ue uf ul r r_get w))
     = []
  /\ sessionProfileExists
       (fst (initiateSession Date_parse props fresh ue uf ul r r_get w))
     = false
  /\ sessionId (fst (initiateSession Date_parse props fresh ue uf ul r r_get w))
     = sessionId w
  /\ storage (fst (initiateSession Date_parse props fresh ue uf ul r r_get w))
     = storage w
  /\ socketRef (fst (initiateSession Date_parse props fresh ue uf ul r r_get w))
     = socketRef w
  /\ trace (fst (initiateSession Date_parse props fresh ue uf ul r r_get w))
     = (trace w
        ++ [EvFetch initiateSessionUrl
              [("public_key", publicKey props); ("email", ue);
               ("first_name", uf); ("last_name", ul)]])%list.
Proof.
  intros Hf.
  unfold initiateSession, initiateSession_catch, receive.
  destruct r as [m | st stt [m | msg] | [m | d]]; cbn in Hf; try rewrite Hf;
    cbn; repeat split.
Qed.

(** X4.  When the creation request yields no session (it is rejected, the
    response is not [ok] or cannot be read, or the body lacks a true [status]
    or a session id), [initiateSession] returns [false] after that single
    request: the log has been emptied and the profile flag turned off, while
    the session id in state, the stored id and the client are those from
    before the call. *)
Theorem initiateSession_failure_resets (fresh : nat -> Z * string)
  (ue uf ul : option string) (r : Response InitiateData)
  (r_get : Response SessionData) (w : World) :
  createSession_fails r ->
  snd (initiateSession Date_parse props fresh ue uf ul r r_get w) = false
  /\ messages (fst (initiateSession Date_parse props fresh ue uf ul r r_get w))
     = []
  /\ sessionProfileExists
       (fst (initiateSession Date_parse props fresh ue uf ul r r_get w))
     = false
  /\ sessionId (fst (initiateSession Date_parse props fresh ue uf ul r r_get w))
     = sessionId w
  /\ storage (fst (initiateSession Date_parse props fresh ue uf ul r r_get w))
     = storage w
  /\ socketRef (fst (initiateSession Date_parse props fresh ue uf ul r r_get w))
     = socketRef w
  /\ effects_since w
       (fst (initiateSession Date_parse props fresh ue uf ul r r_get w))
     = [EvFetch initiateSessionUrl
          [("public_key", publicKey props); ("email", ue);
           ("first_name", uf); ("last_name", ul)]].
Proof.
  intros Hf.
  destruct (initiateSession_failure fresh ue uf ul r r_get w Hf)
    as (H1 & H2 & H3 & H4 & H5 & H6 & H7).
  repeat split; try assumption.
  now apply effects_since_app.
Qed.

(** The world [initiateSession] hands to [getSession] once the creation has
    succeeded differs from the one it was called on by the emptied log, the
    new ids and the request. *)
Lemma initiateSession_hands_over (fresh : nat -> Z * string)
  (ue uf ul : option string) (r : Response InitiateData)
  (r_get : Response SessionData) (new_id : string) (w : World) :
  createSession_succeeds r new_id ->
  exists w4,
    socketRef w4 = socketRef w
    /\ storage w4 = Some new_id
    /\ extends w w4
    /\ initiateSession Date_parse props fresh ue uf ul r r_get w
       = (setIsLoadingSession false
            (setSessionStatus
               (if snd (getSession Date_parse fresh (Some new_id) r_get w4)
                then active else error)
               (fst (getSession Date_parse fresh (Some new_id) r_get w4))),
          snd (getSession Date_parse fresh (Some new_id) r_get w4)).
Proof.
  intros (d & -> & Hst & Hid & Hne).
  unfold initiateSession. cbn [receive]. rewrite Hst, Hid.
  rewrite (truthy_str_Some new_id Hne). cbn [andb]. cbv zeta.
  match goal with
  | |- context [getSession _ _ _ _ ?x] => set (w4 := x)
  end.
  exists w4. split; [| split; [| split]].
  - subst w4. destruct (truthy_str (id_color d)); reflexivity.
  - subst w4. destruct (truthy_str (id_color d)); reflexivity.
  - subst w4. destruct (truthy_str (id_color d)); eexists; reflexivity.
  - destruct (getSession Date_parse fresh (Some new_id) r_get w4) as [w5 ok].
    cbn [fst snd]. destruct ok; reflexivity.
Qed.

Lemma initiateSession_extends (fresh : nat -> Z * string)
  (ue uf ul : option string) (r : Response InitiateData)
  (r_get : Response SessionData) (w : World) :
  extends w (fst (initiateSession Date_parse props fresh ue uf ul r r_get w)).
Proof.
  destruct (createSession_outcome r) as [Hf | [new_id Hc]].
  - destruct (initiateSession_failure fresh ue uf ul r r_get w Hf)
      as (_ & _ & _ & _ & _ & _ & Ht).
    eexists. exact Ht.
  - destruct (initiateSession_hands_over fresh ue uf ul r r_get new_id w Hc)
      as (w4 & _ & _ & Hext & ->).
    apply (extends_trans w w4); [exact Hext |].
    cbn [fst]. apply (getSession_extends Date_parse).
Qed.

(** X5.  When the creation succeeds and the hydration that follows returns a
    closed session, [initiateSession] returns [true] and leaves the status
    [active], not [closed]: the status [getSession] had set is overwritten.
    No client is opened for that session. *)
Theorem initiateSession_reads_closed_as_active (fresh : nat -> Z * string)
  (ue uf ul : option string) (r : Response InitiateData)
  (r_get : Response SessionData) (new_id : string) (d : SessionData)
  (w : World) :
  createSession_succeeds r new_id ->
  fetchSession_succeeds r_get d ->
  sd_status d = Some "closed" ->
  snd (initiateSession Date_parse props fresh ue uf ul r r_get w) = true
  /\ sessionStatus
       (fst (initiateSession Date_parse props fresh ue uf ul r r_get w))
     = active
  /\ socketRef
       (fst (initiateSession Date_parse props fresh ue uf ul r r_get w))
     = socketRef w.
Proof.
  intros Hc Hd Hclosed.
  assert (Hne : new_id <> "").
  { destruct Hc as (d0 & _ & _ & _ & H). exact H. }
  destruct (initiateSession_hands_over fresh ue uf ul r r_get new_id w Hc)
    as (w4 & Hsock4 & _ & _ & ->).
  destruct (getSession_success Date_parse fresh (Some new_id) r_get d w4
              (truthy_str_Some new_id Hne) Hd)
    as (Htrue & _ & _ & _ & Hstat & _).
  rewrite Htrue. cbn [fst snd sessionStatus socketRef setIsLoadingSession
                      setSessionStatus].
  destruct Hstat as [(_ & _ & Hsock) | (Hopen & _)]; [| congruence].
  repeat split. congruence.
Qed.

(** X6.  The hydration of a closed session never touches the realtime
    channel: [getSession] returns [true] with status [closed], the client
    held before (if any) is still the one held, and the only effect is the
    request itself. *)
Theorem closed_session_never_connects (fresh : nat -> Z * string)
  (sId : option string) (r : Response SessionData) (d : SessionData)
  (w : World) :
  truthy_str sId = true -> fetchSession_succeeds r d ->
  sd_status d = Some "closed" ->
  snd (getSession Date_parse fresh sId r w) = true
  /\ sessionStatus (fst (getSession Date_parse fresh sId r w)) = closed
  /\ socketRef (fst (getSession Date_parse fresh sId r w)) = socketRef w
  /\ effects_since w (fst (getSession Date_parse fresh sId r w))
     = [EvFetch getSessionUrl [("session_id", sId)]].
Proof.
  intros Hs [-> Hd] Hclosed.
  unfold getSession, effects_since. rewrite Hs. cbn [negb receive].
  rewrite Hd, Hclosed. cbv zeta. cbn [String.eqb Ascii.eqb Bool.eqb].
  destruct (truthy_str (sd_color d)); cbn;
    rewrite skipn_length_app; repeat split.
Qed.

Lemma loadMessages_text (fresh : nat -> Z * string) (i : nat)
  (l : list MessageData) :
  map text (loadMessages Date_parse fresh i l) = map md_message l.
Proof.
  revert i. induction l as [| msg l IH]; intros i; cbn; [reflexivity |].
  now rewrite IH.
Qed.

(** X7.  A successful hydration keeps every record of the history, once: the
    log has as many messages as the answer has records, and the texts of the
    log are the texts of the records, up to order. *)
Theorem hydration_keeps_every_record (fresh : nat -> Z * string)
  (sId : option string) (r : Response SessionData) (d : SessionData)
  (w : World) :
  truthy_str sId = true -> fetchSession_succeeds r d ->
  List.length (messages (fst (getSession Date_parse fresh sId r w)))
  = List.length (sd_messages d)
  /\ Permutation
       (map text (messages (fst (getSession Date_parse fresh sId r w))))
       (map md_message (sd_messages d)).
Proof.
  intros Hs Hd.
  destruct (getSession_success Date_parse fresh sId r d w Hs Hd) as (_ & Hm & _).
  rewrite Hm.
  pose proof (sortByTimestamp_perm
                (loadMessages Date_parse fresh 0 (sd_messages d))) as Hp.
  split.
  - rewrite (Permutation_length Hp).
    rewrite <- (length_map text), loadMessages_text. apply length_map.
  - rewrite <- (loadMessages_text fresh 0). now apply Permutation_map.
Qed.

(** *** Profile *)

Lemma append_empty_r (s : string) : s ++ "" = s.
Proof. induction s as [| c s IH]; cbn; [reflexivity | now rewrite IH]. Qed.

Lemma split_space_shape (s : string) :
  exists h t,
    split_space s = h :: t
    /\ has_space h = false
    /\ s = h ++ match t with [] => "" | _ => " " ++ join_space t end
    /\ (has_space s = false -> t = [])
    /\ (has_space s = true -> t <> []).
Proof.
  induction s as [| c r (h & t & Hsplit & Hh & Hr & Hno & Hyes)].
  - exists "", []. cbn. repeat split; auto. discriminate.
  - cbn [split_space has_space]. destruct (Ascii.eqb c " ") eqn:Hc.
    + apply Ascii.eqb_eq in Hc. subst c.
      exists "", (split_space r). rewrite Hsplit.
      split; [reflexivity |]. split; [reflexivity |]. split; [| split].
      * cbn [append]. f_equal. rewrite Hr at 1.
        unfold join_space. destruct t; cbn; [now rewrite append_empty_r |].
        reflexivity.
      * discriminate.
      * discriminate.
    + rewrite Hsplit. exists (String c h), t.
      split; [reflexivity |]. split.
      * cbn. now rewrite Hc.
      * split; [| split].
        -- rewrite Hr at 1. reflexivity.
        -- cbn [orb]. exact Hno.
        -- cbn [orb]. exact Hyes.
Qed.

(** How [nameParts[0]] and [nameParts.slice(1).join(' ')] split a name. *)
Lemma name_parts (n : string) :
  has_space (hd "" (split_space n)) = false
  /\ (has_space n = false ->
      hd "" (split_space n) = n /\ join_space (tl (split_space n)) = "")
  /\ (has_space n = true ->
      n = hd "" (split_space n) ++ " " ++ join_space (tl (split_space n))).
Proof.
  destruct (split_space_shape n) as (h & t & Hsplit & Hh & Hn & Hno & Hyes).
  rewrite Hsplit. cbn [hd tl]. split; [exact Hh |]. split.
  - intros H. rewrite (Hno H) in *. cbn in *.
    rewrite append_empty_r in Hn. now split.
  - intros H. specialize (Hyes H). destruct t; [contradiction | exact Hn].
Qed.

Lemma connectSocket_profile (sId : option string) (w : World) :
  email (connectSocket sId w) = email w
  /\ firstName (connectSocket sId w) = firstName w
  /\ lastName (connectSocket sId w) = lastName w.
Proof.
  unfold connectSocket.
  destruct sId as [s |]; [| now repeat split].
  destruct (s =? "")%string; [now repeat split |].
  destruct (socketRef w); cbn; now repeat split.
Qed.

(** X8.  A name is split at its first space: after a successful
    [setProfile], and after a successful [getSession] on the name of the
    answer (the empty string when the answer has none), the first name holds
    no space; a name without space is the first name, with an empty last
    name; and a name with a space is the first name, a space and the last
    name. *)
Theorem name_is_split_at_first_space (fresh : nat -> Z * string)
  (sId : option string) (e n : string) (r : Response ProfileData)
  (r_get : Response SessionData) (d : SessionData) (w : World) :
  (setProfile_succeeds r ->
   has_space (firstName (fst (setProfile sId e n r w))) = false
   /\ (has_space n = false ->
       firstName (fst (setProfile sId e n r w)) = n
       /\ lastName (fst (setProfile sId e n r w)) = "")
   /\ (has_space n = true ->
       n = firstName (fst (setProfile sId e n r w)) ++ " "
           ++ lastName (fst (setProfile sId e n r w))))
  /\ (truthy_str sId = true -> fetchSession_succeeds r_get d ->
      has_space (firstName (fst (getSession Date_parse fresh sId r_get w)))
      = false
      /\ (has_space (str_or (sd_name d) "") = false ->
          firstName (fst (getSession Date_parse fresh sId r_get w))
          = str_or (sd_name d) ""
          /\ lastName (fst (getSession Date_parse fresh sId r_get w)) = "")
      /\ (has_space (str_or (sd_name d) "") = true ->
          str_or (sd_name d) ""
          = firstName (fst (getSession Date_parse fresh sId r_get w)) ++ " "
            ++ lastName (fst (getSession Date_parse fresh sId r_get w)))).
Proof.
  split.
  - intros (d0 & -> & Hd0). unfold setProfile. cbn [receive]. rewrite Hd0.
    cbn [fst firstName lastName setIsLoadingSession setSessionStatus
         setSessionProfileExists setLastName setFirstName].
    apply name_parts.
  - intros Hs [-> Hd]. unfold getSession. rewrite Hs. cbn [negb receive].
    rewrite Hd. cbv zeta.
    assert (Hnames : forall w0 : World,
      firstName w0 = hd "" (split_space (str_or (sd_name d) "")) ->
      lastName w0 = join_space (tl (split_space (str_or (sd_name d) ""))) ->
      has_space (firstName w0) = false
      /\ (has_space (str_or (sd_name d) "") = false ->
          firstName w0 = str_or (sd_name d) "" /\ lastName w0 = "")
      /\ (has_space (str_or (sd_name d) "") = true ->
          str_or (sd_name d) "" = firstName w0 ++ " " ++ lastName w0)).
    { intros w0 -> ->. apply name_parts. }
    destruct (sd_status d) as [st |];
      [destruct (st =? "closed")%string |];
      cbn [fst]; apply Hnames;
      cbn [firstName lastName setIsLoadingSession setSessionStatus];
      rewrite ?(proj1 (proj2 (connectSocket_profile _ _))),
              ?(proj2 (proj2 (connectSocket_profile _ _)));
      reflexivity.
Qed.

Lemma setProfile_touches_profile_only (sId : option string) (e n : string)
  (r : Response ProfileData) (w : World) :
  messages (fst (setProfile sId e n r w)) = messages w
  /\ sessionId (fst (setProfile sId e n r w)) = sessionId w
  /\ storage (fst (setProfile sId e n r w)) = storage w
  /\ socketRef (fst (setProfile sId e n r w)) = socketRef w
  /\ effects_since w (fst (setProfile sId e n r w))
     = [EvFetch setProfileUrl
          [("session_id", sId); ("email", Some e); ("name", Some n)]]
  /\ (snd (setProfile sId e n r w) = false ->
      email (fst (setProfile sId e n r w)) = email w
      /\ firstName (fst (setProfile sId e n r w)) = firstName w
      /\ lastName (fst (setProfile sId e n r w)) = lastName w
      /\ sessionProfileExists (fst (setProfile sId e n r w))
         = sessionProfileExists w).
Proof.
  unfold setProfile, receive, effects_since.
  destruct r as [m | st stt [m | msg] | [m | d]];
    try destruct (pd_status d);
    cbn; rewrite skipn_length_app; repeat split; congruence.
Qed.

(** X9.  [setProfile] works on the profile alone: whatever the answer, the
    log, the session id, the stored id and the realtime client are untouched
    (a successful call opens no client) and its one effect is the request
    with the id, the email and the name; and when it returns [false] the
    email, the names and the profile flag are untouched as well. *)
Theorem setProfile_frame (sId : option string) (e n : string)
  (r : Response ProfileData) (w : World) :
  messages (fst (setProfile sId e n r w)) = messages w
  /\ sessionId (fst (setProfile sId e n r w)) = sessionId w
  /\ storage (fst (setProfile sId e n r w)) = storage w
  /\ socketRef (fst (setProfile sId e n r w)) = socketRef w
  /\ effects_since w (fst (setProfile sId e n r w))
     = [EvFetch setProfileUrl
          [("session_id", sId); ("email", Some e); ("name", Some n)]]
  /\ (snd (setProfile sId e n r w) = false ->
      email (fst (setProfile sId e n r w)) = email w
      /\ firstName (fst (setProfile sId e n r w)) = firstName w
      /\ lastName (fst (setProfile sId e n r w)) = lastName w
      /\ sessionProfileExists (fst (setProfile sId e n r w))
         = sessionProfileExists w).
Proof. exact (setProfile_touches_profile_only sId e n r w). Qed.

(** *** Realtime insertion *)

Lemma reply_sender_alerts (a : jsval) :
  (sender_eqb (reply_sender a) bot || sender_eqb (reply_sender a) admin)%bool
  = true.
Proof. unfold reply_sender. destruct (strict_eq a (JStr "HUMAN")); reflexivity. Qed.

Lemma mergeFromSocket_alerts (title : string) (body : jsval) (m : Message)
  (w : World) :
  (sender_eqb (sender m) bot || sender_eqb (sender m) admin)%bool = true ->
  mergeFromSocket title body m w = w
  \/ (List.length (messages (mergeFromSocket title body m w))
      = S (List.length (messages w))
      /\ effects_since w (mergeFromSocket title body m w)
         = [EvSound; EvNotify title body]).
Proof.
  intros Hs. unfold mergeFromSocket. rewrite Hs.
  assert (Hins :
    List.length
      (messages
         (setMessages (sortByTimestamp (messages w ++ [m]))
            (sendLocalNotification title body (playNotificationSound w))))
    = S (List.length (messages w))
    /\ effects_since w
         (setMessages (sortByTimestamp (messages w ++ [m]))
            (sendLocalNotification title body (playNotificationSound w)))
       = [EvSound; EvNotify title body]).
  { split.
    - cbn [messages setMessages].
      rewrite (Permutation_length (sortByTimestamp_perm _)).
      rewrite length_app. cbn. lia.
    - unfold effects_since. cbn. rewrite <- app_assoc.
      apply skipn_length_app. }
  destruct (lastMessage (messages w)) as [last |]; [| now right].
  destruct (is_duplicate last m); [now left | now right].
Qed.

(** X10.  A realtime delivery alerts exactly once per message it inserts:
    either listener leaves the world as it was, or the log grows by exactly
    one message and the effects are one sound followed by one notification,
    titled ['New Message from Cuoral'] for a message and
    ['New File from Cuoral'] for a file, whose body is then never falsy. *)
Theorem insertion_alerts_exactly_once (S0 : string) (c : Clock)
  (e : Envelope) (w : World) :
  (fst (on_send_message Date_parse S0 c e w) = w
   \/ (List.length (messages (fst (on_send_message Date_parse S0 c e w)))
       = S (List.length (messages w))
       /\ exists body,
           effects_since w (fst (on_send_message Date_parse S0 c e w))
           = [EvSound; EvNotify "New Message from Cuoral" body]))
  /\ (fst (on_send_file Date_parse S0 c e w) = w
      \/ (List.length (messages (fst (on_send_file Date_parse S0 c e w)))
          = S (List.length (messages w))
          /\ exists body,
              truthy body = true
              /\ effects_since w (fst (on_send_file Date_parse S0 c e w))
                 = [EvSound; EvNotify "New File from Cuoral" body])).
Proof.
  split.
  - destruct e as [v | room f]; [now left |].
    cbn [on_send_message].
    destruct (messageData_of f) as [d |]; [| now left].
    destruct (opt_toLowerCase (md_message_type d)); [| now left].
    match goal with |- context [if ?b then _ else _] => destruct b end;
      [| now left].
    cbn [fst].
    match goal with
    | |- context [mergeFromSocket ?t ?b ?m w] =>
        destruct (mergeFromSocket_alerts t b m w) as [H | [H1 H2]]
    end.
    + apply reply_sender_alerts.
    + now left.
    + right. split; [exact H1 |]. eexists. exact H2.
  - destruct e as [v | room f]; [now left |].
    cbn [on_send_file].
    destruct (messageData_of f) as [d |]; [| now left].
    match goal with |- context [if ?b then _ else _] => destruct b end;
      [| now left].
    destruct (opt_toLowerCase (md_message_type d)); [| now left].
    match goal with |- context [if ?b then _ else _] => destruct b end;
      [| now left].
    cbn [fst].
    match goal with
    | |- context [mergeFromSocket ?t ?b ?m w] =>
        destruct (mergeFromSocket_alerts t b m w) as [H | [H1 H2]]
    end.
    + apply reply_sender_alerts.
    + now left.
    + right. split; [exact H1 |]. eexists. split; [| exact H2].
      cbn [text newFileMessageFromSocket]. unfold js_or.
      destruct (truthy (md_message d)) eqn:Hm; cbn; [now rewrite Hm |].
      reflexivity.
Qed.

(** *** Outbound text *)

Lemma send_touches_no_session_cell (text : string)
  (fileData fileName : option string) (upload : Response unit)
  (thrown : option string) (w : World) :
  sessionStatus
    (sendMessageViaSocket props text fileData fileName upload thrown w)
  = sessionStatus w
  /\ sessionId
       (sendMessageViaSocket props text fileData fileName upload thrown w)
     = sessionId w
  /\ storage
       (sendMessageViaSocket props text fileData fileName upload thrown w)
     = storage w
  /\ messages
       (sendMessageViaSocket props text fileData fileName upload thrown w)
     = messages w.
Proof.
  unfold sendMessageViaSocket, try_emit, upload_failure.
  destruct (socketRef w) as [[room [|]] |];
    destruct (truthy_str (sessionId w));
    destruct (truthy_str fileData);
    destruct upload as [? | ? ? [? | ?] | ?];
    destruct thrown as [? |]; repeat split.
Qed.

(** X11.  A text sent over a connected client of a session is emitted once,
    as ["send_message"], to the room of the session id in state, and nothing
    else changes: no request is made and the stored error, if any, stays.
    The author of the payload is never empty: it is the email when there is
    one, else the trimmed first and last names, else ['anonymous']. *)
Theorem text_is_emitted_once (text : string) (fileData fileName : option string)
  (upload : Response unit) (s : Socket) (sid : string) (w : World) :
  socketRef w = Some s -> sock_connected s = true ->
  sessionId w = Some sid -> sid <> "" ->
  truthy_str fileData = false ->
  exists author,
    author <> ""
    /\ (email w <> "" -> author = email w)
    /\ (email w = "" -> trim (firstName w ++ " " ++ lastName w) <> "" ->
        author = trim (firstName w ++ " " ++ lastName w))
    /\ (email w = "" -> trim (firstName w ++ " " ++ lastName w) = "" ->
        author = "anonymous")
    /\ sendMessageViaSocket props text fileData fileName upload None w
       = perform
           (EvEmit "send_message" sid
              [("origin", Some "frontend"); ("message", Some text);
               ("message_type", Some "QUERY"); ("channel", Some "external");
               ("author", Some author); ("author_type", Some "HUMAN");
               ("conversation_id", Some sid);
               ("organisation_id", publicKey props);
               ("file", None); ("filename", None)]) w.
Proof.
  intros Hsock Hconn Hsid Hne Hfd.
  exists (message_or
            (message_or (email w) (trim (firstName w ++ " " ++ lastName w)))
            "anonymous").
  split; [apply message_or_nonempty; discriminate |].
  split; [| split; [| split]].
  - intros He. unfold message_or. apply String.eqb_neq in He.
    now rewrite He, He.
  - intros He Ht. unfold message_or. apply String.eqb_neq in Ht.
    rewrite He. cbn [String.eqb]. now rewrite Ht.
  - intros He Ht. unfold message_or. now rewrite He, Ht.
  - unfold sendMessageViaSocket, try_emit.
    rewrite Hsock, Hconn, Hsid, (truthy_str_Some sid Hne), Hfd.
    cbn [negb orb str_or]. apply String.eqb_neq in Hne. rewrite Hne.
    reflexivity.
Qed.

(** X12.  Between the opening of a client and its ["connect"] event nothing
    can be sent: a text sent right after [connectSocket] is refused with
    ['Cannot send message/file: Chat not connected.'] and emits nothing.
    Once the ["connect"] listener has run, which joins the room of the
    client, the same text is emitted. *)
Theorem send_waits_for_connect (text : string) (s sid : string) (w : World) :
  s <> "" -> sessionId w = Some sid -> sid <> "" ->
  let opened := connectSocket (Some s) w in
  let joined := socket_connected opened in
  (sessionError
     (sendMessageViaSocket props text None None (HttpOk (Json tt)) None opened)
   = Some "Cannot send message/file: Chat not connected."
   /\ effects_since opened
        (sendMessageViaSocket props text None None (HttpOk (Json tt)) None
           opened) = [])
  /\ effects_since opened joined = [EvEmit "join" s []]
  /\ exists body,
      effects_since joined
        (sendMessageViaSocket props text None None (HttpOk (Json tt)) None
           joined)
      = [EvEmit "send_message" sid body].
Proof.
  intros Hs Hsid Hne opened joined.
  destruct (proj2 (connectSocket_effects (Some s) w) s eq_refl Hs)
    as (Hsock & _ & _ & Hsid' & _).
  fold opened in Hsock, Hsid'.
  assert (Hjoined : socketRef joined = Some (mkSocket s true)
                    /\ sessionId joined = Some sid
                    /\ effects_since opened joined = [EvEmit "join" s []]).
  { subst joined. unfold socket_connected. rewrite Hsock.
    split; [reflexivity |]. split.
    - cbn [sessionId setSocketRef perform]. rewrite Hsid'. exact Hsid.
    - unfold effects_since. cbn. apply skipn_length_app. }
  destruct Hjoined as (Hsock2 & Hsid2 & Heff2).
  split; [| split].
  - unfold sendMessageViaSocket, effects_since. rewrite Hsock. cbn.
    rewrite skipn_length_self. now split.
  - exact Heff2.
  - unfold sendMessageViaSocket, try_emit, effects_since.
    rewrite Hsock2, Hsid2, (truthy_str_Some sid Hne). cbn.
    rewrite skipn_length_app. apply String.eqb_neq in Hne. rewrite Hne.
    eexists. reflexivity.
Qed.

(** *** Startup and reset *)

Lemma connectSocket_events (sId : option string) (w : World) :
  exists evs,
    trace (connectSocket sId w) = (trace w ++ evs)%list
    /\ Forall hydration_event evs
    /\ sessionId (connectSocket sId w) = sessionId w.
Proof.
  unfold connectSocket.
  destruct sId as [s |];
    [| exists []; rewrite app_nil_r; repeat split; constructor].
  destruct (s =? "")%string;
    [exists []; rewrite app_nil_r; repeat split; constructor |].
  destruct (socketRef w) as [old |]; cbn.
  - exists [EvSocketClose (sock_room old); EvSocketOpen s].
    rewrite <- app_assoc. repeat split. repeat constructor.
  - exists [EvSocketOpen s]. repeat split. repeat constructor.
Qed.

(** The effects of a hydration are its request and the closing and opening
    of clients; a successful one puts the session id of the answer in
    state. *)
Lemma getSession_events (fresh : nat -> Z * string) (sId : option string)
  (r : Response SessionData) (w : World) :
  (exists evs,
      trace (fst (getSession Date_parse fresh sId r w)) = (trace w ++ evs)%list
      /\ Forall hydration_event evs)
  /\ (forall d, truthy_str sId = true -> fetchSession_succeeds r d ->
      sessionId (fst (getSession Date_parse fresh sId r w)) = sd_session_id d).
Proof.
  assert (Hone : Forall hydration_event
                   [EvFetch getSessionUrl [("session_id", sId)]])
    by (repeat constructor).
  unfold getSession, getSession_catch, receive.
  destruct (truthy_str sId).
  2:{ split; [| intros d H; discriminate H].
      exists []. cbn. rewrite app_nil_r. split; constructor. }
  cbn [negb].
  destruct r as [m | st stt [m | msg] | [m | d]];
    try (split; [eexists; split; [reflexivity | exact Hone]
                | intros d0 _ [H _]; discriminate H]).
  destruct (truthy_str (sd_session_id d)) eqn:Hd.
  2:{ split; [eexists; split; [reflexivity | exact Hone] |].
      intros d0 _ [H H0]. injection H as <-. congruence. }
  cbv zeta.
  match goal with
  | |- context [setMessages ?l ?x] => set (w7 := setMessages l x)
  end.
  assert (H7 : trace w7
               = (trace w ++ [EvFetch getSessionUrl [("session_id", sId)]])%list
               /\ sessionId w7 = sd_session_id d).
  { subst w7. destruct (truthy_str (sd_color d)); split; reflexivity. }
  destruct H7 as [H7 Hid7].
  assert (Hopen :
    (exists evs,
        trace (fst (setIsLoadingSession false
                      (connectSocket (sd_session_id d)
                         (setSessionStatus active w7)), true))
        = (trace w ++ evs)%list /\ Forall hydration_event evs)
    /\ (forall d0, true = true -> fetchSession_succeeds (HttpOk (Json d)) d0 ->
        sessionId (fst (setIsLoadingSession false
                          (connectSocket (sd_session_id d)
                             (setSessionStatus active w7)), true))
        = sd_session_id d0)).
  { destruct (connectSocket_events (sd_session_id d)
                (setSessionStatus active w7)) as (evs & Ht & Hev & Hsid).
    split.
    - exists ([EvFetch getSessionUrl [("session_id", sId)]] ++ evs)%list.
      cbn [fst trace setIsLoadingSession]. rewrite Ht.
      cbn [trace setSessionStatus]. rewrite H7, <- app_assoc.
      split; [reflexivity |]. apply Forall_app. now split.
    - intros d0 _ [H _]. injection H as <-.
      cbn [fst sessionId setIsLoadingSession]. rewrite Hsid. exact Hid7. }
  destruct (sd_status d) as [st |]; [destruct (st =? "closed")%string |];
    try exact Hopen.
  split.
  - eexists. cbn. split; [exact H7 | exact Hone].
  - intros d0 _ [H _]. injection H as <-. exact Hid7.
Qed.

(** X13.  At a run of [setupCuoral] that finds a stored id whose hydration
    succeeds (the automatic profile submission not being due, as at mount),
    no session is created: no creation request is made, the stored id stays,
    the session id in state is the one of the answer, the log holds the
    messages of the history and no other, in ascending order of timestamp
    with the messages of one timestamp in the order of the history when all
    their dates are valid, and the controller is neither loading nor in
    error. *)
Theorem resume_creates_no_session (push : PushOutcome)
  (fresh : nat -> Z * string) (sid : string) (d : SessionData)
  (r_stored : Response SessionData) (r_create : Response InitiateData)
  (r_new : Response SessionData) (r_profile : Response ProfileData)
  (w : World) :
  storage w = Some sid -> sid <> "" ->
  autoProfileDue props w = false ->
  fetchSession_succeeds r_stored d ->
  let w' := setupCuoral Date_parse props push fresh r_stored r_create r_new
              r_profile w in
  (forall body, ~ In (EvFetch initiateSessionUrl body) (effects_since w w'))
  /\ storage w' = Some sid
  /\ sessionId w' = sd_session_id d
  /\ stable_sort_of (messages w')
       (loadMessages Date_parse fresh 0 (sd_messages d))
  /\ controllerState w' <> Loading
  /\ controllerState w' <> Error.
Proof.
  intros Hsto Hsid Hauto Hd w'. subst w'.
  unfold setupCuoral. cbv zeta. rewrite Hauto.
  set (w1 := setSessionStatus loading (setIsLoadingSession true w)).
  set (w2 := registerForPushNotificationsAsync push w1).
  assert (Hw2 : storage w2 = Some sid
                /\ exists evs, trace w2 = (trace w ++ evs)%list
                               /\ Forall (fun e => exists m, e = EvAlert m) evs).
  { subst w2 w1. destruct push; cbn; (split; [exact Hsto |]).
    - exists []. rewrite app_nil_r. split; constructor.
    - eexists. split; [reflexivity |]. repeat constructor. now eexists.
    - exists []. rewrite app_nil_r. split; constructor. }
  destruct Hw2 as (Hsto2 & evs2 & Htr2 & Hev2).
  rewrite Hsto2, (truthy_str_Some sid Hsid).
  destruct (getSession_success Date_parse fresh (Some sid) r_stored d w2
              (truthy_str_Some sid Hsid) Hd)
    as (Htrue & Hmsg & Hsto3 & _ & Hstat & _).
  destruct (getSession_events fresh (Some sid) r_stored w2)
    as ((evs3 & Htr3 & Hev3) & Hid3).
  specialize (Hid3 d (truthy_str_Some sid Hsid) Hd).
  destruct (getSession Date_parse fresh (Some sid) r_stored w2)
    as [w3 loaded].
  cbn [fst snd] in *. subst loaded.
  split; [| split; [| split; [| split; [| split]]]].
  - intros body Hin.
    rewrite (effects_since_app w _ (evs2 ++ evs3)%list) in Hin.
    + apply in_app_or in Hin. destruct Hin as [Hin | Hin].
      * rewrite Forall_forall in Hev2. destruct (Hev2 _ Hin) as [m Hm].
        discriminate Hm.
      * rewrite Forall_forall in Hev3. specialize (Hev3 _ Hin).
        cbn in Hev3. discriminate Hev3.
    + cbn [trace setIsLoadingSession]. now rewrite Htr3, Htr2, app_assoc.
  - cbn [storage setIsLoadingSession]. congruence.
  - exact Hid3.
  - cbn [messages setIsLoadingSession]. rewrite Hmsg.
    apply sortByTimestamp_stable.
  - unfold controllerState. cbn [sessionStatus setIsLoadingSession].
    destruct Hstat as [(_ & -> & _) | (_ & -> & _)]; [discriminate |].
    cbn [sessionProfileExists setIsLoadingSession].
    destruct (sessionProfileExists w3); discriminate.
  - unfold controllerState. cbn [sessionStatus setIsLoadingSession].
    destruct Hstat as [(_ & -> & _) | (_ & -> & _)]; [discriminate |].
    cbn [sessionProfileExists setIsLoadingSession].
    destruct (sessionProfileExists w3); discriminate.
Qed.

(** X14.  [clearSessionAndInitiateNew] forgets the session whatever follows.
    When the creation then fails, nothing of the old session is left: no
    stored id, no session id in state, an empty log, the profile flag off,
    and the controller in error.  When it succeeds, the stored id is the new
    one.  And a client that was connected is closed before anything else. *)
Theorem reset_forgets_the_session (fresh : nat -> Z * string)
  (r : Response InitiateData) (r_get : Response SessionData) (w : World) :
  let w' := fst (clearSessionAndInitiateNew Date_parse props fresh r r_get w) in
  (createSession_fails r ->
   storage w' = None /\ sessionId w' = None /\ messages w' = []
   /\ sessionProfileExists w' = false /\ controllerState w' = Error)
  /\ (forall new_id, createSession_succeeds r new_id ->
      storage w' = Some new_id)
  /\ (forall s, socketRef w = Some s -> sock_connected s = true ->
      exists rest, effects_since w w' = EvSocketClose (sock_room s) :: rest).
Proof.
  intros w'. subst w'. unfold clearSessionAndInitiateNew.
  set (w1 := match socketRef w with
             | Some s =>
                 if sock_connected s
                 then setSocketRef None
                        (perform (EvSocketClose (sock_room s)) w)
                 else w
             | None => w
             end).
  set (w2 := setIsLoadingSession true _).
  split; [| split].
  - intros Hf.
    destruct (initiateSession_failure fresh (Some (tempUserEmail w))
                (Some (firstName w)) (Some (lastName w)) r r_get w2 Hf)
      as (Hfalse & Hm & Hp & Hid & Hsto & _ & _).
    pose proof (initiateSession_outcome_agrees fresh (Some (tempUserEmail w))
                  (Some (firstName w)) (Some (lastName w)) r r_get w2) as Ha.
    unfold outcome_agrees in Ha. rewrite Hfalse in Ha.
    unfold controllerState. rewrite (proj1 Ha), Hm, Hp, Hid, Hsto.
    repeat split.
  - intros new_id Hc.
    destruct (initiateSession_hands_over fresh (Some (tempUserEmail w))
                (Some (firstName w)) (Some (lastName w)) r r_get new_id w2 Hc)
      as (w4 & _ & Hsto4 & _ & ->).
    cbn [fst storage setIsLoadingSession setSessionStatus].
    now rewrite (getSession_storage Date_parse).
  - intros s Hsock Hconn.
    assert (H2 : trace w2 = (trace w ++ [EvSocketClose (sock_room s)])%list).
    { subst w2 w1. rewrite Hsock, Hconn. reflexivity. }
    destruct (initiateSession_extends fresh (Some (tempUserEmail w))
                (Some (firstName w)) (Some (lastName w)) r r_get w2)
      as [evs Hev].
    exists evs. apply effects_since_app.
    rewrite Hev, H2, <- app_assoc. reflexivity.
Qed.

(** *** Place of an inserted message *)

Lemma timestamp_le_not_after (a b : Message) :
  timestamp_le a b -> sorts_after a b = false.
Proof.
  unfold timestamp_le, sorts_after, compareTimestamps.
  destruct (timestamp a), (timestamp b); try contradiction.
  intros H. apply Z.ltb_ge. lia.
Qed.

Lemma sort_insert_ascending_head (x : Message) (l : list Message) :
  ascending (x :: l) -> sort_insert x l = x :: l.
Proof.
  intros H. destruct l as [| y l]; [reflexivity |].
  inversion H as [| ? ? _ Hhd]; subst. inversion Hhd; subst.
  cbn. now rewrite timestamp_le_not_after.
Qed.

Lemma not_after_timestamp_le (a b : Message) :
  valid_date a -> valid_date b -> sorts_after a b = false ->
  timestamp_le a b.
Proof.
  unfold valid_date, timestamp_le, sorts_after, compareTimestamps.
  destruct (timestamp a), (timestamp b); try congruence.
  intros _ _ H. apply Z.ltb_ge in H. lia.
Qed.

Lemma after_timestamp_lt (a b : Message) :
  sorts_after a b = true -> timestamp_lt b a.
Proof.
  unfold timestamp_lt, sorts_after, compareTimestamps.
  destruct (timestamp a), (timestamp b); try discriminate.
  intros H. apply Z.ltb_lt in H. lia.
Qed.

Lemma timestamp_le_trans (a b c : Message) :
  timestamp_le a b -> timestamp_le b c -> timestamp_le a c.
Proof.
  unfold timestamp_le.
  destruct (timestamp a), (timestamp b), (timestamp c); try contradiction.
  lia.
Qed.

(** Where the sort puts a message appended to an ascending log of valid
    dates: after the messages that are not later than it and before those
    that are later, which all stay where they were. *)
Lemma insert_into_ascending (l : list Message) (m : Message) :
  ascending l -> Forall valid_date l -> valid_date m ->
  exists l1 l2, l = (l1 ++ l2)%list
                /\ sortByTimestamp (l ++ [m]) = (l1 ++ m :: l2)%list
                /\ Forall (fun x => timestamp_le x m) l1
                /\ Forall (fun x => timestamp_lt m x) l2.
Proof.
  intros Hasc Hv Hm. unfold sortByTimestamp.
  rewrite fold_right_app. cbn [fold_right].
  induction l as [| a l IH].
  - exists [], []. repeat split; constructor.
  - assert (Hl : ascending l) by (inversion Hasc; assumption).
    assert (Hva : valid_date a) by (inversion Hv; assumption).
    assert (Hvl : Forall valid_date l) by (inversion Hv; assumption).
    destruct (IH Hl Hvl) as (l1 & l2 & Hsplit & Hsort & Hle & Hlt).
    cbn [fold_right]. rewrite Hsort.
    destruct l1 as [| b l1].
    + cbn in Hsplit. subst l2. cbn [app sort_insert].
      destruct (sorts_after a m) eqn:Ham.
      * exists [], (a :: l). split; [reflexivity |].
        rewrite (sort_insert_ascending_head a l Hasc).
        split; [reflexivity |]. split; [constructor |].
        constructor; [now apply after_timestamp_lt | exact Hlt].
      * exists [a], l. split; [reflexivity |]. split; [reflexivity |].
        split; [| exact Hlt].
        constructor; [now apply not_after_timestamp_le | constructor].
    + subst l. cbn [app sort_insert].
      assert (Hab : timestamp_le a b).
      { inversion Hasc as [| ? ? _ Hhd]; subst. now inversion Hhd; subst. }
      rewrite (timestamp_le_not_after a b Hab).
      exists (a :: b :: l1), l2. split; [reflexivity |].
      split; [reflexivity |]. split; [| exact Hlt].
      constructor; [| exact Hle].
      apply (timestamp_le_trans a b m Hab). now inversion Hle.
Qed.

(** X15.  On a log that is in ascending order and whose dates are valid, the
    delivery of a record with a valid date moves no message: either the log
    is unchanged, or the message built from the record has been put in it,
    after the messages that are not later than it and before those that are
    later, the messages before and after it being those of the previous log
    in their previous order. *)
Theorem insertion_moves_no_message (S0 : string) (c : Clock) (room : jsval)
  (f : MessageDataField) (d : MessageData) (w : World) :
  messageData_of f = Some d ->
  ascending (messages w) -> Forall valid_date (messages w) ->
  (valid_date (newMessageFromSocket Date_parse c room d) ->
   messages (fst (on_send_message Date_parse S0 c (EnvObj room f) w))
   = messages w
   \/ exists before after,
       messages w = (before ++ after)%list
       /\ messages (fst (on_send_message Date_parse S0 c (EnvObj room f) w))
          = (before ++ newMessageFromSocket Date_parse c room d :: after)%list
       /\ Forall (fun x =>
                    timestamp_le x (newMessageFromSocket Date_parse c room d))
            before
       /\ Forall (timestamp_lt (newMessageFromSocket Date_parse c room d))
            after)
  /\ (valid_date (newFileMessageFromSocket Date_parse c room d) ->
      messages (fst (on_send_file Date_parse S0 c (EnvObj room f) w))
      = messages w
      \/ exists before after,
          messages w = (before ++ after)%list
          /\ messages (fst (on_send_file Date_parse S0 c (EnvObj room f) w))
             = (before
                ++ newFileMessageFromSocket Date_parse c room d :: after)%list
          /\ Forall (fun x =>
                       timestamp_le x
                         (newFileMessageFromSocket Date_parse c room d))
               before
          /\ Forall
               (timestamp_lt (newFileMessageFromSocket Date_parse c room d))
               after).
Proof.
  intros Hf Hasc Hv. split; intros Hm.
  - destruct (on_send_message_inserts Date_parse S0 c room f d w Hf)
      as [H | H]; [now left | right].
    destruct (insert_into_ascending (messages w) _ Hasc Hv Hm)
      as (l1 & l2 & H1 & H2 & H3 & H4).
    exists l1, l2. rewrite H. auto.
  - destruct (on_send_file_inserts Date_parse S0 c room f d w Hf)
      as [H | H]; [now left | right].
    destruct (insert_into_ascending (messages w) _ Hasc Hv Hm)
      as (l1 & l2 & H1 & H2 & H3 & H4).
    exists l1, l2. rewrite H. auto.
Qed.

End MoreProperties.

(** ** Properties of the screens *)

(** X16.  The back button of the modal always leads out: from any screen,
    at most three presses of [goBack] close the modal, and the only screens
    it navigates to are ['Home'] and ['Conversations']. *)
Theorem goBack_leads_out (currentScreen : string) :
  back_closes_within 2 currentScreen = true
  /\ (forall s, goBack currentScreen = Some s ->
      s = "Home" \/ s = "Conversations").
Proof.
  unfold back_closes_within, goBack at 1 4.
  destruct (currentScreen =? "Conversations")%string;
    [split; [reflexivity | intros s H; injection H as <-; now left] |].
  destruct (currentScreen =? "ChatDetails")%string;
    [split; [reflexivity | intros s H; injection H as <-; now left] |].
  destruct (currentScreen =? "Chat")%string;
    [split; [reflexivity | intros s H; injection H as <-; now right] |].
  split; [reflexivity | intros s H; discriminate H].
Qed.

Lemma find_first {A : Type} (f : A -> bool) (l : list A) :
  match find f l with
  | Some m =>
      exists l1 l2, l = (l1 ++ m :: l2)%list /\ f m = true
                    /\ Forall (fun x => f x = false) l1
  | None => Forall (fun x => f x = false) l
  end.
Proof.
  induction l as [| a l IH]; cbn; [constructor |].
  destruct (f a) eqn:Ha.
  - exists [], l. repeat split; auto.
  - destruct (find f l) as [m |].
    + destruct IH as (l1 & l2 & -> & Hm & Hall).
      exists (a :: l1), l2. repeat split; auto.
    + now constructor.
Qed.

(** X17.  The message that carries the escalation button is the last message
    of the bot: when [lastBotMessage] finds a message, it is a message of the
    log sent by the bot, no message after it is from the bot, and
    [lastBotMessageId] is its id; when it finds none, no message of the log
    is from the bot and [lastBotMessageId] is [null]. *)
Theorem lastBotMessage_is_last (l : list Message) :
  match lastBotMessage l with
  | Some m =>
      (exists before after,
          l = (before ++ m :: after)%list
          /\ Forall (fun x => sender x <> bot) after)
      /\ sender m = bot
      /\ lastBotMessageId l = id m
  | None =>
      Forall (fun x => sender x <> bot) l /\ lastBotMessageId l = JNull
  end.
Proof.
  unfold lastBotMessageId, lastBotMessage.
  pose proof (find_first (fun msg => sender_eqb (sender msg) bot) (rev l))
    as H.
  assert (Hnot : forall l0,
            Forall (fun x => sender_eqb (sender x) bot = false) l0 ->
            Forall (fun x => sender x <> bot) l0).
  { intros l0. apply Forall_impl. intros a Ha Hb. rewrite Hb in Ha.
    discriminate Ha. }
  destruct (find _ (rev l)) as [m |].
  - destruct H as (l1 & l2 & Hrev & Hm & Hall).
    split; [| split; [now apply sender_eqb_true | reflexivity]].
    exists (rev l2), (rev l1). split.
    + rewrite <- (rev_involutive l), Hrev, rev_app_distr. cbn.
      now rewrite <- app_assoc.
    + apply Hnot. now apply Forall_rev.
  - split; [| reflexivity].
    apply Hnot. rewrite <- (rev_involutive l). now apply Forall_rev.
Qed.

(** *** The pattern of the email *)

Lemma nullable_Matches (r : regex) : nullable r = true -> Matches r [].
Proof.
  induction r; cbn; intros H; try discriminate.
  - constructor.
  - apply andb_true_iff in H. destruct H as [H1 H2].
    change (@nil string) with (@nil string ++ [])%list. constructor; auto.
  - apply orb_true_iff in H. destruct H as [H | H];
      [apply MAltL | apply MAltR]; auto.
  - constructor.
Qed.

Lemma Matches_nullable (r : regex) (s : list string) :
  Matches r s -> s = [] -> nullable r = true.
Proof.
  induction 1; cbn; intros He; try reflexivity; try discriminate.
  - apply app_eq_nil in He. destruct He as [-> ->].
    now rewrite IHMatches1, IHMatches2.
  - now rewrite IHMatches.
  - rewrite IHMatches by assumption. apply orb_true_r.
Qed.

Lemma Matches_seq_inv (r1 r2 : regex) (s : list string) :
  Matches (RSeq r1 r2) s ->
  exists s1 s2, s = (s1 ++ s2)%list /\ Matches r1 s1 /\ Matches r2 s2.
Proof. intros H. inversion H; subst. eauto. Qed.

Lemma Matches_alt_inv (r1 r2 : regex) (s : list string) :
  Matches (RAlt r1 r2) s -> Matches r1 s \/ Matches r2 s.
Proof. intros H. inversion H; subst; auto. Qed.

(** A non-empty match of a starred pattern starts with a non-empty match of
    the pattern. *)
Lemma Matches_star_cons (r : regex) (c : string) (s : list string) :
  Matches (RStar r) (c :: s) ->
  exists s1 s2, s = (s1 ++ s2)%list /\ Matches r (c :: s1)
                /\ Matches (RStar r) s2.
Proof.
  intros H. remember (RStar r) as r0 eqn:Hr. remember (c :: s) as s0 eqn:Hs.
  revert s Hs.
  induction H; intros s0 Hs; try discriminate Hr.
  - discriminate Hs.
  - injection Hr as ->. destruct s1 as [| c1 s1].
    + cbn in Hs. now apply IHMatches2.
    + cbn in Hs. injection Hs as -> <-. exists s1, s2. auto.
Qed.

Lemma deriv_Matches (r : regex) (c : string) (s : list string) :
  Matches (deriv c r) s -> Matches r (c :: s).
Proof.
  revert s. induction r; cbn; intros s H.
  - inversion H.
  - inversion H.
  - destruct (p c) eqn:Hp; inversion H; subst. now constructor.
  - assert (Hseq : Matches (RSeq (deriv c r1) r2) s ->
                   Matches (RSeq r1 r2) (c :: s)).
    { intros H0.
      destruct (Matches_seq_inv _ _ _ H0) as (s1 & s2 & -> & H1 & H2).
      change (c :: s1 ++ s2)%list with ((c :: s1) ++ s2)%list.
      constructor; auto. }
    destruct (nullable r1) eqn:Hn; [| now apply Hseq].
    destruct (Matches_alt_inv _ _ _ H) as [H1 | H2]; [now apply Hseq |].
    change (c :: s) with ([] ++ c :: s)%list.
    constructor; auto. now apply nullable_Matches.
  - destruct (Matches_alt_inv _ _ _ H); [apply MAltL | apply MAltR]; auto.
  - destruct (Matches_seq_inv _ _ _ H) as (s1 & s2 & -> & H1 & H2).
    change (c :: s1 ++ s2)%list with ((c :: s1) ++ s2)%list.
    constructor; auto.
Qed.

Lemma Matches_deriv (r : regex) (c : string) (s : list string) :
  Matches r (c :: s) -> Matches (deriv c r) s.
Proof.
  revert s. induction r; cbn; intros s H.
  - inversion H.
  - inversion H.
  - inversion H; subst.
    match goal with Hp : p c = true |- _ => rewrite Hp end. constructor.
  - destruct (Matches_seq_inv _ _ _ H) as (s1 & s2 & Heq & H1 & H2).
    destruct s1 as [| c1 s1].
    + cbn in Heq. subst s2.
      rewrite (Matches_nullable r1 [] H1 eq_refl).
      apply MAltR. auto.
    + cbn in Heq. injection Heq as <- ->.
      destruct (nullable r1); [apply MAltL |]; constructor; auto.
  - destruct (Matches_alt_inv _ _ _ H); [apply MAltL | apply MAltR]; auto.
  - destruct (Matches_star_cons r c s H) as (s1 & s2 & -> & H1 & H2).
    constructor; auto.
Qed.

(** The test computes membership in the language of the pattern. *)
Lemma regex_test_Matches (r : regex) (s : list string) :
  regex_test r s = true <-> Matches r s.
Proof.
  revert r. induction s as [| c s IH]; intros r; cbn.
  - split; [apply nullable_Matches |].
    intros H. now apply (Matches_nullable r []).
  - rewrite IH. split; [apply deriv_Matches | apply Matches_deriv].
Qed.

Lemma Matches_set_inv (p : string -> bool) (s : list string) :
  Matches (RSet p) s -> exists c, s = [c] /\ p c = true.
Proof. intros H. inversion H; subst. eauto. Qed.

Lemma Matches_star_plain (s : list string) :
  Matches (RStar (RSet not_space_or_at)) s <-> plain s = true.
Proof.
  split.
  - intros H. remember (RStar (RSet not_space_or_at)) as r eqn:Hr.
    induction H; try discriminate Hr; [reflexivity |].
    injection Hr as ->.
    destruct (Matches_set_inv _ _ H) as (c & -> & Hc).
    cbn. rewrite Hc. now apply IHMatches2.
  - induction s as [| c s IH]; cbn; intros H; [constructor |].
    apply andb_true_iff in H. destruct H as [Hc Hs].
    change (c :: s) with ([c] ++ s)%list.
    constructor; [now constructor | auto].
Qed.

Lemma Matches_plus_plain (s : list string) :
  Matches (RPlus (RSet not_space_or_at)) s <-> s <> [] /\ plain s = true.
Proof.
  unfold RPlus. split.
  - intros H.
    destruct (Matches_seq_inv _ _ _ H) as (s1 & s2 & -> & H1 & H2).
    destruct (Matches_set_inv _ _ H1) as (c & -> & Hc).
    split; [discriminate |]. cbn. rewrite Hc.
    now apply Matches_star_plain.
  - intros [Hne Hp]. destruct s as [| c s]; [contradiction |].
    cbn in Hp. apply andb_true_iff in Hp. destruct Hp as [Hc Hs].
    change (c :: s) with ([c] ++ s)%list.
    constructor; [now constructor | now apply Matches_star_plain].
Qed.

(** X18.  The email pattern of the details form accepts exactly the strings
    whose characters are a name, one ['@'], a domain, a dot and an ending,
    where the name, the domain and the ending are non-empty and hold neither
    a white space character (those beyond ASCII included) nor ['@']. *)
Theorem emailRegex_shape (s : string) :
  regex_test emailRegex (chars s) = true
  <-> exists a b c,
        chars s = (a ++ "@" :: b ++ "." :: c)%list
        /\ a <> [] /\ b <> [] /\ c <> []
        /\ plain a = true /\ plain b = true /\ plain c = true.
Proof.
  rewrite regex_test_Matches. unfold emailRegex. split.
  - intros H.
    destruct (Matches_seq_inv _ _ _ H) as (a & s2 & Hs & Ha & H2).
    destruct (Matches_seq_inv _ _ _ H2) as (x & s3 & -> & Hx & H3).
    destruct (Matches_seq_inv _ _ _ H3) as (b & s4 & -> & Hb & H4).
    destruct (Matches_seq_inv _ _ _ H4) as (y & c & -> & Hy & Hc).
    destruct (Matches_set_inv _ _ Hx) as (cx & -> & Hcx).
    destruct (Matches_set_inv _ _ Hy) as (cy & -> & Hcy).
    apply String.eqb_eq in Hcx, Hcy. subst cx cy.
    apply Matches_plus_plain in Ha, Hb, Hc.
    exists a, b, c. rewrite Hs. intuition.
  - intros (a & b & c & -> & Ha & Hb & Hc & Hpa & Hpb & Hpc).
    constructor; [now apply Matches_plus_plain |].
    change ("@" :: b ++ "." :: c)%list with (["@"] ++ (b ++ "." :: c))%list.
    constructor; [now constructor |].
    constructor; [now apply Matches_plus_plain |].
    change ("." :: c) with (["."] ++ c)%list.
    constructor; [now constructor | now apply Matches_plus_plain].
Qed.

Section ScreenProperties.

Variable Date_parse : string -> option Z.
Variable props : Props.

(** *** ChatScreen *)

(** X19.  [handleSendMessage] does nothing when the trimmed input is empty
    and no send is in progress.  Otherwise it clears the input, marks the
    send in progress and puts one message of the user, carrying the trimmed
    input, at the end of the log; that message stays there whatever becomes
    of the send: when no connected client or no session is there, nothing is
    emitted and the error is stored, and the message is in the log all the
    same.  The status, the session id and the stored id are never touched. *)
Theorem handleSendMessage_keeps_optimistic_message (c : Clock)
  (thrown : option string) (loc : ChatLocal) (w : World) :
  (trim (inputText loc) = "" -> isSending loc = false ->
   handleSendMessage props c thrown loc w = (loc, w))
  /\ (trim (inputText loc) <> "" \/ isSending loc = true ->
      inputText (fst (handleSendMessage props c thrown loc w)) = ""
      /\ isSending (fst (handleSendMessage props c thrown loc w)) = true
      /\ (exists m,
             messages (snd (handleSendMessage props c thrown loc w))
             = (messages w ++ [m])%list
             /\ sender m = user
             /\ text m = JStr (trim (inputText loc)))
      /\ (disconnected w ->
          sessionError (snd (handleSendMessage props c thrown loc w))
          = Some "Cannot send message/file: Chat not connected."
          /\ effects_since w (snd (handleSendMessage props c thrown loc w))
             = []))
  /\ sessionStatus (snd (handleSendMessage props c thrown loc w))
     = sessionStatus w
  /\ sessionId (snd (handleSendMessage props c thrown loc w)) = sessionId w
  /\ storage (snd (handleSendMessage props c thrown loc w)) = storage w.
Proof.
  unfold handleSendMessage.
  split; [| split].
  - intros Ht Hs. rewrite Ht, Hs. reflexivity.
  - intros Hgo.
    assert (Hguard : ((trim (inputText loc) =? "")%string
                      && negb (isSending loc))%bool = false).
    { destruct Hgo as [Hne | Hs].
      - apply String.eqb_neq in Hne. now rewrite Hne.
      - rewrite Hs. apply andb_false_r. }
    rewrite Hguard. cbv zeta. cbn [fst snd inputText isSending].
    split; [reflexivity |]. split; [reflexivity |].
    match goal with
    | |- context [addMessageToState ?m w] => set (msg := m)
    end.
    pose proof (send_touches_no_session_cell props (trim (inputText loc))
                  None None (HttpOk (Json tt)) thrown
                  (addMessageToState msg w)) as (_ & _ & _ & Hm).
    split.
    + exists msg. rewrite Hm. repeat split.
    + intros Hd. unfold sendMessageViaSocket, effects_since.
      unfold disconnected in Hd. cbn [socketRef sessionId addMessageToState
                                        setMessages].
      destruct (socketRef w) as [s |] eqn:Hsock.
      * destruct Hd as [Hd | [(s0 & Hs0 & Hc) | Hd]]; [discriminate | |].
        -- injection Hs0 as <-. rewrite Hc. cbn.
           rewrite skipn_length_self. now split.
        -- rewrite Hd. rewrite orb_true_r. cbn.
           rewrite skipn_length_self. now split.
      * cbn. rewrite skipn_length_self. now split.
  - destruct ((trim (inputText loc) =? "")%string
              && negb (isSending loc))%bool; [now repeat split |].
    cbv zeta. cbn [snd].
    match goal with
    | |- context [addMessageToState ?m w] => set (msg := m)
    end.
    pose proof (send_touches_no_session_cell props (trim (inputText loc))
                  None None (HttpOk (Json tt)) thrown
                  (addMessageToState msg w)) as (H1 & H2 & H3 & _).
    rewrite H1, H2, H3. repeat split.
Qed.

(** X20.  When the bot cannot be paused (the request is rejected or its
    response is not [ok]), the escalation is given up: nothing is added to
    the log, nothing is emitted, the one effect is the request, the
    escalation mark is back to [null] and an alert with a non-empty message
    is shown.  And the handler does nothing at all while there is no session
    id, no public key, or an escalation in progress. *)
Theorem escalation_gives_up_when_pause_fails (c : Clock) (messageId : jsval)
  (r : Response unit) (thrown : option string) (loc : ChatLocal) (w : World) :
  (truthy_str (sessionId w) = false \/ truthy_str (publicKey props) = false
   \/ escalatingMessageId loc <> JNull ->
   handleEscalateToAgent props c messageId r thrown loc w = (loc, w, None))
  /\ (truthy_str (sessionId w) = true -> truthy_str (publicKey props) = true ->
      escalatingMessageId loc = JNull -> upload_fails r ->
      let res := handleEscalateToAgent props c messageId r thrown loc w in
      messages (snd (fst res)) = messages w
      /\ effects_since w (snd (fst res))
         = [EvFetch stopBotUrl
              [("session_id", sessionId w); ("pause_bot", Some "true")]]
      /\ escalatingMessageId (fst (fst res)) = JNull
      /\ exists m, snd res = Some m /\ m <> "").
Proof.
  split.
  - unfold handleEscalateToAgent. intros [H | [H | H]].
    + now rewrite H.
    + rewrite H. now rewrite orb_true_r.
    + assert (He : strict_eq (escalatingMessageId loc) JNull = false).
      { destruct (strict_eq (escalatingMessageId loc) JNull) eqn:E;
          [| reflexivity].
        apply strict_eq_true in E. contradiction. }
      rewrite He. now rewrite !orb_true_r.
  - intros Hs Hk He Hf res. subst res. unfold handleEscalateToAgent.
    rewrite Hs, Hk, He. cbn [negb orb strict_eq].
    unfold pause_failure, effects_since.
    destruct r as [m | st stt [m | msg] | body]; cbn in Hf; try contradiction;
      cbn; rewrite skipn_length_app; repeat split;
      eexists; (split; [reflexivity |]);
      first [ apply message_or_nonempty; discriminate | discriminate ].
Qed.

(** *** ChatDetailsScreen *)

(** X21.  The details form sends nothing it has not validated.  When the
    trimmed email or the trimmed name is empty, or the trimmed email does not
    have the shape of [emailRegex], [handleContinueToChat] leaves the
    provider untouched, shows an error and does not navigate.  When a session
    without profile is there and the input is valid, its one effect is the
    [setProfile] request for that session with the trimmed email and name,
    and it navigates to the chat exactly when that call succeeds. *)
Theorem details_form_validates (fresh : nat -> Z * string)
  (r_profile : Response ProfileData) (r_create : Response InitiateData)
  (r_get : Response SessionData) (form : DetailsForm) (w : World) :
  let res := handleContinueToChat Date_parse props fresh r_profile r_create
               r_get form w in
  (trim (localEmail form) = "" \/ trim (localName form) = ""
   \/ regex_test emailRegex (chars (trim (localEmail form))) = false ->
   fst (fst res) = w /\ snd res = false /\ errorMessage (snd (fst res)) <> "")
  /\ (trim (localEmail form) <> "" -> trim (localName form) <> "" ->
      regex_test emailRegex (chars (trim (localEmail form))) = true ->
      truthy_str (sessionId w) = true -> sessionProfileExists w = false ->
      effects_since w (fst (fst res))
      = [EvFetch setProfileUrl
           [("session_id", sessionId w);
            ("email", Some (trim (localEmail form)));
            ("name", Some (trim (localName form)))]]
      /\ errorMessage (snd (fst res)) = ""
      /\ snd res
         = snd (setProfile (sessionId w) (trim (localEmail form))
                  (trim (localName form)) r_profile w)).
Proof.
  intros res. subst res. unfold handleContinueToChat. cbv zeta. split.
  - intros H.
    destruct ((trim (localEmail form) =? "")%string
              || (trim (localName form) =? "")%string)%bool eqn:Hblank.
    + cbn. repeat split. discriminate.
    + destruct H as [H | [H | H]].
      * rewrite H in Hblank. discriminate Hblank.
      * rewrite H in Hblank. rewrite orb_true_r in Hblank.
        discriminate Hblank.
      * rewrite H. cbn. repeat split. discriminate.
  - intros He Hn Hre Hs Hp.
    apply String.eqb_neq in He, Hn. rewrite He, Hn, Hre, Hs, Hp.
    cbn [orb negb andb fst snd errorMessage].
    pose proof (setProfile_touches_profile_only (sessionId w) (trim (localEmail form))
                  (trim (localName form)) r_profile w)
      as (_ & _ & _ & _ & Heff & _).
    split; [exact Heff |]. split; [reflexivity |].
    rewrite andb_false_r. apply orb_false_r.
Qed.

End ScreenProperties.

(** ** The further properties on the sample runs *)

Lemma sample_created_succeeds : createSession_succeeds sample_created "S1".
Proof.
  exists (mkInitiateData true (Some "S1") None). repeat split; discriminate.
Defined.

Lemma sample_closed_succeeds :
  fetchSession_succeeds (HttpOk (Json sample_closed_data)) sample_closed_data.
Proof. split; reflexivity. Defined.

(** X1 on a sample: a client for ["S2"] replaces the client of ["S1"]. *)
Lemma connectSocket_replaces_client_witness :
  "S2" <> ""
  /\ socketRef (connectSocket (Some "S2") sample_active)
     = Some (mkSocket "S2" false)
  /\ effects_since sample_active (connectSocket (Some "S2") sample_active)
     = [EvSocketClose "S1"; EvSocketOpen "S2"].
Proof.
  assert (Hne : "S2" <> "") by discriminate.
  split; [exact Hne |].
  destruct (proj2 (connectSocket_replaces_client (Some "S2") sample_active)
              "S2" eq_refl Hne) as (H1 & H2 & _).
  split; [exact H1 | exact H2].
Defined.

(** X4 on a sample: the creation is answered 401. *)
Lemma initiateSession_failure_resets_witness :
  createSession_fails sample_rejected_creation
  /\ messages
       (fst (initiateSession sample_parse sample_props sample_fresh None None
               None sample_rejected_creation sample_fetched sample_active))
     = []
  /\ storage
       (fst (initiateSession sample_parse sample_props sample_fresh None None
               None sample_rejected_creation sample_fetched sample_active))
     = storage sample_active.
Proof.
  split; [exact I |].
  destruct (initiateSession_failure_resets sample_parse sample_props
              sample_fresh None None None sample_rejected_creation
              sample_fetched sample_active I)
    as (_ & H2 & _ & _ & H5 & _).
  split; [exact H2 | exact H5].
Defined.

(** X5 on a sample: the session just created is reported closed. *)
Lemma initiateSession_reads_closed_as_active_witness :
  createSession_succeeds sample_created "S1"
  /\ fetchSession_succeeds (HttpOk (Json sample_closed_data))
       sample_closed_data
  /\ sd_status sample_closed_data = Some "closed"
  /\ sessionStatus
       (fst (initiateSession sample_parse sample_props sample_fresh None None
               None sample_created (HttpOk (Json sample_closed_data))
               sample_offline)) = active.
Proof.
  split; [exact sample_created_succeeds |].
  split; [exact sample_closed_succeeds |]. split; [reflexivity |].
  exact (proj1 (proj2 (initiateSession_reads_closed_as_active sample_parse
                         sample_props sample_fresh None None None
                         sample_created (HttpOk (Json sample_closed_data))
                         "S1" sample_closed_data sample_offline
                         sample_created_succeeds sample_closed_succeeds
                         eq_refl))).
Defined.

(** X6 on a sample: the closed session ["S2"] is hydrated while a client of
    ["S1"] is held. *)
Lemma closed_session_never_connects_witness :
  truthy_str (Some "S2") = true
  /\ fetchSession_succeeds (HttpOk (Json sample_closed_data))
       sample_closed_data
  /\ sd_status sample_closed_data = Some "closed"
  /\ socketRef
       (fst (getSession sample_parse sample_fresh (Some "S2")
               (HttpOk (Json sample_closed_data)) sample_active))
     = socketRef sample_active.
Proof.
  split; [reflexivity |]. split; [exact sample_closed_succeeds |].
  split; [reflexivity |].
  exact (proj1 (proj2 (proj2 (closed_session_never_connects sample_parse
                                sample_fresh (Some "S2")
                                (HttpOk (Json sample_closed_data))
                                sample_closed_data sample_active eq_refl
                                sample_closed_succeeds eq_refl)))).
Defined.

(** X7 on a sample: the two records of the history of ["S2"]. *)
Lemma hydration_keeps_every_record_witness :
  truthy_str (Some "S2") = true
  /\ fetchSession_succeeds (HttpOk (Json sample_closed_data))
       sample_closed_data
  /\ List.length
       (messages
          (fst (getSession sample_parse sample_fresh (Some "S2")
                  (HttpOk (Json sample_closed_data)) sample_active)))
     = List.length (sd_messages sample_closed_data).
Proof.
  split; [reflexivity |]. split; [exact sample_closed_succeeds |].
  exact (proj1 (hydration_keeps_every_record sample_parse sample_fresh
                  (Some "S2") (HttpOk (Json sample_closed_data))
                  sample_closed_data sample_active eq_refl
                  sample_closed_succeeds)).
Defined.

(** X8 on a sample: the name ['Ada Lovelace']. *)
Lemma name_is_split_at_first_space_witness :
  setProfile_succeeds sample_profile_set
  /\ has_space "Ada Lovelace" = true
  /\ "Ada Lovelace"
     = firstName
         (fst (setProfile (Some "S1") "ada@example.com" "Ada Lovelace"
                 sample_profile_set sample_pending)) ++ " "
       ++ lastName
            (fst (setProfile (Some "S1") "ada@example.com" "Ada Lovelace"
                    sample_profile_set sample_pending)).
Proof.
  assert (Hs : setProfile_succeeds sample_profile_set)
    by (exists (mkProfileData true); split; reflexivity).
  split; [exact Hs |]. split; [reflexivity |].
  exact (proj2 (proj2 (proj1 (name_is_split_at_first_space sample_parse
                                sample_fresh (Some "S1") "ada@example.com"
                                "Ada Lovelace" sample_profile_set
                                sample_fetched sample_closed_data
                                sample_pending) Hs)) eq_refl).
Defined.

(** X9 on a sample: the backend cannot be reached. *)
Lemma setProfile_frame_witness :
  snd (setProfile (Some "S1") "ada@example.com" "Ada Lovelace"
         sample_unreachable sample_pending) = false
  /\ email
       (fst (setProfile (Some "S1") "ada@example.com" "Ada Lovelace"
               sample_unreachable sample_pending)) = email sample_pending.
Proof.
  split; [reflexivity |].
  destruct (setProfile_frame (Some "S1") "ada@example.com" "Ada Lovelace"
              sample_unreachable sample_pending)
    as (_ & _ & _ & _ & _ & H).
  exact (proj1 (H eq_refl)).
Defined.

(** X11 on a sample: a text is sent in the active session ["S1"]. *)
Lemma text_is_emitted_once_witness :
  socketRef sample_active = Some sample_socket
  /\ sock_connected sample_socket = true
  /\ sessionId sample_active = Some "S1"
  /\ "S1" <> ""
  /\ truthy_str None = false
  /\ exists author,
      author <> ""
      /\ (email sample_active <> "" -> author = email sample_active)
      /\ (email sample_active = "" ->
          trim (firstName sample_active ++ " " ++ lastName sample_active)
          <> "" ->
          author
          = trim (firstName sample_active ++ " " ++ lastName sample_active))
      /\ (email sample_active = "" ->
          trim (firstName sample_active ++ " " ++ lastName sample_active) = ""
          -> author = "anonymous")
      /\ sendMessageViaSocket sample_props "hello" None None
           sample_unreachable None sample_active
         = perform
             (EvEmit "send_message" "S1"
                [("origin", Some "frontend"); ("message", Some "hello");
                 ("message_type", Some "QUERY");
                 ("channel", Some "external");
                 ("author", Some author); ("author_type", Some "HUMAN");
                 ("conversation_id", Some "S1");
                 ("organisation_id", publicKey sample_props);
                 ("file", None); ("filename", None)]) sample_active.
Proof.
  assert (Hne : "S1" <> "") by discriminate.
  split; [reflexivity |]. split; [reflexivity |]. split; [reflexivity |].
  split; [exact Hne |]. split; [reflexivity |].
  exact (text_is_emitted_once sample_props "hello" None None
           sample_unreachable sample_socket "S1" sample_active eq_refl eq_refl
           eq_refl Hne eq_refl).
Defined.

(** X12 on a sample: a client is opened for ["S1"] in the offline world. *)
Lemma send_waits_for_connect_witness :
  "S1" <> "" /\ sessionId sample_offline = Some "S1"
  /\ effects_since (connectSocket (Some "S1") sample_offline)
       (socket_connected (connectSocket (Some "S1") sample_offline))
     = [EvEmit "join" "S1" []].
Proof.
  assert (Hne : "S1" <> "") by discriminate.
  split; [exact Hne |]. split; [reflexivity |].
  exact (proj1 (proj2 (send_waits_for_connect sample_props "hello" "S1" "S1"
                         sample_offline Hne eq_refl Hne))).
Defined.

(** X13 on a sample: the stored session ["S2"] is resumed at mount. *)
Lemma resume_creates_no_session_witness :
  storage (initialWorld sample_props (Some "S2")) = Some "S2"
  /\ "S2" <> ""
  /\ autoProfileDue sample_props (initialWorld sample_props (Some "S2")) = false
  /\ fetchSession_succeeds (HttpOk (Json sample_closed_data))
       sample_closed_data
  /\ storage
       (setupCuoral sample_parse sample_props PushDenied sample_fresh
          (HttpOk (Json sample_closed_data)) sample_unreachable
          sample_unreachable sample_unreachable
          (initialWorld sample_props (Some "S2"))) = Some "S2".
Proof.
  assert (Hne : "S2" <> "") by discriminate.
  split; [reflexivity |]. split; [exact Hne |]. split; [reflexivity |].
  split; [exact sample_closed_succeeds |].
  exact (proj1 (proj2 (resume_creates_no_session sample_parse sample_props
                         PushDenied sample_fresh "S2" sample_closed_data
                         (HttpOk (Json sample_closed_data)) sample_unreachable
                         sample_unreachable sample_unreachable
                         (initialWorld sample_props (Some "S2")) eq_refl Hne
                         eq_refl sample_closed_succeeds))).
Defined.

(** X14 on a sample: the session is reset and the creation is answered
    401. *)
Lemma reset_forgets_the_session_witness :
  createSession_fails sample_rejected_creation
  /\ storage
       (fst (clearSessionAndInitiateNew sample_parse sample_props sample_fresh
               sample_rejected_creation sample_fetched sample_active)) = None.
Proof.
  split; [exact I |].
  exact (proj1 (proj1 (reset_forgets_the_session sample_parse sample_props
                         sample_fresh sample_rejected_creation sample_fetched
                         sample_active) I)).
Defined.

(** X15 on a sample: a reply stamped 1500 reaches a log whose messages are
    stamped 1000 and 2000, and is put between them. *)
Lemma insertion_moves_no_message_witness :
  messageData_of (MDObj sample_reply_data) = Some sample_reply_data
  /\ ascending (messages sample_two_messages)
  /\ Forall valid_date (messages sample_two_messages)
  /\ valid_date
       (newMessageFromSocket sample_parse sample_clock (JStr "S1")
          sample_reply_data)
  /\ messages
       (fst (on_send_message sample_parse "S1" sample_clock sample_reply
               sample_two_messages))
     = [sample_early;
        newMessageFromSocket sample_parse sample_clock (JStr "S1")
          sample_reply_data;
        sample_hello]
  /\ (messages
        (fst (on_send_message sample_parse "S1" sample_clock sample_reply
                sample_two_messages)) = messages sample_two_messages
      \/ exists before after,
          messages sample_two_messages = (before ++ after)%list
          /\ messages
               (fst (on_send_message sample_parse "S1" sample_clock
                       sample_reply sample_two_messages))
             = (before
                ++ newMessageFromSocket sample_parse sample_clock (JStr "S1")
                     sample_reply_data :: after)%list
          /\ Forall
               (fun x =>
                  timestamp_le x
                    (newMessageFromSocket sample_parse sample_clock
                       (JStr "S1") sample_reply_data)) before
          /\ Forall
               (timestamp_lt
                  (newMessageFromSocket sample_parse sample_clock (JStr "S1")
                     sample_reply_data)) after).
Proof.
  assert (Ha : ascending (messages sample_two_messages)).
  { repeat constructor. cbn. lia. }
  assert (Hv : Forall valid_date (messages sample_two_messages)).
  { repeat constructor; discriminate. }
  assert (Hm : valid_date
                 (newMessageFromSocket sample_parse sample_clock (JStr "S1")
                    sample_reply_data)) by discriminate.
  split; [reflexivity |]. split; [exact Ha |]. split; [exact Hv |].
  split; [exact Hm |]. split; [reflexivity |].
  exact (proj1 (insertion_moves_no_message sample_parse "S1" sample_clock
                  (JStr "S1") (MDObj sample_reply_data) sample_reply_data
                  sample_two_messages eq_refl Ha Hv) Hm).
Defined.

(** X16 on a sample: back from the chat. *)
Lemma goBack_leads_out_witness :
  goBack "Chat" = Some "Conversations"
  /\ ("Conversations" = "Home" \/ "Conversations" = "Conversations").
Proof.
  split; [reflexivity |].
  exact (proj2 (goBack_leads_out "Chat") "Conversations" eq_refl).
Defined.

(** X18 on a sample: a well-formed address. *)
Lemma emailRegex_shape_witness :
  regex_test emailRegex (chars "ada@example.com") = true
  /\ exists a b c,
      chars "ada@example.com" = (a ++ "@" :: b ++ "." :: c)%list
      /\ a <> [] /\ b <> [] /\ c <> []
      /\ plain a = true /\ plain b = true /\ plain c = true.
Proof.
  split; [reflexivity |].
  exact (proj1 (emailRegex_shape "ada@example.com") eq_refl).
Defined.

(** X19 on a sample: a text is typed while no client is held. *)
Lemma handleSendMessage_keeps_optimistic_message_witness :
  (trim (inputText sample_typing) <> "" \/ isSending sample_typing = true)
  /\ disconnected sample_offline
  /\ exists m,
      messages
        (snd (handleSendMessage sample_props sample_clock None sample_typing
                sample_offline))
      = (messages sample_offline ++ [m])%list
      /\ sender m = user
      /\ text m = JStr (trim (inputText sample_typing)).
Proof.
  assert (Hgo : trim (inputText sample_typing) <> ""
                \/ isSending sample_typing = true) by (left; discriminate).
  split; [exact Hgo |]. split; [left; reflexivity |].
  exact (proj1 (proj2 (proj2 (proj1 (proj2
           (handleSendMessage_keeps_optimistic_message sample_props
              sample_clock None sample_typing sample_offline)) Hgo)))).
Defined.

(** X20 on a sample: the request that pauses the bot is rejected. *)
Lemma escalation_gives_up_when_pause_fails_witness :
  truthy_str (sessionId sample_active) = true
  /\ truthy_str (publicKey sample_props) = true
  /\ escalatingMessageId sample_typing = JNull
  /\ upload_fails sample_unreachable
  /\ messages
       (snd (fst (handleEscalateToAgent sample_props sample_clock (JStr "t1")
                    sample_unreachable None sample_typing sample_active)))
     = messages sample_active.
Proof.
  split; [reflexivity |]. split; [reflexivity |]. split; [reflexivity |].
  split; [exact I |].
  exact (proj1 (proj2 (escalation_gives_up_when_pause_fails sample_props
                         sample_clock (JStr "t1") sample_unreachable None
                         sample_typing sample_active) eq_refl eq_refl eq_refl
                  I)).
Defined.

(** X21 on samples: an address without ['@'], then a valid form for the
    session ["S1"] whose profile is missing. *)
Lemma details_form_validates_witness :
  regex_test emailRegex (chars (trim (localEmail sample_form))) = false
  /\ fst (fst (handleContinueToChat sample_parse sample_props sample_fresh
                 sample_profile_set sample_created sample_fetched sample_form
                 sample_pending)) = sample_pending
  /\ trim (localEmail sample_valid_form) <> ""
  /\ trim (localName sample_valid_form) <> ""
  /\ regex_test emailRegex (chars (trim (localEmail sample_valid_form))) = true
  /\ truthy_str (sessionId sample_pending) = true
  /\ sessionProfileExists sample_pending = false
  /\ effects_since sample_pending
       (fst (fst (handleContinueToChat sample_parse sample_props sample_fresh
                    sample_profile_set sample_created sample_fetched
                    sample_valid_form sample_pending)))
     = [EvFetch setProfileUrl
          [("session_id", sessionId sample_pending);
           ("email", Some (trim (localEmail sample_valid_form)));
           ("name", Some (trim (localName sample_valid_form)))]].
Proof.
  assert (H1 : trim (localEmail sample_valid_form) <> "") by discriminate.
  assert (H2 : trim (localName sample_valid_form) <> "") by discriminate.
  split; [reflexivity |].
  split.
  { exact (proj1 (proj1 (details_form_validates sample_parse sample_props
                           sample_fresh sample_profile_set sample_created
                           sample_fetched sample_form sample_pending)
                    (or_intror (or_intror eq_refl)))). }
  split; [exact H1 |]. split; [exact H2 |]. split; [reflexivity |].
  split; [reflexivity |]. split; [reflexivity |].
  exact (proj1 (proj2 (details_form_validates sample_parse sample_props
                         sample_fresh sample_profile_set sample_created
                         sample_fetched sample_valid_form sample_pending)
                  H1 H2 eq_refl eq_refl eq_refl)).
Defined.

(** ** White space outside ASCII

    The no-break space is white space for [trim] and for [\s]: an input made
    of it is blank, and an address that holds it is refused. *)

Example no_break_space_is_trimmed :
  trim (nbsp ++ " hi there" ++ nbsp) = "hi there" /\ trim nbsp = "".
Proof. split; reflexivity. Qed.

Example blank_input_is_not_sent :
  handleSendMessage sample_props sample_clock None
    (mkChatLocal nbsp false JNull) sample_active
  = (mkChatLocal nbsp false JNull, sample_active).
Proof. reflexivity. Qed.

Example address_with_no_break_space_is_refused :
  regex_test emailRegex (chars ("a" ++ nbsp ++ "b@c.d")) = false
  /\ handleContinueToChat sample_parse sample_props sample_fresh
       sample_profile_set sample_created sample_fetched
       (mkDetailsForm ("a" ++ nbsp ++ "b@c.d") "Ada Lovelace" "")
       sample_pending
     = (sample_pending,
        mkDetailsForm ("a" ++ nbsp ++ "b@c.d") "Ada Lovelace"
          "Please enter a valid email address.",
        false).
Proof. split; reflexivity. Qed.
